(** * Persona-switching chatbot: the routing pipeline and its storage

    A shallow embedding of [backend.py] (the four pipeline nodes, the
    graph that runs them and the HTTP endpoints) and of [database.py]
    (the [DatabaseManager] methods), followed by the properties of the
    routing pipeline.

    Conventions of the embedding.
    - A Python [str] is a [string]; a character is a code point below 256.
    - The tables of the database are lists of rows in commit order.  The
      constraints of the schema (primary key, UNIQUE, FOREIGN KEY with
      ON DELETE CASCADE, the widths of the [VARCHAR] columns) are
      enforced by the operations, as the engine does.
    - psycopg2 refuses a [str] parameter that holds a NUL character.  This
      is modelled where a parameter is stored, in the three [INSERT]
      statements; where a parameter is only compared ([SELECT], [DELETE])
      it is not.
    - [CURRENT_TIMESTAMP] is the reading of the server clock; the readings
      to come are part of the database and nothing is assumed about them.
    - The collation of the database, under which [ORDER BY persona_name]
      sorts, is a parameter of the development.
    - The language model is reached only through [llm.invoke]; what it
      answers is a script of replies, one per invocation, so that nothing
      is assumed about it.  Its reply content is taken to be a [str].
    - Python's [json.loads] and [datetime.isoformat] are parameters of
      the development. *)

From Stdlib Require Import Ascii String.
From Stdlib Require Import ZArith Floats.
From stdpp Require Import base tactics option list relations sorting strings pretty.

Local Open Scope string_scope.
Local Open Scope list_scope.
Local Open Scope nat_scope.

(** ** Python strings *)

Module PyStr.

(** [str.isspace] on one character, for the code points below 256:
    TAB..CR, FS..US, SPACE, NEL and NBSP. *)
Definition isspace (c : ascii) : bool :=
  let n := nat_of_ascii c in
  (((9 <=? n) && (n <=? 13)) || ((28 <=? n) && (n <=? 32))
   || (n =? 133) || (n =? 160))%nat.

(** [not s]: the empty string is the only falsy one. *)
Definition falsy (s : string) : bool :=
  match s with EmptyString => true | String _ _ => false end.

Fixpoint lstrip (s : string) : string :=
  match s with
  | EmptyString => EmptyString
  | String c s' => if isspace c then lstrip s' else s
  end.

Fixpoint rstrip (s : string) : string :=
  match s with
  | EmptyString => EmptyString
  | String c s' =>
      let r := rstrip s' in
      if isspace c && falsy r then EmptyString else String c r
  end.

(** [s.strip()] *)
Definition strip (s : string) : string := lstrip (rstrip s).




(** [a or b] on strings. *)
Definition or_else (a b : string) : string := if falsy a then b else a.

End PyStr.

(** ** JSON values, as [json.loads] builds them *)

(** A number is an [int] or a [float]; a [dict] is the list of its
    items. *)
#[warnings="-register-all"] Inductive json : Type :=
| JNull
| JBool (b : bool)
| JInt (n : Z)
| JFloat (x : float)
| JStr (s : string)
| JList (items : list json)
| JDict (items : list (string * json)).

(** The parameter: [json_loads raw] is [None] when [json.loads(raw)]
    raises and [Some v] when it returns [v]. *)
Class JSONDecoder := json_loads : string → option json.

Module Py.

(** [bool(v)] *)
Definition truthy (v : json) : bool :=
  match v with
  | JNull => false
  | JBool b => b
  | JInt n => negb (Z.eqb n 0)
  | JFloat x => negb (PrimFloat.eqb x 0%float)
  | JStr s => negb (PyStr.falsy s)
  | JList l => match l with [] => false | _ => true end
  | JDict d => match d with [] => false | _ => true end
  end.

(** [type(v).__name__], for the text of an [AttributeError]. *)
Definition type_name (v : json) : string :=
  match v with
  | JNull => "NoneType"
  | JBool _ => "bool"
  | JInt _ => "int"
  | JFloat _ => "float"
  | JStr _ => "str"
  | JList _ => "list"
  | JDict _ => "dict"
  end.

Fixpoint assoc (k : string) (items : list (string * json)) : option json :=
  match items with
  | [] => None
  | (k', v) :: rest => if decide (k = k') then Some v else assoc k rest
  end.

(** [a or b]: [None] stands for Python's [None] that [dict.get] gives. *)
Definition or_else (a : option json) (b : json) : json :=
  match a with
  | Some v => if truthy v then v else b
  | None => b
  end.

End Py.

(** ** Exceptions and HTTP results *)

Inductive exn : Type :=
| OperationalError                          (* psycopg2: no connection *)
| IntegrityError                            (* psycopg2: constraint violated *)
| DataError (width : nat)                   (* psycopg2: value too long *)
| ValueError                                (* psycopg2: NUL in a parameter *)
| AttributeError (type attr : string)
| KeyError (key : string)
| LLMError (reason : string)                (* whatever [llm.invoke] raises *)
| GraphRecursionError
| HTTPException (status : nat) (detail : string).

(** [str(e)].  The text psycopg2 and LangGraph put in their errors is not
    modelled beyond a fixed phrase. *)
Definition str_exn (e : exn) : string :=
  match e with
  | OperationalError => "could not connect to server"
  | IntegrityError => "integrity constraint violated"
  | DataError n =>
      "value too long for type character varying(" +:+ pretty n +:+ ")"
  | ValueError => "A string literal cannot contain NUL (0x00) characters."
  | AttributeError t a =>
      "'" +:+ t +:+ "' object has no attribute '" +:+ a +:+ "'"
  | KeyError k => "'" +:+ k +:+ "'"
  | LLMError reason => reason
  | GraphRecursionError => "Recursion limit of 25 reached"
  | HTTPException status detail => pretty status +:+ ": " +:+ detail
  end.

Inductive res (A : Type) : Type :=
| Ok (a : A)
| Raise (e : exn).
Arguments Ok {A} a.
Arguments Raise {A} e.

(** What an endpoint answers: a body, or the [HTTPException] it raised. *)
Inductive http (A : Type) : Type :=
| Http200 (body : A)
| HttpError (status : nat) (detail : string).
Arguments Http200 {A} body.
Arguments HttpError {A} status detail.

(** ** The database *)

Record conv_row := ConvRow {
  c_user : string;
  c_persona : string;
  c_role : string;
  c_message : string;
  c_timestamp : nat
}.

Record prof_row := ProfRow {
  p_user : string;
  p_profession : string;
  p_prompt : string
}.

(** [up] says whether [psycopg2.connect] succeeds; [clock i] is the reading
    of the server clock, [CURRENT_TIMESTAMP], at the [i]-th insert to
    come. *)
Record DB := MkDB {
  up : bool;
  users : list string;
  conversations : list conv_row;
  professions : list prof_row;
  clock : nat → nat
}.

(** The collation of the database: [collate a b] says that [a] does not
    sort after [b].  It is taken to be deterministic, as the collations
    PostgreSQL comes with are: two labels that differ are not equal
    under it. *)
Class Collation := collate : string → string → bool.

(** [datetime.isoformat], on the timestamps of the rows. *)
Class ISOFormat := isoformat : nat → string.

(** A row of a history, as [dict(row)] of [SELECT role, message, timestamp]. *)
Record turn := Turn {
  role : string;
  message : string;
  timestamp : nat
}.

(** An entry of [get_all_chat_history]: the timestamp is the text that
    [isoformat] gives. *)
Record iso_turn := IsoTurn {
  iso_role : string;
  iso_message : string;
  iso_timestamp : string
}.

(** ** The language model *)

Inductive chat_message : Type :=
| SystemMessage (content : string)
| HumanMessage (content : string)
| AIMessage (content : string).

(** The three places that call [llm.invoke], with what varies in the
    messages they send: the payload of the classification request, the
    profession of the synthesis request, the whole context of the
    generation request. *)
Inductive llm_call : Type :=
| Classify (message current_profession : string)
| Synthesize (profession_name : string)
| Generate (messages : list chat_message).

Inductive reply : Type :=
| Content (text : string)
| Failure (reason : string).

(** ** The world: database, model script and the history of calls *)

Inductive event : Type :=
| LLM (call : llm_call) (r : reply)
| UserExists (user_id : string)
| CreateUser (user_id : string)
| GetUserPersonas (user_id : string)
| GetPersonaHistory (user_id persona_name : string)
| GetProfessionPrompt (user_id profession_name : string)
| SaveProfessionPrompt (user_id profession_name prompt : string)
| GetAllChatHistory (user_id : string)
| SaveMessage (user_id persona_name role message : string)
| PersonaExistsForUser (user_id persona_name : string)
| DeleteUserData (user_id : string).

Record World := MkWorld {
  db : DB;
  pending : list reply;
  trace : list event
}.

(** ** A state and exception monad over the world

    An exception leaves the world as it was when it was raised: every
    database method commits or rolls back on its own. *)

Definition M (A : Type) : Type := World → res A * World.

Definition ret {A} (a : A) : M A := λ w, (Ok a, w).

Definition raise {A} (e : exn) : M A := λ w, (Raise e, w).

Definition bind {A B} (m : M A) (k : A → M B) : M B :=
  λ w, match m w with
       | (Ok a, w') => k a w'
       | (Raise e, w') => (Raise e, w')
       end.

(** [try: m except Exception as e: h e] *)
Definition try_except {A} (m : M A) (h : exn → M A) : M A :=
  λ w, match m w with
       | (Ok a, w') => (Ok a, w')
       | (Raise e, w') => h e w'
       end.

Declare Scope py_scope.
Delimit Scope py_scope with py.
Notation "x <- m ;; k" := (bind m (λ x, k))
  (at level 100, m at next level, right associativity) : py_scope.
Notation "m ;;; k" := (bind m (λ _, k))
  (at level 100, right associativity) : py_scope.
Local Open Scope py_scope.

Definition emit (e : event) : M unit :=
  λ w, (Ok (), MkWorld (db w) (pending w) (trace w ++ [e])).

Definition get_db : M DB := λ w, (Ok (db w), w).

Definition put_db (d : DB) : M unit :=
  λ w, (Ok (), MkWorld d (pending w) (trace w)).

(** What the model answers next; a script that has run out is a model
    that does not answer. *)
Definition next_reply (w : World) : reply :=
  match pending w with
  | r :: _ => r
  | [] => Failure "the model did not answer"
  end.

(** The world once the model has answered the call [c]. *)
Definition answered (w : World) (c : llm_call) : World :=
  MkWorld (db w) (tail (pending w)) (trace w ++ [LLM c (next_reply w)]).

(** [llm.invoke]: the next reply of the script is consumed. *)
Definition llm_invoke (c : llm_call) : M string :=
  λ w,
    match next_reply w with
    | Content text => (Ok text, answered w c)
    | Failure reason => (Raise (LLMError reason), answered w c)
    end.

(** ** [ORDER BY]: a stable insertion sort *)

Fixpoint insert_by {A} (le : A → A → bool) (x : A) (l : list A) : list A :=
  match l with
  | [] => [x]
  | y :: l' => if le x y then x :: l else y :: insert_by le x l'
  end.

Definition sort_by {A} (le : A → A → bool) (l : list A) : list A :=
  foldr (insert_by le) [] l.

(** ** [database.py]: the methods of [DatabaseManager] *)

Module db_manager.

Definition set_users (d : DB) (us : list string) : DB :=
  MkDB (up d) us (conversations d) (professions d) (clock d).

Definition set_professions (d : DB) (ps : list prof_row) : DB :=
  MkDB (up d) (users d) (conversations d) ps (clock d).

(** [with self.get_connection() as conn]: [psycopg2.connect] raises
    [OperationalError] when the server cannot be reached. *)
Definition get_connection : M unit :=
  d <- get_db ;;
  if up d then ret () else raise OperationalError.

(** *** The parameters of an [INSERT] *)

Fixpoint has_nul (s : string) : bool :=
  match s with
  | EmptyString => false
  | String c s' => Ascii.eqb c Ascii.zero || has_nul s'
  end.

(** [cursor.execute(query, params)] on a [str] parameter: psycopg2 raises
    [ValueError] when the string holds a NUL character. *)
Definition adapt (s : string) : M string :=
  if has_nul s then raise ValueError else ret s.

Fixpoint take_chars (n : nat) (s : string) : string :=
  match n, s with
  | S n', String c s' => String c (take_chars n' s')
  | _, _ => EmptyString
  end.

Fixpoint drop_chars (n : nat) (s : string) : string :=
  match n, s with
  | S n', String c s' => drop_chars n' s'
  | _, _ => s
  end.

Fixpoint only_spaces (s : string) : bool :=
  match s with
  | EmptyString => true
  | String c s' => Ascii.eqb c " " && only_spaces s'
  end.

(** A value assigned to a column [VARCHAR(n)]: a longer string is an
    error, unless what exceeds [n] characters is spaces, which the engine
    then cuts off. *)
Definition varchar (n : nat) (s : string) : M string :=
  if (String.length s <=? n)%nat then ret s
  else if only_spaces (drop_chars n s) then ret (take_chars n s)
  else raise (DataError n).

Definition user_exists (user_id : string) : M bool :=
  emit (UserExists user_id) ;;;
  get_connection ;;;
  d <- get_db ;;
  ret (bool_decide (user_id ∈ users d)).

(** [INSERT INTO users (user_id) VALUES (%s)], [user_id VARCHAR(255)
    PRIMARY KEY]. *)
Definition insert_into_users (user_id : string) : M unit :=
  user_id <- adapt user_id ;;
  user_id <- varchar 255 user_id ;;
  d <- get_db ;;
  if decide (user_id ∈ users d) then raise IntegrityError
  else put_db (set_users d (users d ++ [user_id])).

Definition create_user (user_id : string) : M bool :=
  emit (CreateUser user_id) ;;;
  try_except
    (get_connection ;;;
     insert_into_users user_id ;;;
     ret true)
    (λ _, ret false).

Definition of_user (user_id : string) (r : conv_row) : Prop :=
  c_user r = user_id.

Definition of_thread (user_id persona_name : string) (r : conv_row) : Prop :=
  c_user r = user_id ∧ c_persona r = persona_name.

#[global] Instance of_user_dec u r : Decision (of_user u r).
Proof. unfold of_user. apply _. Defined.

#[global] Instance of_thread_dec u p r : Decision (of_thread u p r).
Proof. unfold of_thread. apply _. Defined.

(** [SELECT DISTINCT persona_name ... ORDER BY persona_name]: the order
    is that of the collation of the database. *)
Definition get_user_personas `{Collation} (user_id : string) : M (list string) :=
  emit (GetUserPersonas user_id) ;;;
  get_connection ;;;
  d <- get_db ;;
  ret (sort_by collate
         (remove_dups (c_persona <$> filter (of_user user_id) (conversations d)))).

Definition by_timestamp (a b : conv_row) : bool :=
  (c_timestamp a <=? c_timestamp b)%nat.

Definition dict_of_row (r : conv_row) : turn :=
  Turn (c_role r) (c_message r) (c_timestamp r).

(** [SELECT role, message, timestamp ... WHERE user_id = %s AND
    persona_name = %s ORDER BY timestamp ASC] *)
Definition select_thread (user_id persona_name : string) (d : DB) : list turn :=
  dict_of_row <$>
    sort_by by_timestamp (filter (of_thread user_id persona_name) (conversations d)).

Definition get_persona_history (user_id persona_name : string) : M (list turn) :=
  emit (GetPersonaHistory user_id persona_name) ;;;
  get_connection ;;;
  d <- get_db ;;
  ret (select_thread user_id persona_name d).

Definition of_profile (user_id profession_name : string) (r : prof_row) : Prop :=
  p_user r = user_id ∧ p_profession r = profession_name.

#[global] Instance of_profile_dec u p r : Decision (of_profile u p r).
Proof. unfold of_profile. apply _. Defined.

(** [SELECT prompt FROM professions WHERE ...] and [cursor.fetchone()] *)
Fixpoint select_prompt (user_id profession_name : string)
    (rows : list prof_row) : option string :=
  match rows with
  | [] => None
  | r :: rest =>
      if decide (of_profile user_id profession_name r) then Some (p_prompt r)
      else select_prompt user_id profession_name rest
  end.

Definition get_profession_prompt (user_id profession_name : string)
    : M (option string) :=
  emit (GetProfessionPrompt user_id profession_name) ;;;
  get_connection ;;;
  d <- get_db ;;
  ret (select_prompt user_id profession_name (professions d)).

(** [ON CONFLICT (user_id, profession_name) DO UPDATE SET prompt =
    EXCLUDED.prompt]: the row of the pair is rewritten, or a row is added. *)
Fixpoint upsert (user_id profession_name prompt : string)
    (rows : list prof_row) : list prof_row :=
  match rows with
  | [] => [ProfRow user_id profession_name prompt]
  | r :: rest =>
      if decide (of_profile user_id profession_name r)
      then ProfRow user_id profession_name prompt :: rest
      else r :: upsert user_id profession_name prompt rest
  end.

(** [INSERT INTO professions ... ON CONFLICT ... DO UPDATE], with
    [user_id VARCHAR(255)], [profession_name VARCHAR(255)], [prompt TEXT]
    and the foreign key on [users]. *)
Definition insert_into_professions (user_id profession_name prompt : string)
    : M unit :=
  user_id <- adapt user_id ;;
  profession_name <- adapt profession_name ;;
  prompt <- adapt prompt ;;
  user_id <- varchar 255 user_id ;;
  profession_name <- varchar 255 profession_name ;;
  d <- get_db ;;
  if decide (user_id ∈ users d)
  then put_db (set_professions d
                 (upsert user_id profession_name prompt (professions d)))
  else raise IntegrityError.

Definition save_profession_prompt (user_id profession_name prompt : string)
    : M bool :=
  emit (SaveProfessionPrompt user_id profession_name prompt) ;;;
  try_except
    (get_connection ;;;
     insert_into_professions user_id profession_name prompt ;;;
     ret true)
    (λ _, ret false).

(** [ORDER BY persona_name, timestamp ASC]: two labels that differ are
    ordered by the collation. *)
Definition by_persona_timestamp `{Collation} (a b : conv_row) : bool :=
  if decide (c_persona a = c_persona b) then by_timestamp a b
  else collate (c_persona a) (c_persona b).

(** The entry a row becomes: [row["timestamp"]] is a [datetime], of which
    the text that [isoformat()] gives is kept. *)
Definition entry_of_row `{ISOFormat} (r : conv_row) : iso_turn :=
  IsoTurn (c_role r) (c_message r) (isoformat (c_timestamp r)).

(** The grouping loop of [get_all_chat_history]. *)
Fixpoint append_to_group (persona : string) (t : iso_turn)
    (groups : list (string * list iso_turn)) : list (string * list iso_turn) :=
  match groups with
  | [] => [(persona, [t])]
  | (p, ts) :: rest =>
      if decide (p = persona) then (p, ts ++ [t]) :: rest
      else (p, ts) :: append_to_group persona t rest
  end.

Definition group_by_persona `{ISOFormat} (rows : list conv_row)
    : list (string * list iso_turn) :=
  foldl (λ groups r, append_to_group (c_persona r) (entry_of_row r) groups) [] rows.

Definition get_all_chat_history `{Collation} `{ISOFormat} (user_id : string)
    : M (list (string * list iso_turn)) :=
  emit (GetAllChatHistory user_id) ;;;
  get_connection ;;;
  d <- get_db ;;
  ret (group_by_persona
         (sort_by by_persona_timestamp (filter (of_user user_id) (conversations d)))).

(** [INSERT INTO conversations (user_id, persona_name, role, message)],
    with [user_id VARCHAR(255)], [persona_name VARCHAR(255)], [role
    VARCHAR(50)], [message TEXT] and the foreign key on [users]; the
    timestamp defaults to the reading of the server clock. *)
Definition insert_into_conversations (user_id persona_name role message : string)
    : M unit :=
  user_id <- adapt user_id ;;
  persona_name <- adapt persona_name ;;
  role <- adapt role ;;
  message <- adapt message ;;
  user_id <- varchar 255 user_id ;;
  persona_name <- varchar 255 persona_name ;;
  role <- varchar 50 role ;;
  d <- get_db ;;
  if decide (user_id ∈ users d)
  then put_db (MkDB (up d) (users d)
                 (conversations d ++
                    [ConvRow user_id persona_name role message (clock d 0)])
                 (professions d) (λ i, clock d (S i)))
  else raise IntegrityError.

Definition save_message (user_id persona_name role message : string) : M bool :=
  emit (SaveMessage user_id persona_name role message) ;;;
  try_except
    (get_connection ;;;
     insert_into_conversations user_id persona_name role message ;;;
     ret true)
    (λ _, ret false).

Definition persona_exists_for_user (user_id persona_name : string) : M bool :=
  emit (PersonaExistsForUser user_id persona_name) ;;;
  get_connection ;;;
  d <- get_db ;;
  ret (bool_decide (Exists (of_thread user_id persona_name) (conversations d))).

(** [DELETE FROM users WHERE user_id = %s]; both other tables refer to
    [users] with ON DELETE CASCADE. *)
Definition delete_from_users (user_id : string) : M unit :=
  d <- get_db ;;
  put_db (MkDB (up d)
            (filter (λ u, u ≠ user_id) (users d))
            (filter (λ r, c_user r ≠ user_id) (conversations d))
            (filter (λ r, p_user r ≠ user_id) (professions d))
            (clock d)).

Definition delete_user_data (user_id : string) : M bool :=
  emit (DeleteUserData user_id) ;;;
  try_except
    (get_connection ;;;
     delete_from_users user_id ;;;
     ret true)
    (λ _, ret false).

End db_manager.

(** ** [backend.py] *)

(** [ChatState], a [TypedDict] with [total=False]: a key may be absent.
    [user_id] and [message] are set by the endpoint and read without a
    test by every node. *)
Record ChatState := MkState {
  user_id : string;
  st_message : string;
  current_persona : option string;
  conversation_history : option (list turn);
  response : option string;
  user_exists : option bool;
  persona_detected : option string;
  action : option string;
  profession_name : option string;
  profession_prompt : option string
}.

Definition set_current_persona (s : ChatState) (v : string) : ChatState :=
  MkState (user_id s) (st_message s) (Some v) (conversation_history s)
    (response s) (user_exists s) (persona_detected s) (action s)
    (profession_name s) (profession_prompt s).

Definition set_conversation_history (s : ChatState) (v : list turn) : ChatState :=
  MkState (user_id s) (st_message s) (current_persona s) (Some v)
    (response s) (user_exists s) (persona_detected s) (action s)
    (profession_name s) (profession_prompt s).

Definition set_response (s : ChatState) (v : string) : ChatState :=
  MkState (user_id s) (st_message s) (current_persona s) (conversation_history s)
    (Some v) (user_exists s) (persona_detected s) (action s)
    (profession_name s) (profession_prompt s).

Definition set_user_exists (s : ChatState) (v : bool) : ChatState :=
  MkState (user_id s) (st_message s) (current_persona s) (conversation_history s)
    (response s) (Some v) (persona_detected s) (action s)
    (profession_name s) (profession_prompt s).

Definition set_persona_detected (s : ChatState) (v : string) : ChatState :=
  MkState (user_id s) (st_message s) (current_persona s) (conversation_history s)
    (response s) (user_exists s) (Some v) (action s)
    (profession_name s) (profession_prompt s).

Definition set_action (s : ChatState) (v : string) : ChatState :=
  MkState (user_id s) (st_message s) (current_persona s) (conversation_history s)
    (response s) (user_exists s) (persona_detected s) (Some v)
    (profession_name s) (profession_prompt s).

Definition set_profession_name (s : ChatState) (v : string) : ChatState :=
  MkState (user_id s) (st_message s) (current_persona s) (conversation_history s)
    (response s) (user_exists s) (persona_detected s) (action s)
    (Some v) (profession_prompt s).

Definition set_profession_prompt (s : ChatState) (v : string) : ChatState :=
  MkState (user_id s) (st_message s) (current_persona s) (conversation_history s)
    (response s) (user_exists s) (persona_detected s) (action s)
    (profession_name s) (Some v).

(** [state.get(key) or default], on a string-valued key. *)
Definition get_or (v : option string) (default : string) : string :=
  match v with
  | Some s => PyStr.or_else s default
  | None => default
  end.

(** [if v:] on a value that is a string or [None]: the string when the
    test passes. *)
Definition truthy_str (v : option string) : option string :=
  match v with
  | Some s => if PyStr.falsy s then None else Some s
  | None => None
  end.

Record ChatRequest := MkRequest {
  req_user_id : string;
  req_message : string;
  req_persona_name : string
}.

(** The default of the field [persona_name] of [ChatRequest]. *)
Definition default_persona_name : string := "general_expert".

Record ChatResponse := MkResponse {
  resp_response : string;
  resp_persona_name : string;
  resp_user_id : string
}.

(** *** Node 1 *)

Definition initialize_chat (state : ChatState) : M ChatState :=
  let state :=
    match current_persona state with
    | Some p => if PyStr.falsy p then set_current_persona state "general_expert"
                else state
    | None => set_current_persona state "general_expert"
    end in
  let state :=
    match conversation_history state with
    | Some _ => state
    | None => set_conversation_history state []
    end in
  ret (set_action state "validate_user").

(** *** Node 2 *)

Definition validate_user (state : ChatState) : M ChatState :=
  let user_id := user_id state in
  user_exists <- db_manager.user_exists user_id ;;
  let state := set_user_exists state user_exists in
  if negb user_exists then
    db_manager.create_user user_id ;;;
    let state := set_conversation_history state [] in
    ret (set_action state "handle_persona")
  else
    ret (set_action state "handle_persona").

(** *** Node 3 *)

(** [data.get(key, default)]: only a [dict] has the method. *)
Definition data_get (data : json) (key : string) (default : option json)
    : M (option json) :=
  match data with
  | JDict items =>
      ret (match Py.assoc key items with Some v => Some v | None => default end)
  | _ => raise (AttributeError (Py.type_name data) "get")
  end.

(** [v.strip()]: only a [str] has the method. *)
Definition value_strip (v : json) : M string :=
  match v with
  | JStr s => ret (PyStr.strip s)
  | _ => raise (AttributeError (Py.type_name v) "strip")
  end.

Record detection := Detection {
  should_switch : bool;
  det_profession_name : string
}.

Section backend.
Context `{JSONDecoder} `{Collation} `{ISOFormat}.

Definition detect_profession_from_message (message current_profession : string)
    : M detection :=
  raw_content <- llm_invoke (Classify message current_profession) ;;
  match json_loads raw_content with
  | None => ret (Detection false current_profession)
  | Some data =>
      v <- data_get data "should_switch" (Some (JBool false)) ;;
      let should_switch := Py.truthy (default JNull v) in
      v <- data_get data "profession_name" None ;;
      profession_name <- value_strip (Py.or_else v (JStr "")) ;;
      let profession_name :=
        if PyStr.falsy profession_name then current_profession
        else profession_name in
      ret (Detection should_switch profession_name)
  end.

Definition handle_persona (state : ChatState) : M ChatState :=
  let user_id := user_id state in
  let message := st_message state in
  let current_profession := get_or (current_persona state) "general_expert" in
  detection <- detect_profession_from_message message current_profession ;;
  let profession_name :=
    PyStr.or_else (det_profession_name detection) current_profession in
  let state := set_persona_detected state profession_name in
  let state := set_current_persona state profession_name in
  let state := set_profession_name state profession_name in
  persona_exists <- db_manager.persona_exists_for_user user_id profession_name ;;
  if persona_exists then
    history <- db_manager.get_persona_history user_id profession_name ;;
    let state := set_conversation_history state history in
    ret (set_action state "execute_chat")
  else
    let state := set_conversation_history state [] in
    ret (set_action state "execute_chat").

(** *** Node 4 *)

Definition fallback_prompt (profession_name : string) : string :=
  "You are an AI assistant acting as a professional " +:+ profession_name +:+ ". "
  +:+ "Answer as a knowledgeable, helpful " +:+ profession_name
  +:+ ", using the tone, priorities, "
  +:+ "and expertise that such a professional would use.".

Definition generate_profession_prompt_with_llm (profession_name : string)
    : M string :=
  raw_content <- llm_invoke (Synthesize profession_name) ;;
  let prompt := PyStr.strip raw_content in
  ret (if PyStr.falsy prompt then fallback_prompt profession_name else prompt).

Definition get_or_create_profession_prompt (user_id profession_name : string)
    : M string :=
  existing <- db_manager.get_profession_prompt user_id profession_name ;;
  match truthy_str existing with
  | Some existing => ret existing
  | None =>
      prompt <- generate_profession_prompt_with_llm profession_name ;;
      db_manager.save_profession_prompt user_id profession_name prompt ;;;
      ret prompt
  end.

(** [conversation_history[-10:]] *)
Definition last10 {A} (l : list A) : list A := drop (length l - 10) l.

(** The loop over the window: a turn of another role adds nothing. *)
Fixpoint history_messages (window : list turn) : list chat_message :=
  match window with
  | [] => []
  | msg :: rest =>
      if decide (role msg = "user")
      then HumanMessage (message msg) :: history_messages rest
      else if decide (role msg = "assistant")
      then AIMessage (message msg) :: history_messages rest
      else history_messages rest
  end.

(** The list [messages] that [execute_chat] sends to the model. *)
Definition build_messages (profession_prompt : string)
    (conversation_history : list turn) (message : string) : list chat_message :=
  [SystemMessage profession_prompt]
  ++ history_messages (last10 conversation_history)
  ++ [HumanMessage message].

Definition apology (e : exn) : string :=
  "I apologize, but I encountered an error: " +:+ str_exn e.

Definition execute_chat (state : ChatState) : M ChatState :=
  let user_id := user_id state in
  let message := st_message state in
  let profession_name :=
    get_or (profession_name state)
      (get_or (current_persona state) "general_expert") in
  let conversation_history := default [] (conversation_history state) in
  profession_prompt <-
    match truthy_str (profession_prompt state) with
    | Some profession_prompt => ret profession_prompt
    | None => get_or_create_profession_prompt user_id profession_name
    end ;;
  let state := set_profession_prompt state profession_prompt in
  let messages := build_messages profession_prompt conversation_history message in
  state <-
    try_except
      (assistant_message <- llm_invoke (Generate messages) ;;
       db_manager.save_message user_id profession_name "user" message ;;;
       db_manager.save_message user_id profession_name "assistant" assistant_message ;;;
       ret (set_response state assistant_message))
      (λ e, ret (set_response state (apology e))) ;;
  ret (set_action state "complete").

(** *** The graph *)

Inductive node : Type :=
| n_initialize_chat
| n_validate_user
| n_handle_persona
| n_execute_chat
| END.

Definition route_next (state : ChatState) : string :=
  let action := default "complete" (action state) in
  if bool_decide (action ∈ ["validate_user"; "handle_persona"; "execute_chat"])
  then action else "complete".

Definition conditional_mapping (key : string) : option node :=
  if decide (key = "validate_user") then Some n_validate_user
  else if decide (key = "handle_persona") then Some n_handle_persona
  else if decide (key = "execute_chat") then Some n_execute_chat
  else if decide (key = "complete") then Some END
  else None.

Definition run_node (n : node) (state : ChatState) : M ChatState :=
  match n with
  | n_initialize_chat => initialize_chat state
  | n_validate_user => validate_user state
  | n_handle_persona => handle_persona state
  | n_execute_chat => execute_chat state
  | END => ret state
  end.

(** The compiled graph: from a node, run it and follow the conditional
    edge; [steps] is what is left of LangGraph's recursion limit. *)
Fixpoint run_from (steps : nat) (n : node) (state : ChatState) : M ChatState :=
  match n with
  | END => ret state
  | _ =>
      match steps with
      | 0 => raise GraphRecursionError
      | S steps' =>
          state <- run_node n state ;;
          match conditional_mapping (route_next state) with
          | Some next => run_from steps' next state
          | None => raise (KeyError (route_next state))
          end
      end
  end.

Definition recursion_limit : nat := 25.

(** [graph.invoke]: the entry point is [initialize_chat]. *)
Definition graph_invoke (state : ChatState) : M ChatState :=
  run_from recursion_limit n_initialize_chat state.

(** *** The endpoints *)

Definition initial_state (request : ChatRequest) : ChatState :=
  MkState (req_user_id request) (req_message request)
    (Some (req_persona_name request)) (Some []) (Some "") (Some false)
    (Some "") (Some "initialize") None None.

(** [final_state[key]] *)
Definition item {A} (key : string) (v : option A) : M A :=
  match v with
  | Some a => ret a
  | None => raise (KeyError key)
  end.

(** An endpoint's outermost [except Exception as e: raise
    HTTPException(status_code=500, detail=str(e))]. *)
Definition endpoint {A} (body : M A) : World → http A * World :=
  λ w, match body w with
       | (Ok a, w') => (Http200 a, w')
       | (Raise e, w') => (HttpError 500 (str_exn e), w')
       end.

(** The same with [except HTTPException: raise] before it. *)
Definition endpoint_reraising {A} (body : M A) : World → http A * World :=
  λ w, match body w with
       | (Ok a, w') => (Http200 a, w')
       | (Raise (HTTPException status detail), w') => (HttpError status detail, w')
       | (Raise e, w') => (HttpError 500 (str_exn e), w')
       end.

(** [POST /chat] *)
Definition chat (request : ChatRequest) : World → http ChatResponse * World :=
  endpoint
    (final_state <- graph_invoke (initial_state request) ;;
     r <- item "response" (response final_state) ;;
     p <- item "current_persona" (current_persona final_state) ;;
     ret (MkResponse r p (user_id final_state))).

(** [GET /chat_history/{user_id}] *)
Definition get_chat_history (user_id : string)
    : World → http (list string * list (string * list iso_turn)) * World :=
  endpoint_reraising
    (known <- db_manager.user_exists user_id ;;
     if negb known then raise (HTTPException 404 "User not found")
     else
       history <- db_manager.get_all_chat_history user_id ;;
       personas <- db_manager.get_user_personas user_id ;;
       ret (personas, history)).

(** [GET /personas/{user_id}] *)
Definition get_user_personas (user_id : string)
    : World → http (list string) * World :=
  endpoint_reraising
    (known <- db_manager.user_exists user_id ;;
     if negb known then raise (HTTPException 404 "User not found")
     else db_manager.get_user_personas user_id).

(** [DELETE /user/{user_id}] *)
Definition delete_user (user_id : string) : World → http string * World :=
  endpoint
    (success <- db_manager.delete_user_data user_id ;;
     if success then ret ("User " +:+ user_id +:+ " deleted successfully")
     else raise (HTTPException 500 "Failed to delete user")).

End backend.

(** * Vocabulary of the properties *)

(** ** Worlds after a call *)

(** The world once [e] has been recorded. *)
Definition log (w : World) (e : event) : World :=
  MkWorld (db w) (pending w) (trace w ++ [e]).

(** The world with another database. *)
Definition with_db (w : World) (d : DB) : World :=
  MkWorld d (pending w) (trace w).

(** What the world has recorded since [w0]. *)
Definition events_since (w0 w : World) : list event :=
  drop (length (trace w0)) (trace w).

(** ** What an [INSERT] stores *)

(** A string that a column of width [n] stores as it is. *)
Definition storable (n : nat) (s : string) : Prop :=
  db_manager.has_nul s = false ∧ String.length s ≤ n.

(** What a column [VARCHAR(n)] stores for the parameter [s], when the
    statement is not refused for it. *)
Definition stored_as (n : nat) (s : string) : option string :=
  if db_manager.has_nul s then None
  else if (String.length s <=? n)%nat then Some s
  else if db_manager.only_spaces (db_manager.drop_chars n s)
  then Some (db_manager.take_chars n s)
  else None.

(** The same for a column [TEXT]. *)
Definition stored_text (s : string) : option string :=
  if db_manager.has_nul s then None else Some s.

(** The key that [create_user] adds to [users], when it adds one. *)
Definition accepted_user (u : string) (d : DB) : option string :=
  if up d then
    match stored_as 255 u with
    | Some k => if decide (k ∈ users d) then None else Some k
    | None => None
    end
  else None.

(** The row that [save_message] appends, when it appends one. *)
Definition accepted_turn (u p r m : string) (d : DB) : option conv_row :=
  if up d then
    match stored_as 255 u, stored_as 255 p, stored_as 50 r, stored_text m with
    | Some k, Some l, Some r', Some m' =>
        if decide (k ∈ users d) then Some (ConvRow k l r' m' (clock d 0))
        else None
    | _, _, _, _ => None
    end
  else None.

(** The row that [save_profession_prompt] writes, when it writes one. *)
Definition accepted_profile (u p t : string) (d : DB) : option prof_row :=
  if up d then
    match stored_as 255 u, stored_as 255 p, stored_text t with
    | Some k, Some l, Some t' =>
        if decide (k ∈ users d) then Some (ProfRow k l t') else None
    | _, _, _ => None
    end
  else None.

(** The database once a row is appended to [conversations]: the reading
    of the clock that stamps it is used up. *)
Definition append_turn (d : DB) (row : conv_row) : DB :=
  MkDB (up d) (users d) (conversations d ++ [row]) (professions d)
    (λ i, clock d (S i)).

(** The world [validate_user] leaves when the database is reachable: the
    identity is looked up, and [create_user] is called when it is not
    there. *)
Definition after_validate (w : World) (u : string) : World :=
  if bool_decide (u ∈ users (db w)) then log w (UserExists u)
  else
    let w1 := log (log w (UserExists u)) (CreateUser u) in
    match accepted_user u (db w) with
    | Some k => with_db w1 (db_manager.set_users (db w) (users (db w) ++ [k]))
    | None => w1
    end.

(** The world [handle_persona] leaves when it resolves the label [label]. *)
Definition after_routing (w : World) (u message current label : string) : World :=
  let w1 := log (answered w (Classify message current))
              (PersonaExistsForUser u label) in
  if bool_decide (Exists (db_manager.of_thread u label) (conversations (db w)))
  then log w1 (GetPersonaHistory u label) else w1.

(** The table [conversations] after the two turns of an exchange. *)
Definition with_exchange (d : DB) (u label inbound outbound : string)
    : list conv_row :=
  conversations d ++
    [ConvRow u label "user" inbound (clock d 0);
     ConvRow u label "assistant" outbound (clock d 1)].

(** ** States handed from node to node *)

(** The label a request comes with: the one it names, or the default. *)
Definition request_label (request : ChatRequest) : string :=
  PyStr.or_else (req_persona_name request) "general_expert".

(** The state [initialize_chat] hands over. *)
Definition initialized (state : ChatState) : ChatState :=
  let state :=
    match truthy_str (current_persona state) with
    | Some _ => state
    | None => set_current_persona state "general_expert"
    end in
  let state :=
    match conversation_history state with
    | Some _ => state
    | None => set_conversation_history state []
    end in
  set_action state "validate_user".

(** The state [validate_user] hands over, for a known and for a new user. *)
Definition validated (state : ChatState) (known : bool) : ChatState :=
  if known then set_action (set_user_exists state true) "handle_persona"
  else set_action (set_conversation_history (set_user_exists state false) [])
         "handle_persona".

(** The state the Identity Resolver hands to the Router for a request. *)
Definition resolved_state (request : ChatRequest) (w : World) : ChatState :=
  validated (initialized (initial_state request))
    (bool_decide (req_user_id request ∈ users (db w))).

(** The state [handle_persona] hands over: the three keys set to the
    resolved label, the history of its thread, the next action. *)
Definition routed (state : ChatState) (label : string) (history : list turn)
    : ChatState :=
  set_action
    (set_conversation_history
       (set_profession_name
          (set_current_persona (set_persona_detected state label) label) label)
       history)
    "execute_chat".

(** The label [execute_chat] works under. *)
Definition executor_label (state : ChatState) : string :=
  get_or (profession_name state)
    (get_or (current_persona state) "general_expert").

(** The state [execute_chat] hands over. *)
Definition completed (state : ChatState) (prompt answer : string) : ChatState :=
  set_action (set_response (set_profession_prompt state prompt) answer) "complete".

(** ** Calls, by what they are about *)

(** The thread a database call is about, for the calls keyed by identity
    and persona label. *)
Definition event_key (e : event) : option (string * string) :=
  match e with
  | GetPersonaHistory u p
  | GetProfessionPrompt u p
  | SaveProfessionPrompt u p _
  | SaveMessage u p _ _
  | PersonaExistsForUser u p => Some (u, p)
  | _ => None
  end.

Definition keyed_by (u p : string) (e : event) : Prop :=
  ∀ k, event_key e = Some k → k = (u, p).

(** The calls the instruction resolution of [(u, p)] can make. *)
Definition profile_event (u p : string) (e : event) : Prop :=
  e = GetProfessionPrompt u p ∨
  (∃ r, e = LLM (Synthesize p) r) ∨
  (∃ text, e = SaveProfessionPrompt u p text).

(** A call of the synthesis oracle. *)
Definition is_synthesis (e : event) : Prop :=
  match e with
  | LLM (Synthesize _) _ => True
  | _ => False
  end.

(** ** Invariants of the database *)

(** The key of a row of [professions], on which the table is UNIQUE. *)
Definition profile_key (r : prof_row) : string * string :=
  (p_user r, p_profession r).

(** Every stored instruction text is non-empty. *)
Definition prompts_nonempty (d : DB) : Prop :=
  Forall (λ r, p_prompt r ≠ "") (professions d).

(** Rows of [conversations] are in the order of their timestamps. *)
Definition chronological (d : DB) : Prop :=
  StronglySorted (λ a b, c_timestamp a < c_timestamp b) (conversations d).

(** The server clock runs forward: every reading to come is later than
    the one before it, and than every timestamp stored. *)
Definition clock_runs_forward (d : DB) : Prop :=
  Forall (λ r, c_timestamp r < clock d 0) (conversations d) ∧
  ∀ i, clock d i < clock d (S i).

(** ** Labels and turns *)



(** The message a stored turn of the pipeline becomes in the context. *)
Definition message_of_turn (t : turn) : chat_message :=
  if decide (role t = "user") then HumanMessage (message t)
  else AIMessage (message t).

(** The roles the pipeline writes. *)
Definition pipeline_role (t : turn) : Prop :=
  role t = "user" ∨ role t = "assistant".

(** ** Sample replies and worlds, for the examples *)

(** [s] between double quotes. *)
Definition quoted (s : string) : string :=
  String (ascii_of_nat 34) (s +:+ String (ascii_of_nat 34) "").

(** The JSON text of a classifier answer, and the value it decodes to. *)
Definition classifier_text (switch : bool) (name : string) : string :=
  "{" +:+ quoted "should_switch" +:+ ": " +:+ (if switch then "true" else "false")
  +:+ ", " +:+ quoted "profession_name" +:+ ": " +:+ quoted name +:+ "}".

Definition classifier_value (switch : bool) (name : string) : json :=
  JDict [("should_switch", JBool switch); ("profession_name", JStr name)].

(** [json.loads] on the texts the examples use; on any text outside this
    table the examples do not depend. *)
Definition sample_texts : list (string * json) :=
  [ (classifier_text true "mentor", classifier_value true "mentor");
    (classifier_text false "mentor", classifier_value false "mentor");
    (classifier_text true "Investor", classifier_value true "Investor");
    (classifier_text true "INVESTOR", classifier_value true "INVESTOR");
    (classifier_text true "investor ", classifier_value true "investor ");
    (classifier_text true "investor", classifier_value true "investor");
    (classifier_text false "", classifier_value false "");
    (classifier_text true "", classifier_value true "");
    (classifier_text true "   ", classifier_value true "   ");
    (classifier_text true " investor  ", classifier_value true " investor  ");
    ("{" +:+ quoted "should_switch" +:+ ": true, " +:+ quoted "profession_name"
       +:+ ": 7}",
     JDict [("should_switch", JBool true); ("profession_name", JInt 7)]);
    ("[]", JList []);
    ("null", JNull) ].

Definition sample_decoder : JSONDecoder := λ raw, Py.assoc raw sample_texts.

(** A collation that sorts by code points, and a stand-in for
    [isoformat]: the examples do not depend on the text of a timestamp. *)
Definition codepoint_collation : Collation := String.leb.

Definition sample_isoformat : ISOFormat := pretty.

(** A server clock whose readings are [t], [t + 1], ... *)
Definition ticking (t : nat) : nat → nat := λ i, t + i.

Definition empty_db : DB := MkDB true [] [] [] (ticking 0).

(** A server just started, with the replies the model is going to give. *)
Definition fresh_world (script : list reply) : World :=
  MkWorld empty_db script [].

(** Identity [u1] with a stored profile for [mentor]. *)
Definition db_with_profile : DB :=
  MkDB true ["u1"] [] [ProfRow "u1" "mentor" "Be a patient mentor."] (ticking 0).

(** A first message of identity [u1], the persona field left to its default. *)
Definition first_request : ChatRequest :=
  MkRequest "u1" "act like an investor" default_persona_name.

(** The replies of a run in which the classifier proposes [name]: its
    answer, then a synthesized instruction text, then a generated answer. *)
Definition script_proposing (name : string) : list reply :=
  [ Content (classifier_text true name);
    Content "You are a seasoned investor.";
    Content "Let us look at the numbers." ].

(** The replies of a run in which generation fails. *)
Definition script_failing_generation : list reply :=
  [ Content (classifier_text true "mentor");
    Content "You are a patient mentor.";
    Failure "rate limit exceeded" ].

(** ** The worlds the service can be in *)

Section reachable_worlds.
Context `{JSONDecoder} `{Collation} `{ISOFormat}.

(** One step of the service: a call of one of its endpoints, or a change
    of what is around it (the database server goes down or comes back,
    the replies the model is going to give and the readings its clock is
    going to give are any). *)
Inductive api_step : World → World → Prop :=
| step_chat request w : api_step w (chat request w).2
| step_delete_user u w : api_step w (delete_user u w).2
| step_get_chat_history u w : api_step w (get_chat_history u w).2
| step_get_user_personas u w : api_step w (get_user_personas u w).2
| step_environment w reachable script readings :
    api_step w
      (MkWorld (MkDB reachable (users (db w)) (conversations (db w))
                  (professions (db w)) readings)
         script (trace w)).

(** The worlds reached from a server just started. *)
Definition reachable (w : World) : Prop := rtc api_step (fresh_world []) w.

End reachable_worlds.


(** ** Vocabulary of the further properties *)


(** A world whose database is not reachable. *)
Definition world_down (script : list reply) : World :=
  MkWorld (MkDB false ["u1"] [] [] (ticking 0)) script [].

(** What the schema and the pipeline keep of the three tables: the
    primary key of [users], the UNIQUE constraint of [professions], the
    two foreign keys on [users], the widths of the columns, and the
    labels and roles of the turns the pipeline writes. *)
Record consistent (d : DB) : Prop := MkConsistent {
  users_unique : NoDup (users d);
  profiles_unique : NoDup (profile_key <$> professions d);
  turns_owned : Forall (λ r, c_user r ∈ users d) (conversations d);
  profiles_owned : Forall (λ r, p_user r ∈ users d) (professions d);
  users_fit : Forall (storable 255) (users d);
  turns_fit :
    Forall (λ r, storable 255 (c_persona r) ∧
                 db_manager.has_nul (c_message r) = false)
      (conversations d);
  profiles_fit :
    Forall (λ r, storable 255 (p_profession r) ∧
                 db_manager.has_nul (p_prompt r) = false)
      (professions d);
  turns_labelled :
    Forall (λ r, c_persona r ≠ "" ∧ (c_role r = "user" ∨ c_role r = "assistant"))
      (conversations d)
}.

(** Identity [u1] with a thread and a profile under [chef]. *)
Definition db_with_thread : DB :=
  MkDB true ["u1"] [ConvRow "u1" "chef" "user" "hi" 0]
    [ProfRow "u1" "chef" "Be a chef."] (ticking 1).

(** The replies of two runs in a row in which the classifier proposes
    [mentor]: the second run finds the profile of the first. *)
Definition script_of_two_messages : list reply :=
  script_proposing "mentor" ++
    [ Content (classifier_text true "mentor"); Content "Mind the cash flow." ].


(** The rows that the two appends after a generated answer leave in
    [conversations]: each of the two turns that the database accepts. *)
Definition exchange_rows (d : DB) (u label inbound outbound : string)
    : list conv_row :=
  match accepted_turn u label "user" inbound d with
  | Some row =>
      row :: option_list (accepted_turn u label "assistant" outbound
                            (append_turn d row))
  | None => option_list (accepted_turn u label "assistant" outbound d)
  end.

(** A call of the generation oracle. *)
Definition is_generation (e : event) : Prop :=
  match e with
  | LLM (Generate _) _ => True
  | _ => False
  end.

(** A key of 256 characters, one more than the identity column holds. *)
Definition long_key : string := string_of_list_ascii (replicate 256 "a"%char).


(** A key of 255 characters followed by a space: one character more than
    the identity column holds, and the column stores it without the
    space. *)
Definition full_key : string := string_of_list_ascii (replicate 255 "a"%char).

Definition padded_key : string := full_key +:+ " ".

(** A reply of the model that the driver accepts as a parameter. *)
Definition clean_reply (r : reply) : Prop :=
  match r with
  | Content text => db_manager.has_nul text = false
  | Failure _ => True
  end.

(** * Properties *)

(** ** [str.strip] *)

Section strip_facts.
Import PyStr.

Example strip_investor : strip " investor  " = "investor".
Proof. reflexivity. Qed.

Lemma falsy_spec s : falsy s = true ↔ s = "".
Proof. destruct s; simpl; split; congruence. Qed.

Lemma lstrip_idem s : lstrip (lstrip s) = lstrip s.
Proof.
  induction s as [|c s IH]; simpl; [done|].
  destruct (isspace c) eqn:E; [done|]. simpl. by rewrite E.
Qed.

Lemma rstrip_fixed_tail c t : rstrip (String c t) = String c t → rstrip t = t.
Proof.
  simpl. destruct (isspace c && falsy (rstrip t)); [done|]. congruence.
Qed.

Lemma rstrip_lstrip_fixed t : rstrip t = t → rstrip (lstrip t) = lstrip t.
Proof.
  induction t as [|c t IH]; [done|]. intros Hfix.
  cbn [lstrip]. destruct (isspace c); [|done].
  apply IH. by eapply rstrip_fixed_tail.
Qed.

Lemma rstrip_idem s : rstrip (rstrip s) = rstrip s.
Proof.
  induction s as [|c s IH]; [done|]. cbn [rstrip].
  destruct (isspace c && falsy (rstrip s)) eqn:E; [done|].
  cbn [rstrip]. by rewrite IH, E.
Qed.

(** Stripping twice is stripping once. *)
Lemma strip_idem s : strip (strip s) = strip s.
Proof.
  unfold strip.
  rewrite (rstrip_lstrip_fixed (rstrip s)) by apply rstrip_idem.
  apply lstrip_idem.
Qed.


Lemma append_cons c s t : String c s +:+ t = String c (s +:+ t).
Proof. done. Qed.










End strip_facts.

(** ** The database methods, run on a world *)

Ltac exec :=
  unfold bind, ret, raise, try_except, emit, get_db, put_db,
    db_manager.get_connection; cbn.

Section world_facts.

Lemma db_log w e : db (log w e) = db w.
Proof. done. Qed.

Lemma db_answered w c : db (answered w c) = db w.
Proof. done. Qed.

Lemma db_with_db w d : db (with_db w d) = d.
Proof. done. Qed.

Lemma pending_log w e : pending (log w e) = pending w.
Proof. done. Qed.

Lemma pending_with_db w d : pending (with_db w d) = pending w.
Proof. done. Qed.

Lemma pending_answered w c : pending (answered w c) = tail (pending w).
Proof. done. Qed.

Lemma trace_log w e : trace (log w e) = trace w ++ [e].
Proof. done. Qed.

Lemma trace_with_db w d : trace (with_db w d) = trace w.
Proof. done. Qed.

Lemma trace_answered w c : trace (answered w c) = trace w ++ [LLM c (next_reply w)].
Proof. done. Qed.

Lemma next_reply_log w e : next_reply (log w e) = next_reply w.
Proof. done. Qed.

Lemma next_reply_with_db w d : next_reply (with_db w d) = next_reply w.
Proof. done. Qed.

Lemma events_since_app w0 w evs :
  trace w = trace w0 ++ evs → events_since w0 w = evs.
Proof. intros Ht. unfold events_since. by rewrite Ht, drop_app_length. Qed.

End world_facts.

Create Rewrite HintDb world.
#[local] Hint Rewrite db_log db_answered db_with_db pending_log pending_with_db
  pending_answered trace_log trace_with_db trace_answered next_reply_log
  next_reply_with_db : world.

Section db_facts.
Import db_manager.

Lemma user_exists_run u w :
  db_manager.user_exists u w =
    ((if up (db w) then Ok (bool_decide (u ∈ users (db w)))
      else Raise OperationalError), log w (UserExists u)).
Proof. unfold db_manager.user_exists. exec. by destruct (up (db w)). Qed.

(** A parameter on its way to a column [VARCHAR(n)]. *)
Lemma varchar_run n s w :
  has_nul s = false →
  varchar n s w =
    match stored_as n s with
    | Some k => (Ok k, w)
    | None => (Raise (DataError n), w)
    end.
Proof.
  intros Hs. unfold varchar, stored_as. rewrite Hs.
  destruct (String.length s <=? n)%nat; [done|].
  by destruct (only_spaces _).
Qed.

Lemma stored_as_nul n s : has_nul s = true → stored_as n s = None.
Proof. intros Hs. unfold stored_as. by rewrite Hs. Qed.

Lemma stored_as_storable n s : storable n s → stored_as n s = Some s.
Proof.
  intros [Hs Hn]. unfold stored_as. rewrite Hs.
  by apply Nat.leb_le in Hn as ->.
Qed.

Lemma stored_text_clean s : has_nul s = false → stored_text s = Some s.
Proof. intros Hs. unfold stored_text. by rewrite Hs. Qed.

Lemma has_nul_take n s : has_nul s = false → has_nul (take_chars n s) = false.
Proof.
  revert s. induction n as [|n IH]; intros [|c s]; simpl; try done.
  intros [Hc Hs]%orb_false_elim. rewrite Hc. by apply IH.
Qed.

Lemma length_take n s : String.length (take_chars n s) ≤ n.
Proof.
  revert s. induction n as [|n IH]; intros [|c s]; simpl; try lia.
  specialize (IH s). lia.
Qed.

(** What a column stores fits the column. *)
Lemma stored_as_fits n s k : stored_as n s = Some k → storable n k.
Proof.
  unfold stored_as, storable. destruct (has_nul s) eqn:Hs; [done|].
  destruct (String.length s <=? n)%nat eqn:Hn.
  - intros [= <-]. split; [done|]. by apply Nat.leb_le.
  - destruct (only_spaces _); [|done]. intros [= <-].
    split; [by apply has_nul_take|apply length_take].
Qed.

(** A column stores a string that is not empty as one that is not
    empty, when it has a width. *)
Lemma stored_as_nonempty n s k :
  0 < n → stored_as n s = Some k → s ≠ "" → k ≠ "".
Proof.
  unfold stored_as. intros Hn. destruct (has_nul s); [done|].
  destruct (String.length s <=? n)%nat; [by intros [= <-]|].
  destruct (only_spaces _); [|done]. intros [= <-] Hs.
  destruct n; [lia|]. by destruct s.
Qed.

Lemma create_user_run u w :
  create_user u w =
    match accepted_user u (db w) with
    | Some k => (Ok true, with_db (log w (CreateUser u))
                            (set_users (db w) (users (db w) ++ [k])))
    | None => (Ok false, log w (CreateUser u))
    end.
Proof.
  unfold create_user, insert_into_users, accepted_user, adapt.
  unfold bind at 1. unfold emit at 1. unfold try_except.
  unfold bind at 1. unfold get_connection at 1.
  unfold bind at 1. unfold get_db at 1. cbn [db].
  destruct (up (db w)) eqn:Hup; [|done]. unfold ret at 1.
  unfold bind at 1. unfold bind at 1.
  destruct (has_nul u) eqn:Hu; [by rewrite stored_as_nul|].
  unfold ret at 1. unfold bind at 1. rewrite varchar_run by done.
  destruct (stored_as 255 u) as [k|]; [|done].
  exec. by case_decide.
Qed.

Lemma persona_exists_for_user_run u p w :
  persona_exists_for_user u p w =
    ((if up (db w)
      then Ok (bool_decide (Exists (of_thread u p) (conversations (db w))))
      else Raise OperationalError), log w (PersonaExistsForUser u p)).
Proof. unfold persona_exists_for_user. exec. by destruct (up (db w)). Qed.

Lemma get_persona_history_run u p w :
  get_persona_history u p w =
    ((if up (db w) then Ok (select_thread u p (db w))
      else Raise OperationalError), log w (GetPersonaHistory u p)).
Proof. unfold get_persona_history. exec. by destruct (up (db w)). Qed.

Lemma get_profession_prompt_run u p w :
  get_profession_prompt u p w =
    ((if up (db w) then Ok (select_prompt u p (professions (db w)))
      else Raise OperationalError), log w (GetProfessionPrompt u p)).
Proof. unfold get_profession_prompt. exec. by destruct (up (db w)). Qed.

Lemma save_profession_prompt_run u p t w :
  save_profession_prompt u p t w =
    match accepted_profile u p t (db w) with
    | Some row =>
        (Ok true,
         with_db (log w (SaveProfessionPrompt u p t))
           (set_professions (db w)
              (upsert (p_user row) (p_profession row) (p_prompt row)
                 (professions (db w)))))
    | None => (Ok false, log w (SaveProfessionPrompt u p t))
    end.
Proof.
  unfold save_profession_prompt, insert_into_professions, accepted_profile,
    adapt, stored_text.
  unfold bind at 1. unfold emit at 1. unfold try_except.
  unfold bind at 1. unfold get_connection at 1.
  unfold bind at 1. unfold get_db at 1. cbn [db].
  destruct (up (db w)) eqn:Hup; [|done]. unfold ret at 1.
  unfold bind at 1. unfold bind at 1.
  destruct (has_nul u) eqn:Hu; [by rewrite stored_as_nul|].
  unfold ret at 1. unfold bind at 1.
  destruct (has_nul p) eqn:Hp;
    [rewrite (stored_as_nul 255 p) by done; by destruct (stored_as 255 u)|].
  unfold ret at 1. unfold bind at 1.
  destruct (has_nul t) eqn:Ht;
    [by destruct (stored_as 255 u), (stored_as 255 p)|].
  unfold ret at 1. unfold bind at 1. rewrite varchar_run by done.
  destruct (stored_as 255 u) as [k|]; [|done].
  unfold bind at 1. rewrite varchar_run by done.
  destruct (stored_as 255 p) as [l|]; [|done].
  exec. by case_decide.
Qed.

Lemma save_message_run u p r m w :
  save_message u p r m w =
    match accepted_turn u p r m (db w) with
    | Some row =>
        (Ok true,
         with_db (log w (SaveMessage u p r m)) (append_turn (db w) row))
    | None => (Ok false, log w (SaveMessage u p r m))
    end.
Proof.
  unfold save_message, insert_into_conversations, accepted_turn, adapt,
    stored_text.
  unfold bind at 1. unfold emit at 1. unfold try_except.
  unfold bind at 1. unfold get_connection at 1.
  unfold bind at 1. unfold get_db at 1. cbn [db].
  destruct (up (db w)) eqn:Hup; [|done]. unfold ret at 1.
  unfold bind at 1. unfold bind at 1.
  destruct (has_nul u) eqn:Hu; [by rewrite stored_as_nul|].
  unfold ret at 1. unfold bind at 1.
  destruct (has_nul p) eqn:Hp;
    [rewrite (stored_as_nul 255 p) by done; by destruct (stored_as 255 u)|].
  unfold ret at 1. unfold bind at 1.
  destruct (has_nul r) eqn:Hr;
    [rewrite (stored_as_nul 50 r) by done;
     by destruct (stored_as 255 u), (stored_as 255 p)|].
  unfold ret at 1. unfold bind at 1.
  destruct (has_nul m) eqn:Hm;
    [by destruct (stored_as 255 u), (stored_as 255 p), (stored_as 50 r)|].
  unfold ret at 1. unfold bind at 1. rewrite varchar_run by done.
  destruct (stored_as 255 u) as [k|]; [|done].
  unfold bind at 1. rewrite varchar_run by done.
  destruct (stored_as 255 p) as [l|]; [|done].
  unfold bind at 1. rewrite varchar_run by done.
  destruct (stored_as 50 r) as [r'|]; [|done].
  exec. unfold append_turn. by case_decide.
Qed.

Lemma save_profession_prompt_trace u p t w :
  trace (save_profession_prompt u p t w).2 =
    trace w ++ [SaveProfessionPrompt u p t].
Proof.
  rewrite save_profession_prompt_run. by destruct (accepted_profile _ _ _ _).
Qed.

Lemma save_message_trace u p r m w :
  trace (save_message u p r m w).2 = trace w ++ [SaveMessage u p r m].
Proof. rewrite save_message_run. by destruct (accepted_turn _ _ _ _ _). Qed.

(** What a write that is refused, and one that is accepted, needs. *)
Lemma accepted_turn_storable u p r m d :
  up d = true → u ∈ users d →
  storable 255 u → storable 255 p → storable 50 r → has_nul m = false →
  accepted_turn u p r m d = Some (ConvRow u p r m (clock d 0)).
Proof.
  intros Hup Hu Hsu Hsp Hsr Hm. unfold accepted_turn.
  rewrite Hup, !stored_as_storable, stored_text_clean by done.
  by rewrite decide_True.
Qed.

Lemma accepted_profile_storable u p t d :
  up d = true → u ∈ users d →
  storable 255 u → storable 255 p → has_nul t = false →
  accepted_profile u p t d = Some (ProfRow u p t).
Proof.
  intros Hup Hu Hsu Hsp Ht. unfold accepted_profile.
  rewrite Hup, !stored_as_storable, stored_text_clean by done.
  by rewrite decide_True.
Qed.

Lemma accepted_user_storable u d :
  up d = true → u ∉ users d → storable 255 u → accepted_user u d = Some u.
Proof.
  intros Hup Hu Hsu. unfold accepted_user.
  rewrite Hup, stored_as_storable by done. by rewrite decide_False.
Qed.

Lemma accepted_turn_row u p r m d row :
  accepted_turn u p r m d = Some row →
  up d = true ∧ c_user row ∈ users d ∧ c_timestamp row = clock d 0 ∧
  stored_as 255 u = Some (c_user row) ∧
  stored_as 255 p = Some (c_persona row) ∧
  stored_as 50 r = Some (c_role row) ∧
  stored_text m = Some (c_message row).
Proof.
  unfold accepted_turn. destruct (up d); [|done].
  destruct (stored_as 255 u) as [k|]; [|done].
  destruct (stored_as 255 p) as [l|]; [|done].
  destruct (stored_as 50 r) as [r'|]; [|done].
  destruct (stored_text m) as [m'|]; [|done].
  case_decide; [|done]. by intros [= <-].
Qed.

Lemma accepted_profile_row u p t d row :
  accepted_profile u p t d = Some row →
  up d = true ∧ p_user row ∈ users d ∧
  stored_as 255 u = Some (p_user row) ∧
  stored_as 255 p = Some (p_profession row) ∧
  stored_text t = Some (p_prompt row).
Proof.
  unfold accepted_profile. destruct (up d); [|done].
  destruct (stored_as 255 u) as [k|]; [|done].
  destruct (stored_as 255 p) as [l|]; [|done].
  destruct (stored_text t) as [t'|]; [|done].
  case_decide; [|done]. by intros [= <-].
Qed.

Lemma accepted_user_key u d k :
  accepted_user u d = Some k →
  up d = true ∧ (k ∉ users d) ∧ stored_as 255 u = Some k.
Proof.
  unfold accepted_user. destruct (up d); [|done].
  destruct (stored_as 255 u) as [k'|]; [|done].
  case_decide; [done|]. by intros [= <-].
Qed.

Lemma stored_text_value s t : stored_text s = Some t → t = s ∧ has_nul s = false.
Proof. unfold stored_text. destruct (has_nul s); [done|]. by intros [= <-]. Qed.

Lemma delete_user_data_run u w :
  delete_user_data u w =
    if up (db w)
    then (Ok true,
          with_db (log w (DeleteUserData u))
            (MkDB (up (db w))
               (filter (λ x, x ≠ u) (users (db w)))
               (filter (λ r, c_user r ≠ u) (conversations (db w)))
               (filter (λ r, p_user r ≠ u) (professions (db w)))
               (clock (db w))))
    else (Ok false, log w (DeleteUserData u)).
Proof.
  unfold delete_user_data, delete_from_users.
  by destruct w as [[[] ? ? ? ?] ? ?].
Qed.

End db_facts.

(** ** Storing an instruction profile *)

Section profile_facts.
Import db_manager.

Lemma select_prompt_upsert u p t rows :
  select_prompt u p (upsert u p t rows) = Some t.
Proof.
  induction rows as [|r rows IH]; simpl.
  - rewrite decide_True; [done|by split].
  - case_decide as Hr; simpl.
    + rewrite decide_True; [done|by split].
    + by rewrite decide_False.
Qed.

Lemma select_prompt_upsert_other u p t u' p' rows :
  (u', p') ≠ (u, p) →
  select_prompt u' p' (upsert u p t rows) = select_prompt u' p' rows.
Proof.
  intros Hne. induction rows as [|r rows IH]; simpl.
  - rewrite decide_False; [done|]. intros [??]; simplify_eq/=.
  - destruct (decide (of_profile u p r)) as [[Hu Hp]|Hr]; simpl.
    + rewrite !decide_False; [done| |]; intros [??]; simplify_eq/=.
    + case_decide; [done|]. apply IH.
Qed.

Lemma profile_keys_upsert u p t rows :
  profile_key <$> upsert u p t rows =
    if decide ((u, p) ∈ profile_key <$> rows) then profile_key <$> rows
    else (profile_key <$> rows) ++ [(u, p)].
Proof.
  induction rows as [|r rows IH]; csimpl.
  - done.
  - destruct (decide (of_profile u p r)) as [[Hu Hp]|Hr]; csimpl.
    + assert (profile_key r = (u, p)) as Hk by (by unfold profile_key; f_equal).
      rewrite decide_True by (rewrite Hk; left). by rewrite Hk.
    + rewrite IH. destruct (decide ((u, p) ∈ profile_key <$> rows)) as [Hin|Hin].
      * by rewrite decide_True by (by right).
      * rewrite decide_False; [done|].
        intros [Heq|?]%elem_of_cons; [|done].
        apply Hr. unfold profile_key in Heq. by simplify_eq.
Qed.

Lemma unique_profiles_upsert u p t rows :
  NoDup (profile_key <$> rows) → NoDup (profile_key <$> upsert u p t rows).
Proof.
  intros Hnd. rewrite profile_keys_upsert. case_decide as Hin; [done|].
  apply NoDup_app. split_and!; [done| |apply NoDup_singleton].
  intros k Hk ->%list_elem_of_singleton. done.
Qed.

(** C4, as the code has it: for an identity and a label that fit their
    columns (at most 255 characters) and parameters that the driver
    accepts (no NUL character), [save_profession_prompt] on a pair that
    has a profile replaces the stored text by the new one (insert or
    update on conflict, the last writer wins); the profiles of the other
    pairs are untouched and the table keeps one row per pair. *)
Theorem save_profession_prompt_replaces u p t w :
  up (db w) = true → u ∈ users (db w) →
  storable 255 u → storable 255 p → has_nul t = false →
  ∃ w',
    save_profession_prompt u p t w = (Ok true, w') ∧
    select_prompt u p (professions (db w')) = Some t ∧
    (∀ u' p', (u', p') ≠ (u, p) →
       select_prompt u' p' (professions (db w')) =
       select_prompt u' p' (professions (db w))) ∧
    (NoDup (profile_key <$> professions (db w)) →
     NoDup (profile_key <$> professions (db w'))) ∧
    users (db w') = users (db w) ∧
    conversations (db w') = conversations (db w).
Proof.
  intros Hup Hu Hsu Hsp Ht.
  rewrite save_profession_prompt_run, accepted_profile_storable by done.
  eexists; split; [done|]. cbn. split_and!; [| | |done|done].
  - apply select_prompt_upsert.
  - intros. by apply select_prompt_upsert_other.
  - apply unique_profiles_upsert.
Qed.

(** The replacement, on the profile of [u1] for [mentor]. *)
Lemma save_profession_prompt_replaces_witness :
  ∃ w',
    save_profession_prompt "u1" "mentor" "Be a strict mentor."
      (MkWorld db_with_profile [] []) = (Ok true, w') ∧
    select_prompt "u1" "mentor" (professions (db w')) = Some "Be a strict mentor.".
Proof.
  destruct (save_profession_prompt_replaces "u1" "mentor" "Be a strict mentor."
              (MkWorld db_with_profile [] [])) as (w' & ? & ? & _).
  - reflexivity.
  - by vm_compute; left.
  - split; [reflexivity|vm_compute; lia].
  - split; [reflexivity|vm_compute; lia].
  - reflexivity.
  - by exists w'.
Defined.

(** C4, as the spec has it, fails: the pair [("u1", "mentor")] has a
    profile and persisting another text for it changes the stored text. *)
Lemma save_profession_prompt_not_insert_or_ignore :
  let w := MkWorld db_with_profile [] [] in
  let w' := (save_profession_prompt "u1" "mentor" "Be a strict mentor." w).2 in
  (get_profession_prompt "u1" "mentor" w).1 = Ok (Some "Be a patient mentor.") ∧
  (get_profession_prompt "u1" "mentor" w').1 = Ok (Some "Be a strict mentor.") ∧
  "Be a patient mentor." ≠ "Be a strict mentor.".
Proof. by vm_compute. Qed.

(** A label of 256 characters is more than its column holds: the write
    is refused and nothing is stored for it. *)
Example save_profession_prompt_refuses_a_long_label :
  let w := MkWorld db_with_profile [] [] in
  save_profession_prompt "u1" long_key "Be brief." w =
    (Ok false, log w (SaveProfessionPrompt "u1" long_key "Be brief.")).
Proof. by vm_compute. Qed.

End profile_facts.

(** ** The context window *)

Section context_facts.

Lemma last10_suffix {A} (l : list A) :
  l = take (length l - 10) l ++ last10 l.
Proof. unfold last10. by rewrite take_drop. Qed.

Lemma last10_length {A} (l : list A) :
  length (last10 l) = Nat.min (length l) 10.
Proof. unfold last10. rewrite length_drop. lia. Qed.

Lemma last10_short {A} (l : list A) : length l ≤ 10 → last10 l = l.
Proof.
  intros Hle. unfold last10. by replace (length l - 10) with 0 by lia.
Qed.

Lemma history_messages_length window :
  length (history_messages window) ≤ length window.
Proof.
  induction window as [|t window IH]; simpl; [done|].
  repeat case_decide; simpl; lia.
Qed.

Lemma history_messages_pipeline window :
  Forall pipeline_role window →
  history_messages window = message_of_turn <$> window.
Proof.
  induction 1 as [|t window Ht _ IH]; csimpl; [done|].
  unfold message_of_turn. rewrite IH.
  destruct Ht as [Ht|Ht]; rewrite Ht; by repeat case_decide.
Qed.

(** What [build_messages] assembles: the instruction text, then the
    turns of a window that is the last [min 10 (length history)] turns of
    the history, in their order, then the inbound message. *)
Lemma build_messages_window prompt history message :
  ∃ dropped window,
    history = dropped ++ window ∧
    length window = Nat.min (length history) 10 ∧
    build_messages prompt history message =
      SystemMessage prompt :: history_messages window ++ [HumanMessage message] ∧
    length (history_messages window) ≤ 10 ∧
    head (build_messages prompt history message) = Some (SystemMessage prompt) ∧
    last (build_messages prompt history message) = Some (HumanMessage message) ∧
    (Forall pipeline_role history →
     history_messages window = message_of_turn <$> window).
Proof.
  exists (take (length history - 10) history), (last10 history).
  split_and!.
  - apply last10_suffix.
  - apply last10_length.
  - done.
  - etrans; [apply history_messages_length|]. rewrite last10_length. lia.
  - done.
  - unfold build_messages. by rewrite app_assoc, last_snoc.
  - intros Hroles. apply history_messages_pipeline.
    unfold last10. by apply Forall_drop.
Qed.

End context_facts.

(** ** Deleting an identity *)

Section delete_facts.
Context `{Collation} `{ISOFormat}.


(** [DELETE /user/{user_id}] never answers 404. *)
Lemma delete_user_never_not_found u w detail :
  (delete_user u w).1 ≠ HttpError 404 detail.
Proof.
  unfold delete_user, endpoint, bind. rewrite delete_user_data_run.
  by destruct (up (db w)).
Qed.


Lemma get_user_personas_run u w :
  db_manager.get_user_personas u w =
    ((if up (db w)
      then Ok (sort_by collate
                 (remove_dups (c_persona <$>
                    filter (db_manager.of_user u) (conversations (db w)))))
      else Raise OperationalError), log w (GetUserPersonas u)).
Proof.
  unfold db_manager.get_user_personas. exec. by destruct (up (db w)).
Qed.

Lemma get_all_chat_history_run u w :
  db_manager.get_all_chat_history u w =
    ((if up (db w)
      then Ok (db_manager.group_by_persona
                 (sort_by db_manager.by_persona_timestamp
                    (filter (db_manager.of_user u) (conversations (db w)))))
      else Raise OperationalError), log w (GetAllChatHistory u)).
Proof.
  unfold db_manager.get_all_chat_history. exec. by destruct (up (db w)).
Qed.

(** The query endpoints leave the database as it is. *)
Lemma query_endpoints_db u w :
  db (get_chat_history u w).2 = db w ∧ db (get_user_personas u w).2 = db w.
Proof.
  unfold get_chat_history, get_user_personas, endpoint_reraising, bind.
  rewrite user_exists_run.
  destruct (up (db w)) eqn:Hup; [|done].
  destruct (bool_decide _); cbn [negb]; [|done].
  rewrite get_all_chat_history_run, !get_user_personas_run.
  autorewrite with world. by rewrite Hup.
Qed.

End delete_facts.

Section delete_examples.
#[local] Existing Instance codepoint_collation.
#[local] Existing Instance sample_isoformat.


End delete_examples.

(** ** The Persona Router *)

Section router_facts.
Context `{JSONDecoder}.
Import db_manager.

Lemma or_else_nonempty a b : b ≠ "" → PyStr.or_else a b ≠ "".
Proof. unfold PyStr.or_else. by destruct a. Qed.


Lemma get_or_nonempty v d : d ≠ "" → get_or v d ≠ "".
Proof. destruct v; simpl; [apply or_else_nonempty|done]. Qed.

Lemma select_thread_absent u p d :
  ¬ Exists (of_thread u p) (conversations d) → select_thread u p d = [].
Proof.
  intros Hno. unfold select_thread.
  replace (filter (of_thread u p) (conversations d)) with (@nil conv_row); [done|].
  induction (conversations d) as [|r rows IH]; [done|].
  rewrite filter_cons_False.
  - apply IH. intros Hex. apply Hno. by right.
  - intros Hr. apply Hno. by left.
Qed.

Lemma llm_invoke_run c w :
  llm_invoke c w =
    (match next_reply w with
     | Content text => Ok text
     | Failure reason => Raise (LLMError reason)
     end, answered w c).
Proof. unfold llm_invoke. by destruct (next_reply w). Qed.

(** What [detect_profession_from_message] returns, reply by reply. *)
Lemma detect_profession_from_message_run m cur w :
  detect_profession_from_message m cur w =
    (match next_reply w with
     | Failure reason => Raise (LLMError reason)
     | Content raw =>
         match json_loads raw with
         | None => Ok (Detection false cur)
         | Some (JDict items) =>
             match Py.or_else (Py.assoc "profession_name" items) (JStr "") with
             | JStr s =>
                 Ok (Detection
                       (Py.truthy (default (JBool false)
                                     (Py.assoc "should_switch" items)))
                       (if PyStr.falsy (PyStr.strip s) then cur else PyStr.strip s))
             | v => Raise (AttributeError (Py.type_name v) "strip")
             end
         | Some v => Raise (AttributeError (Py.type_name v) "get")
         end
     end, answered w (Classify m cur)).
Proof.
  unfold detect_profession_from_message, bind. rewrite llm_invoke_run.
  destruct (next_reply w) as [raw|reason]; [|done].
  destruct (json_loads raw) as [data|]; [|done].
  destruct data as [| | | | | |items]; try done.
  cbn. destruct (Py.assoc "should_switch" items) as [v|];
    destruct (Py.assoc "profession_name" items) as [c|]; cbn; try done.
  all: unfold Py.or_else; destruct (Py.truthy c) eqn:Hc; [by destruct c|done].
Qed.

Lemma detect_profession_from_message_world m cur w :
  (detect_profession_from_message m cur w).2 = answered w (Classify m cur).
Proof. by rewrite detect_profession_from_message_run. Qed.

(** What [handle_persona] does, in terms of what the detection gave. *)
Lemma handle_persona_run state w :
  let u := user_id state in
  let cur := get_or (current_persona state) "general_expert" in
  let w1 := answered w (Classify (st_message state) cur) in
  handle_persona state w =
    match (detect_profession_from_message (st_message state) cur w).1 with
    | Raise e => (Raise e, w1)
    | Ok det =>
        let label := PyStr.or_else (det_profession_name det) cur in
        if up (db w) then
          (Ok (routed state label (select_thread u label (db w))),
           after_routing w u (st_message state) cur label)
        else (Raise OperationalError, log w1 (PersonaExistsForUser u label))
    end.
Proof.
  intros u cur w1. unfold handle_persona, after_routing, bind. fold u cur.
  pose proof (detect_profession_from_message_world (st_message state) cur w) as Hw.
  destruct (detect_profession_from_message (st_message state) cur w)
    as [[det|e] w0]; cbn [fst snd] in *; subst w0; fold w1; [|done].
  rewrite persona_exists_for_user_run. unfold w1. autorewrite with world.
  destruct (up (db w)) eqn:Hup; [|done].
  case_bool_decide as Hex.
  - rewrite get_persona_history_run. autorewrite with world. by rewrite Hup.
  - unfold ret, routed. by rewrite select_thread_absent.
Qed.



End router_facts.

(** ** The nodes, run on a world *)

Section node_facts.
Context `{JSONDecoder}.
Import db_manager.

Lemma initialize_chat_run state w :
  initialize_chat state w = (Ok (initialized state), w).
Proof.
  unfold initialize_chat, initialized, truthy_str, ret.
  destruct (current_persona state) as [p|]; [|done].
  by destruct (PyStr.falsy p).
Qed.

Lemma validate_user_run state w :
  let u := user_id state in
  validate_user state w =
    if up (db w) then
      (Ok (validated state (bool_decide (u ∈ users (db w)))), after_validate w u)
    else (Raise OperationalError, log w (UserExists u)).
Proof.
  intros u. unfold validate_user, after_validate, bind. fold u.
  rewrite user_exists_run. destruct (up (db w)) eqn:Hup; [|done].
  case_bool_decide as Hu; cbn [negb]; [done|].
  rewrite create_user_run. autorewrite with world.
  by destruct (accepted_user u (db w)).
Qed.

(** What [validate_user] leaves of the database: at most one key is
    added to [users], the one the column stores for the identity; an
    identity that fits the column is a stored one afterwards. *)
Lemma after_validate_db w u :
  let d := db (after_validate w u) in
  up d = up (db w) ∧ conversations d = conversations (db w) ∧
  professions d = professions (db w) ∧ clock d = clock (db w) ∧
  (up (db w) = true → storable 255 u → u ∈ users d) ∧
  users d = (if bool_decide (u ∈ users (db w)) then users (db w)
             else match accepted_user u (db w) with
                  | Some k => users (db w) ++ [k]
                  | None => users (db w)
                  end) ∧
  pending (after_validate w u) = pending w.
Proof.
  unfold after_validate. case_bool_decide as Hu; [by cbn|].
  destruct (accepted_user u (db w)) as [k|] eqn:Hk; cbn; split_and!; try done.
  - intros Hup Hsu. rewrite accepted_user_storable in Hk by done.
    injection Hk as <-. apply elem_of_app. right. by left.
  - intros Hup Hsu. by rewrite accepted_user_storable in Hk.
Qed.

Lemma get_or_create_profession_prompt_run u p w :
  let w1 := log w (GetProfessionPrompt u p) in
  get_or_create_profession_prompt u p w =
    if up (db w) then
      match truthy_str (select_prompt u p (professions (db w))) with
      | Some existing => (Ok existing, w1)
      | None =>
          match next_reply w with
          | Failure reason => (Raise (LLMError reason), answered w1 (Synthesize p))
          | Content raw =>
              let prompt :=
                if PyStr.falsy (PyStr.strip raw) then fallback_prompt p
                else PyStr.strip raw in
              (Ok prompt,
               (save_profession_prompt u p prompt (answered w1 (Synthesize p))).2)
          end
      end
    else (Raise OperationalError, w1).
Proof.
  intros w1. unfold get_or_create_profession_prompt, bind.
  rewrite get_profession_prompt_run. fold w1.
  destruct (up (db w)) eqn:Hup; [|done].
  destruct (truthy_str _) as [existing|]; [done|].
  unfold generate_profession_prompt_with_llm, bind.
  rewrite llm_invoke_run. unfold w1 at 1. autorewrite with world.
  destruct (next_reply w) as [raw|reason]; [|done].
  unfold ret at 1. cbn zeta.
  rewrite save_profession_prompt_run. by destruct (accepted_profile _ _ _ _).
Qed.

(** The instruction resolution that opens [execute_chat]. *)
Lemma execute_chat_run state w :
  let u := user_id state in
  let label := executor_label state in
  let resolution :=
    match truthy_str (profession_prompt state) with
    | Some prompt => ret prompt
    | None => get_or_create_profession_prompt u label
    end w in
  execute_chat state w =
    match resolution with
    | (Raise e, w1) => (Raise e, w1)
    | (Ok prompt, w1) =>
        let messages :=
          build_messages prompt (default [] (conversation_history state))
            (st_message state) in
        let w2 := answered w1 (Generate messages) in
        match next_reply w1 with
        | Failure reason =>
            (Ok (completed state prompt (apology (LLMError reason))), w2)
        | Content answer =>
            (Ok (completed state prompt answer),
             (save_message u label "assistant" answer
                (save_message u label "user" (st_message state) w2).2).2)
        end
    end.
Proof.
  intros u label resolution. unfold execute_chat, bind.
  fold u. fold (executor_label state). fold label. fold resolution.
  destruct resolution as [[prompt|e] w1]; [|done].
  unfold try_except, bind. rewrite llm_invoke_run.
  destruct (next_reply w1) as [answer|reason]; [|done].
  destruct (save_message u label "user" _ _) as [[b|e] w3] eqn:E1.
  - cbn [snd]. destruct (save_message u label "assistant" _ _) as [[b'|e'] w4] eqn:E2.
    + done.
    + rewrite save_message_run in E2. by destruct (accepted_turn _ _ _ _ _).
  - rewrite save_message_run in E1. by destruct (accepted_turn _ _ _ _ _).
Qed.

End node_facts.

(** ** The graph: one forward path through the four nodes *)

Section graph_facts.
Context `{JSONDecoder}.

Lemma route_after_set_action state a next :
  a ∈ ["validate_user"; "handle_persona"; "execute_chat"; "complete"] →
  conditional_mapping a = Some next →
  conditional_mapping (route_next (set_action state a)) = Some next.
Proof.
  intros Ha Hnext. unfold route_next. cbn [action set_action default from_option].
  repeat (apply elem_of_cons in Ha as [->|Ha]; [exact Hnext|]).
  by apply elem_of_nil in Ha.
Qed.

Lemma initialize_chat_next state w state' w' :
  initialize_chat state w = (Ok state', w') →
  conditional_mapping (route_next state') = Some n_validate_user.
Proof.
  rewrite initialize_chat_run. intros [= <- _].
  unfold initialized. by apply route_after_set_action; [repeat constructor|].
Qed.

Lemma validate_user_next state w state' w' :
  validate_user state w = (Ok state', w') →
  conditional_mapping (route_next state') = Some n_handle_persona.
Proof.
  rewrite validate_user_run. cbn zeta.
  destruct (up (db w)); [|done]. intros [= <- _]. unfold validated.
  destruct (bool_decide _);
    by apply route_after_set_action; [repeat constructor|].
Qed.

Lemma handle_persona_next state w state' w' :
  handle_persona state w = (Ok state', w') →
  conditional_mapping (route_next state') = Some n_execute_chat.
Proof.
  rewrite handle_persona_run. cbn zeta.
  destruct (detect_profession_from_message _ _ _).1; [|done].
  destruct (up (db w)); intros [= <- _]; unfold routed;
    by apply route_after_set_action; [repeat constructor|].
Qed.

Lemma execute_chat_next state w state' w' :
  execute_chat state w = (Ok state', w') →
  conditional_mapping (route_next state') = Some END.
Proof.
  rewrite execute_chat_run. cbn zeta.
  set (resolution := match truthy_str (profession_prompt state) with
                     | Some prompt => ret prompt
                     | None => _
                     end w).
  destruct resolution as [[prompt|e] w1]; [|done].
  destruct (next_reply w1); intros [= <- _]; unfold completed;
    by apply route_after_set_action; [repeat constructor|].
Qed.

Lemma run_from_step steps n state :
  n ≠ END →
  run_from (S steps) n state =
    (state <- run_node n state ;;
     match conditional_mapping (route_next state) with
     | Some next => run_from steps next state
     | None => raise (KeyError (route_next state))
     end).
Proof. by destruct n. Qed.

Lemma run_from_END steps state : run_from steps END state = ret state.
Proof. by destruct steps. Qed.

Lemma bind_ext {A B} (m : M A) (k k' : A → M B) w :
  (∀ a w', m w = (Ok a, w') → k a w' = k' a w') →
  bind m k w = bind m k' w.
Proof. intros Hk. unfold bind. destruct (m w) as [[a|e] w']; auto. Qed.

(** [graph.invoke] runs the four nodes once each, in their order. *)
Lemma graph_invoke_run state w :
  graph_invoke state w =
    (s1 <- initialize_chat state ;;
     s2 <- validate_user s1 ;;
     s3 <- handle_persona s2 ;;
     execute_chat s3) w.
Proof.
  unfold graph_invoke.
  change recursion_limit with (S (S (S (S 21)))).
  rewrite run_from_step by done. cbn [run_node].
  apply bind_ext. intros s1 w1 E1.
  rewrite (initialize_chat_next _ _ _ _ E1).
  rewrite run_from_step by done. cbn [run_node].
  apply bind_ext. intros s2 w2 E2.
  rewrite (validate_user_next _ _ _ _ E2).
  rewrite run_from_step by done. cbn [run_node].
  apply bind_ext. intros s3 w3 E3.
  rewrite (handle_persona_next _ _ _ _ E3).
  rewrite run_from_step by done. cbn [run_node]. unfold bind.
  destruct (execute_chat s3 w3) as [[s4|e] w4] eqn:E4; [|done].
  by rewrite (execute_chat_next _ _ _ _ E4), run_from_END.
Qed.

End graph_facts.

(** ** The router on concrete runs *)

Section router_examples.
Import db_manager.





(** C2: the fallback is there for a reply that is not JSON, and only for
    it.  With the database reachable, a classifier that fails, one that
    answers a JSON list and one that gives a number as the label each
    end the request in an error 500. *)
Theorem classifier_failure_reaches_the_caller :
  let run script := (@chat sample_decoder first_request (fresh_world script)).1 in
  up (db (fresh_world [])) = true ∧
  run [Content "I cannot answer that.";
       Content "You are an expert."; Content "Hello."] =
    Http200 (MkResponse "Hello." "general_expert" "u1") ∧
  run [Failure "Connection error."] = HttpError 500 "Connection error." ∧
  run [Content "[]"] = HttpError 500 "'list' object has no attribute 'get'" ∧
  run [Content ("{" +:+ quoted "should_switch" +:+ ": true, "
                +:+ quoted "profession_name" +:+ ": 7}")] =
    HttpError 500 "'int' object has no attribute 'strip'".
Proof. by vm_compute. Qed.

End router_examples.

(** ** Threads in the order of their timestamps *)

Section thread_facts.
Import db_manager.

Lemma sort_by_timestamp_sorted rows :
  StronglySorted (λ a b, c_timestamp a < c_timestamp b) rows →
  sort_by by_timestamp rows = rows.
Proof.
  induction 1 as [|r rows Hsorted IH Hr]; [done|].
  unfold sort_by in *. cbn [foldr]. rewrite IH.
  destruct Hr as [|r' rows' Hlt _]; [done|]. cbn [insert_by].
  unfold by_timestamp. by rewrite (proj2 (Nat.leb_le _ _)) by lia.
Qed.

Lemma filter_sorted (P : conv_row → Prop) `{!∀ r, Decision (P r)} rows :
  StronglySorted (λ a b, c_timestamp a < c_timestamp b) rows →
  StronglySorted (λ a b, c_timestamp a < c_timestamp b) (filter P rows).
Proof.
  induction 1 as [|r rows Hsorted IH Hr]; [constructor|].
  rewrite filter_cons. case_decide; [|done].
  constructor; [done|]. rewrite Forall_forall in Hr. apply Forall_forall.
  intros r' [_ Hr']%list_elem_of_filter. by apply Hr.
Qed.

(** On a chronological table, the history of a thread is its rows in the
    order of the table. *)
Lemma select_thread_chronological u p d :
  chronological d →
  select_thread u p d = dict_of_row <$> filter (of_thread u p) (conversations d).
Proof.
  intros Hsorted. unfold select_thread.
  by rewrite sort_by_timestamp_sorted by by apply filter_sorted.
Qed.

Lemma select_thread_ext u p d d' :
  conversations d' = conversations d → select_thread u p d' = select_thread u p d.
Proof. intros Hd. unfold select_thread. by rewrite Hd. Qed.

Lemma chronological_ext d d' :
  conversations d' = conversations d → chronological d → chronological d'.
Proof. unfold chronological. by intros ->. Qed.

(** Rows stamped by a clock that runs forward keep the table in the
    order of its timestamps. *)
Lemma exchange_chronological d u p inbound outbound :
  chronological d → clock_runs_forward d →
  StronglySorted (λ a b, c_timestamp a < c_timestamp b)
    (with_exchange d u p inbound outbound).
Proof.
  intros Hsorted [Hpast Hclock]. unfold with_exchange.
  pose proof (Hclock 0) as Hnext.
  apply StronglySorted_app_2; [|done|].
  - rewrite Forall_forall in Hpast.
    intros r1 r2 Hr1%Hpast Hr2.
    apply elem_of_cons in Hr2 as [->|Hr2]; cbn; [done|].
    apply list_elem_of_singleton in Hr2 as ->. cbn. lia.
  - repeat constructor; cbn; lia.
Qed.

Lemma append_chronological d r :
  chronological d → Forall (λ x, c_timestamp x < c_timestamp r) (conversations d) →
  StronglySorted (λ a b, c_timestamp a < c_timestamp b) (conversations d ++ [r]).
Proof.
  intros Hsorted Hpast.
  apply StronglySorted_app_2; [|done|repeat constructor].
  rewrite Forall_forall in Hpast.
  by intros r1 r2 Hr1%Hpast ->%list_elem_of_singleton.
Qed.

(** The history of a thread in a table that has grown, both in the
    order of their timestamps. *)
Lemma select_thread_grown u p d d' rows :
  conversations d' = conversations d ++ rows →
  chronological d' →
  select_thread u p d' =
    select_thread u p d ++ (dict_of_row <$> filter (of_thread u p) rows).
Proof.
  intros Hrows Hsorted.
  assert (chronological d) as Hd.
  { unfold chronological in *. rewrite Hrows in Hsorted.
    by apply StronglySorted_app_1_l in Hsorted. }
  rewrite !select_thread_chronological by done.
  by rewrite Hrows, filter_app, fmap_app.
Qed.

(** The history of a thread after an exchange in it. *)
Lemma select_thread_exchange d d' u p inbound outbound :
  chronological d → clock_runs_forward d →
  conversations d' = with_exchange d u p inbound outbound →
  select_thread u p d' =
    select_thread u p d ++
      [Turn "user" inbound (clock d 0); Turn "assistant" outbound (clock d 1)].
Proof.
  intros Hd Hclock Hrows.
  rewrite (select_thread_grown u p d d'
             [ConvRow u p "user" inbound (clock d 0);
              ConvRow u p "assistant" outbound (clock d 1)]).
  - rewrite !filter_cons, filter_nil.
    by rewrite !decide_True by (by split).
  - done.
  - unfold chronological. rewrite Hrows. by apply exchange_chronological.
Qed.

Lemma delete_chronological d u :
  chronological d →
  StronglySorted (λ a b, c_timestamp a < c_timestamp b)
    (filter (λ r, c_user r ≠ u) (conversations d)).
Proof. intros Hsorted. by apply filter_sorted. Qed.

End thread_facts.

(** ** A request from end to end *)

Section chat_facts.
Context `{JSONDecoder} `{Collation} `{ISOFormat}.
Import db_manager.

(** What the instruction resolution leaves of the world. *)
Lemma get_or_create_profession_prompt_frame u p w :
  let w1 := (get_or_create_profession_prompt u p w).2 in
  up (db w1) = up (db w) ∧ users (db w1) = users (db w) ∧
  conversations (db w1) = conversations (db w) ∧ clock (db w1) = clock (db w) ∧
  ∃ evs, trace w1 = trace w ++ evs ∧ Forall (keyed_by u p) evs ∧
         GetProfessionPrompt u p ∈ evs.
Proof.
  assert (∀ e, event_key e = Some (u, p) ∨ event_key e = None → keyed_by u p e)
    as Hkey by (intros e [He|He] k; rewrite He; congruence).
  rewrite get_or_create_profession_prompt_run. cbn zeta.
  destruct (up (db w)) eqn:Hup.
  - destruct (truthy_str _) as [existing|].
    + split_and!; try done. exists [GetProfessionPrompt u p].
      split_and!; [done| |by left]. repeat constructor; auto.
    + destruct (next_reply w) as [raw|reason]; cbn [snd].
      * rewrite save_profession_prompt_run. autorewrite with world.
        destruct (accepted_profile _ _ _ _); cbn [snd]; autorewrite with world;
          (split_and!; try done);
          eexists; (split; [by rewrite <-!app_assoc|]);
          (split; [repeat constructor; auto|by left]).
      * autorewrite with world. split_and!; try done.
        eexists; split; [by rewrite <-!app_assoc|].
        split; [repeat constructor; auto|by left].
  - split_and!; try done. exists [GetProfessionPrompt u p].
    split_and!; [done| |by left]. repeat constructor; auto.
Qed.

Lemma executor_label_routed state label history :
  label ≠ "" → executor_label (routed state label history) = label.
Proof.
  intros Hl. unfold executor_label, routed. cbn. unfold PyStr.or_else.
  by destruct label.
Qed.

Lemma initialized_current request :
  get_or (current_persona (initialized (initial_state request))) "general_expert"
  = request_label request.
Proof.
  unfold initialized, initial_state, request_label. cbn.
  destruct (req_persona_name request); cbn; done.
Qed.

Lemma initialized_fields state :
  user_id (initialized state) = user_id state ∧
  st_message (initialized state) = st_message state ∧
  profession_prompt (initialized state) = profession_prompt state.
Proof.
  unfold initialized.
  destruct (truthy_str (current_persona state)); cbn;
    by destruct (conversation_history state).
Qed.

Lemma validated_fields state known :
  user_id (validated state known) = user_id state ∧
  st_message (validated state known) = st_message state ∧
  profession_prompt (validated state known) = profession_prompt state ∧
  current_persona (validated state known) = current_persona state.
Proof. by destruct known. Qed.

Lemma request_label_nonempty request : request_label request ≠ "".
Proof. by apply or_else_nonempty. Qed.

Lemma chat_of_graph request w :
  chat request w =
    match graph_invoke (initial_state request) w with
    | (Ok final, w') =>
        match response final, current_persona final with
        | Some r, Some p => (Http200 (MkResponse r p (user_id final)), w')
        | None, _ => (HttpError 500 (str_exn (KeyError "response")), w')
        | Some _, None =>
            (HttpError 500 (str_exn (KeyError "current_persona")), w')
        end
    | (Raise e, w') => (HttpError 500 (str_exn e), w')
    end.
Proof.
  unfold chat, endpoint, bind, item, ret, raise.
  destruct (graph_invoke (initial_state request) w) as [[final|e] w']; [|done].
  by destruct (response final), (current_persona final).
Qed.

(** The Router and the Executor in a row, on a state that has no
    instruction text yet. *)
Lemma route_then_execute state w :
  profession_prompt state = None →
  up (db w) = true →
  let u := user_id state in
  let m := st_message state in
  let cur := get_or (current_persona state) "general_expert" in
  (s3 <- handle_persona state ;; execute_chat s3) w =
    match (detect_profession_from_message m cur w).1 with
    | Raise e => (Raise e, answered w (Classify m cur))
    | Ok det =>
        let label := PyStr.or_else (det_profession_name det) cur in
        let history := select_thread u label (db w) in
        let s3 := routed state label history in
        match get_or_create_profession_prompt u label
                (after_routing w u m cur label) with
        | (Raise e, w4) => (Raise e, w4)
        | (Ok prompt, w4) =>
            let messages := build_messages prompt history m in
            match next_reply w4 with
            | Failure reason =>
                (Ok (completed s3 prompt (apology (LLMError reason))),
                 answered w4 (Generate messages))
            | Content answer =>
                (Ok (completed s3 prompt answer),
                 (save_message u label "assistant" answer
                    (save_message u label "user" m
                       (answered w4 (Generate messages))).2).2)
            end
        end
    end.
Proof.
  intros Hpp Hup u m cur. unfold bind at 1.
  rewrite handle_persona_run. fold u m cur. rewrite Hup.
  destruct (detect_profession_from_message m cur w).1 as [det|e]; [|done].
  assert (cur ≠ "") as Hcur by (by apply get_or_nonempty).
  generalize (or_else_nonempty (det_profession_name det) cur Hcur).
  generalize (PyStr.or_else (det_profession_name det) cur). intros label Hlabel.
  cbv beta iota zeta. rewrite execute_chat_run. cbv beta iota zeta.
  rewrite (executor_label_routed state label _ Hlabel).
  replace (profession_prompt (routed state label (select_thread u label (db w))))
    with (@None string) by done.
  done.
Qed.

Lemma completed_routed_fields state label history prompt answer :
  let final := completed (routed state label history) prompt answer in
  response final = Some answer ∧ current_persona final = Some label ∧
  user_id final = user_id state.
Proof. done. Qed.

(** [POST /chat], step by step. *)
Lemma chat_run request w :
  let u := req_user_id request in
  let m := req_message request in
  let cur := request_label request in
  let w2 := after_validate w u in
  chat request w =
    if up (db w) then
      match (detect_profession_from_message m cur w2).1 with
      | Raise e => (HttpError 500 (str_exn e), answered w2 (Classify m cur))
      | Ok det =>
          let label := PyStr.or_else (det_profession_name det) cur in
          let history := select_thread u label (db w) in
          match get_or_create_profession_prompt u label
                  (after_routing w2 u m cur label) with
          | (Raise e, w4) => (HttpError 500 (str_exn e), w4)
          | (Ok prompt, w4) =>
              let messages := build_messages prompt history m in
              match next_reply w4 with
              | Failure reason =>
                  (Http200 (MkResponse (apology (LLMError reason)) label u),
                   answered w4 (Generate messages))
              | Content answer =>
                  (Http200 (MkResponse answer label u),
                   (save_message u label "assistant" answer
                      (save_message u label "user" m
                         (answered w4 (Generate messages))).2).2)
              end
          end
      end
    else (HttpError 500 (str_exn OperationalError), log w (UserExists u)).
Proof.
  intros u m cur w2. rewrite chat_of_graph, graph_invoke_run.
  unfold bind at 1. rewrite initialize_chat_run.
  unfold bind at 1. rewrite validate_user_run. cbv zeta.
  destruct (initialized_fields (initial_state request)) as (Hu1 & Hm1 & Hp1).
  change (user_id (initial_state request)) with u in Hu1.
  change (st_message (initial_state request)) with m in Hm1.
  change (profession_prompt (initial_state request)) with (@None string) in Hp1.
  rewrite Hu1. fold w2.
  destruct (up (db w)) eqn:Hup; [|done].
  destruct (validated_fields (initialized (initial_state request))
              (bool_decide (u ∈ users (db w)))) as (Hu & Hm & Hpp & Hcp).
  rewrite Hu1 in Hu. rewrite Hm1 in Hm. rewrite Hp1 in Hpp.
  generalize dependent (validated (initialized (initial_state request))
                          (bool_decide (u ∈ users (db w)))).
  intros s2 Hu Hm Hpp Hcp.
  destruct (after_validate_db w u) as (Hup2 & Hconv2 & _). fold w2 in Hup2, Hconv2.
  rewrite route_then_execute by (done || by rewrite Hup2).
  cbv zeta. rewrite Hu, Hm, Hcp, initialized_current. fold cur.
  destruct (detect_profession_from_message m cur w2).1 as [det|e]; [|done].
  assert (∀ label, select_thread u label (db w2) = select_thread u label (db w))
    as Hhist by (intros; unfold select_thread; by rewrite Hconv2).
  rewrite Hhist.
  destruct (get_or_create_profession_prompt u _ _) as [[prompt|e] w4]; [|done].
  destruct (next_reply w4) as [answer|reason].
  - destruct (completed_routed_fields s2
                (PyStr.or_else (det_profession_name det) cur)
                (select_thread u (PyStr.or_else (det_profession_name det) cur) (db w))
                prompt answer) as (-> & -> & ->).
    by rewrite Hu.
  - destruct (completed_routed_fields s2
                (PyStr.or_else (det_profession_name det) cur)
                (select_thread u (PyStr.or_else (det_profession_name det) cur) (db w))
                prompt (apology (LLMError reason))) as (-> & -> & ->).
    by rewrite Hu.
Qed.

Lemma trace_after_validate w u :
  trace (after_validate w u) =
    trace w ++ (if bool_decide (u ∈ users (db w)) then [UserExists u]
                else [UserExists u; CreateUser u]).
Proof.
  unfold after_validate. case_bool_decide; [done|]. cbv zeta.
  destruct (accepted_user u (db w)); autorewrite with world;
    by rewrite <-app_assoc.
Qed.

Lemma after_validate_trace w u :
  ∃ evs, trace (after_validate w u) = trace w ++ evs ∧
         Forall (λ e, event_key e = None) evs.
Proof.
  rewrite trace_after_validate. eexists; split; [done|].
  case_bool_decide; by repeat constructor.
Qed.

Lemma after_routing_world w u m cur label :
  db (after_routing w u m cur label) = db w ∧
  ∃ evs, trace (after_routing w u m cur label) = trace w ++ evs ∧
         Forall (keyed_by u label) evs ∧
         PersonaExistsForUser u label ∈ evs.
Proof.
  assert (∀ e, event_key e = Some (u, label) ∨ event_key e = None →
               keyed_by u label e)
    as Hkey by (intros e [He|He] k; rewrite He; congruence).
  unfold after_routing. case_bool_decide; autorewrite with world.
  - split; [done|]. eexists; split; [by rewrite <-!app_assoc|].
    split; [repeat constructor; auto|]. right. by left.
  - split; [done|]. eexists; split; [by rewrite <-!app_assoc|].
    split; [repeat constructor; auto|]. right. by left.
Qed.

(** What an append leaves of the world. *)
Lemma save_message_frame u p r m w :
  let w' := (save_message u p r m w).2 in
  up (db w') = up (db w) ∧ users (db w') = users (db w) ∧
  professions (db w') = professions (db w) ∧ pending w' = pending w ∧
  conversations (db w') =
    conversations (db w) ++ option_list (accepted_turn u p r m (db w)).
Proof.
  cbv zeta. rewrite save_message_run.
  destruct (accepted_turn u p r m (db w)) as [row|]; cbn.
  - done.
  - by rewrite app_nil_r.
Qed.

(** The two appends that follow a generated answer. *)
Lemma exchange_saved u label m answer w :
  let w' := (save_message u label "assistant" answer
               (save_message u label "user" m w).2).2 in
  conversations (db w') =
    conversations (db w) ++ exchange_rows (db w) u label m answer ∧
  trace w' = trace w ++ [SaveMessage u label "user" m;
                         SaveMessage u label "assistant" answer] ∧
  users (db w') = users (db w) ∧ professions (db w') = professions (db w) ∧
  up (db w') = up (db w) ∧ pending w' = pending w.
Proof.
  cbv zeta. unfold exchange_rows.
  rewrite (save_message_run u label "user").
  destruct (accepted_turn u label "user" m (db w)) as [row|]; cbn [snd].
  - rewrite save_message_run. autorewrite with world.
    destruct (accepted_turn u label "assistant" answer _) as [row'|];
      cbn [snd]; autorewrite with world; cbn;
      by rewrite <-?app_assoc, ?app_nil_r.
  - rewrite save_message_run. autorewrite with world.
    destruct (accepted_turn u label "assistant" answer _) as [row'|];
      cbn [snd]; autorewrite with world; cbn;
      by rewrite <-?app_assoc, ?app_nil_r.
Qed.

(** Both turns are stored when the database accepts them. *)
Lemma exchange_rows_storable d u label m answer :
  up d = true → u ∈ users d →
  storable 255 u → storable 255 label →
  has_nul m = false → has_nul answer = false →
  conversations d ++ exchange_rows d u label m answer =
    with_exchange d u label m answer.
Proof.
  intros Hup Hu Hsu Hsl Hm Ha. unfold exchange_rows, with_exchange.
  assert (storable 50 "user" ∧ storable 50 "assistant") as [Hru Hra]
    by (repeat split; cbn; lia).
  rewrite (accepted_turn_storable u label "user" m d) by done.
  by rewrite (accepted_turn_storable u label "assistant" answer) by done.
Qed.

(** What is stored of an exchange is stored for the identity and under
    the label, as their columns store them, with one of the two roles. *)
Lemma exchange_rows_keys d u label m answer row :
  row ∈ exchange_rows d u label m answer →
  up d = true ∧ c_user row ∈ users d ∧
  stored_as 255 u = Some (c_user row) ∧
  stored_as 255 label = Some (c_persona row) ∧
  (c_role row = "user" ∨ c_role row = "assistant") ∧
  has_nul (c_message row) = false.
Proof.
  assert (∀ r m' d' row',
            r = "user" ∨ r = "assistant" →
            up d' = up d → users d' = users d →
            accepted_turn u label r m' d' = Some row' →
            up d = true ∧ c_user row' ∈ users d ∧
            stored_as 255 u = Some (c_user row') ∧
            stored_as 255 label = Some (c_persona row') ∧
            (c_role row' = "user" ∨ c_role row' = "assistant") ∧
            has_nul (c_message row') = false) as Hone.
  { intros r m' d' row' Hr Hup Hus
      (Hup' & Hin & _ & Hku & Hkl & Hkr & Hkm)%accepted_turn_row.
    rewrite <-Hup, <-Hus. split_and!; try done.
    - assert (storable 50 r) as Hs
        by (destruct Hr as [->| ->]; split; cbn; lia).
      rewrite (stored_as_storable 50 r Hs) in Hkr. by injection Hkr as <-.
    - apply stored_text_value in Hkm as [Heq Hclean]. by rewrite Heq. }
  unfold exchange_rows.
  destruct (accepted_turn u label "user" m d) as [r1|] eqn:E1.
  - intros [->|Hin]%elem_of_cons; [by eapply (Hone "user"); eauto|].
    destruct (accepted_turn u label "assistant" answer _) as [r2|] eqn:E2;
      [|by apply elem_of_nil in Hin].
    apply list_elem_of_singleton in Hin as ->.
    by eapply (Hone "assistant" answer (append_turn d r1)); eauto.
  - destruct (accepted_turn u label "assistant" answer d) as [r2|] eqn:E2;
      [|by intros ?%elem_of_nil].
    intros ->%list_elem_of_singleton.
    by eapply (Hone "assistant"); eauto.
Qed.

Lemma exchange_rows_length d u label m answer :
  length (exchange_rows d u label m answer) ≤ 2.
Proof.
  unfold exchange_rows.
  destruct (accepted_turn u label "user" m d);
    destruct (accepted_turn u label "assistant" answer _); cbn; lia.
Qed.

(** ** The outcome of the generation call *)

(** Before [execute_chat] calls the generation oracle, a request has
    called it nowhere. *)
Lemma after_validate_no_generation w u :
  ∃ evs, trace (after_validate w u) = trace w ++ evs ∧
         Forall (λ e, ¬ is_generation e) evs.
Proof.
  rewrite trace_after_validate. eexists; split; [done|].
  case_bool_decide; repeat constructor; by intros [].
Qed.

Lemma after_routing_no_generation w u m cur label :
  ∃ evs, trace (after_routing w u m cur label) = trace w ++ evs ∧
         Forall (λ e, ¬ is_generation e) evs.
Proof.
  unfold after_routing. case_bool_decide; autorewrite with world;
    (eexists; split; [by rewrite <-!app_assoc|]);
    repeat constructor; by intros [].
Qed.

Lemma get_or_create_profession_prompt_no_generation u p w :
  ∃ evs, trace (get_or_create_profession_prompt u p w).2 = trace w ++ evs ∧
         Forall (λ e, ¬ is_generation e) evs.
Proof.
  rewrite get_or_create_profession_prompt_run. cbv zeta.
  destruct (up (db w)).
  - destruct (truthy_str _).
    + eexists; split; [done|]. repeat constructor; by intros [].
    + destruct (next_reply w) as [raw|reason] eqn:Hreply; cbn [snd].
      * rewrite save_profession_prompt_trace. autorewrite with world.
        eexists; split; [by rewrite <-!app_assoc|].
        repeat constructor; by intros [].
      * autorewrite with world. eexists; split; [by rewrite <-!app_assoc|].
        repeat constructor; by intros [].
  - eexists; split; [done|]. repeat constructor; by intros [].
Qed.

Lemma no_generation_in evs messages r :
  Forall (λ e, ¬ is_generation e) evs → LLM (Generate messages) r ∉ evs.
Proof.
  intros Hevs Hin. rewrite Forall_forall in Hevs. by apply (Hevs _ Hin).
Qed.

(** C3, as the code has it: whenever a request calls the generation
    oracle, it is answered, under a label that is not empty.  When the
    oracle failed, the response is the apology followed by the reason,
    which is not empty, and no turn is appended (the inbound turn is not
    stored).  When it answered, the response is its answer, and what is
    appended is at most the inbound turn and the outbound turn, stored
    for the identity and under the label as their columns store them:
    a turn that the database refuses is dropped.  For an identity and a
    label that fit their columns (at most 255 characters) and texts that
    the driver accepts (no NUL character), both are appended, the
    inbound turn, role [user], and then the outbound turn, role
    [assistant], each stamped with the reading of the clock at its
    append; and when the clock runs forward, the thread read back is the
    former thread followed by the two turns. *)
Theorem generation_outcome request w messages r :
  let u := req_user_id request in
  let m := req_message request in
  let w' := (chat request w).2 in
  LLM (Generate messages) r ∈ events_since w w' →
  ∃ label,
    label ≠ "" ∧
    match r with
    | Failure reason =>
        (chat request w).1 =
          Http200 (MkResponse
                     ("I apologize, but I encountered an error: " +:+ reason)
                     label u) ∧
        "I apologize, but I encountered an error: " +:+ reason ≠ "" ∧
        conversations (db w') = conversations (db w)
    | Content answer =>
        (chat request w).1 = Http200 (MkResponse answer label u) ∧
        (∃ rows,
           conversations (db w') = conversations (db w) ++ rows ∧
           length rows ≤ 2 ∧
           Forall (λ row, stored_as 255 u = Some (c_user row) ∧
                          stored_as 255 label = Some (c_persona row) ∧
                          (c_role row = "user" ∨ c_role row = "assistant"))
             rows) ∧
        (storable 255 u → storable 255 label →
         has_nul m = false → has_nul answer = false →
         conversations (db w') =
           conversations (db w) ++
             [ConvRow u label "user" m (clock (db w) 0);
              ConvRow u label "assistant" answer (clock (db w) 1)] ∧
         (chronological (db w) → clock_runs_forward (db w) →
          select_thread u label (db w') =
            select_thread u label (db w) ++
              [Turn "user" m (clock (db w) 0);
               Turn "assistant" answer (clock (db w) 1)]))
    end.
Proof.
  intros u m w'. subst w'. rewrite chat_run. cbv zeta. fold u m.
  destruct (up (db w)) eqn:Hup.
  2:{ cbn [snd]. erewrite events_since_app by done.
      by intros [=]%list_elem_of_singleton. }
  destruct (after_validate_db w u)
    as (Hup2 & Hconv2 & _ & Hclock2 & Hu2 & _).
  rewrite Hup in Hup2.
  destruct (after_validate_no_generation w u) as (evs2 & Ht2 & Hq2).
  destruct (detect_profession_from_message _ _ _).1 as [det|e].
  2:{ cbn [snd]. erewrite events_since_app
        by (by rewrite trace_answered, Ht2, <-!app_assoc).
      rewrite elem_of_app. intros [Hin|[=]%list_elem_of_singleton].
      by destruct (no_generation_in evs2 messages r). }
  set (l := PyStr.or_else (det_profession_name det) (request_label request)).
  assert (l ≠ "") as Hl by apply or_else_nonempty, request_label_nonempty.
  destruct (after_routing_world (after_validate w u) u m
              (request_label request) l) as (Hdb3 & _).
  destruct (after_routing_no_generation (after_validate w u) u m
              (request_label request) l) as (evs3 & Ht3 & Hq3).
  pose proof (get_or_create_profession_prompt_frame u l
                (after_routing (after_validate w u) u m (request_label request) l))
    as (Hup4 & Hu4 & Hconv4 & Hclock4 & _).
  destruct (get_or_create_profession_prompt_no_generation u l
              (after_routing (after_validate w u) u m (request_label request) l))
    as (evs4 & Ht4 & Hq4).
  destruct (get_or_create_profession_prompt u l _) as [[prompt|e] w4];
    cbn [snd] in *; rewrite Hdb3 in *.
  2:{ erewrite events_since_app by (by rewrite Ht4, Ht3, Ht2, <-!app_assoc).
      rewrite !elem_of_app. intros [Hin|[Hin|Hin]].
      - by destruct (no_generation_in evs2 messages r).
      - by destruct (no_generation_in evs3 messages r).
      - by destruct (no_generation_in evs4 messages r). }
  set (sent := build_messages prompt (select_thread u l (db w)) m).
  destruct (next_reply w4) as [answer|reason] eqn:Hreply; cbn [fst snd].
  - destruct (exchange_saved u l m answer (answered w4 (Generate sent)))
      as (Hconv & Htrace & Hus5 & _).
    cbv zeta in Hconv, Htrace, Hus5. autorewrite with world in Hconv, Htrace, Hus5.
    erewrite events_since_app
      by (by rewrite Htrace, Ht4, Ht3, Ht2, Hreply, <-!app_assoc).
    rewrite !elem_of_app, !elem_of_cons.
    intros [Hin|[Hin|[Hin|[[Hin|Hin]|[Hin|[Hin|Hin]]]]]];
      [by destruct (no_generation_in evs2 messages r)
      |by destruct (no_generation_in evs3 messages r)
      |by destruct (no_generation_in evs4 messages r)
      | |by apply elem_of_nil in Hin|done|done|by apply elem_of_nil in Hin].
    injection Hin as _ ->. exists l. split; [done|]. split; [done|].
    rewrite Hconv, Hconv4, Hconv2. split.
    + eexists. split; [done|]. split; [apply exchange_rows_length|].
      apply Forall_forall. intros row Hrow.
      by apply exchange_rows_keys in Hrow as (_ & _ & ? & ? & ? & _).
    + intros Hsu Hsl Hm Ha.
      assert (conversations (db w) ++ exchange_rows (db w4) u l m answer =
              with_exchange (db w) u l m answer) as Hrows.
      { rewrite <-Hconv2, <-Hconv4, exchange_rows_storable; try done.
        - unfold with_exchange. by rewrite Hconv4, Hconv2, Hclock4, Hclock2.
        - congruence.
        - rewrite Hu4. by apply Hu2. }
      split; [exact Hrows|]. intros Hchrono Hforward.
      eapply select_thread_exchange; [done..|].
      by rewrite Hconv, Hconv4, Hconv2.
  - erewrite events_since_app
      by (by rewrite trace_answered, Ht4, Ht3, Ht2, Hreply, <-!app_assoc).
    rewrite !elem_of_app, !elem_of_cons.
    intros [Hin|[Hin|[Hin|[Hin|Hin]]]];
      [by destruct (no_generation_in evs2 messages r)
      |by destruct (no_generation_in evs3 messages r)
      |by destruct (no_generation_in evs4 messages r)
      | |by apply elem_of_nil in Hin].
    injection Hin as _ ->. exists l. split; [done|]. split; [done|].
    split; [done|]. autorewrite with world. congruence.
Qed.

(** C9: in a request that is answered, the label of the response is the
    one label the Router resolved: [handle_persona] sets the three keys
    to it and loads the history stored under it, [execute_chat] works
    under it and leaves it in place, and every database call of the two
    nodes that is keyed by a thread (existence test, history load,
    profile lookup and store, turn appends) is keyed by this identity
    and this label. *)
Theorem one_label_throughout request w resp w' :
  chat request w = (Http200 resp, w') →
  let u := req_user_id request in
  let label := resp_persona_name resp in
  let w2 := after_validate w u in
  ∃ s3 w3 s4 evs,
    handle_persona (resolved_state request w) w2 = (Ok s3, w3) ∧
    execute_chat s3 w3 = (Ok s4, w') ∧
    label ≠ "" ∧
    persona_detected s3 = Some label ∧
    current_persona s3 = Some label ∧
    profession_name s3 = Some label ∧
    conversation_history s3 = Some (select_thread u label (db w2)) ∧
    executor_label s3 = label ∧
    current_persona s4 = Some label ∧
    trace w' = trace w2 ++ evs ∧
    Forall (keyed_by u label) evs ∧
    PersonaExistsForUser u label ∈ evs ∧
    GetProfessionPrompt u label ∈ evs.
Proof.
  intros Hchat u label w2. rewrite chat_run in Hchat. cbv zeta in Hchat.
  fold u w2 in Hchat. set (m := req_message request) in *.
  set (cur := request_label request) in *.
  destruct (up (db w)) eqn:Hup; [|done].
  destruct (detect_profession_from_message m cur w2).1 as [det|e] eqn:Hdet; [|done].
  set (l := PyStr.or_else (det_profession_name det) cur) in *.
  assert (l ≠ "") as Hl by apply or_else_nonempty, request_label_nonempty.
  destruct (after_validate_db w u) as (Hup2 & Hconv2 & _ & _ & Hu2 & _).
  fold w2 in Hup2, Hconv2, Hu2.
  assert (select_thread u l (db w2) = select_thread u l (db w)) as Hhist
    by (unfold select_thread; by rewrite Hconv2).
  destruct (after_routing_world w2 u m cur l) as (Hdb3 & evs3 & Ht3 & Hk3 & Hin3).
  pose proof (get_or_create_profession_prompt_frame u l (after_routing w2 u m cur l))
    as (Hup4 & Hu4 & _ & _ & evs4 & Ht4 & Hk4 & Hin4).
  destruct (initialized_fields (initial_state request)) as (Hu1 & Hm1 & Hp1).
  pose proof (validated_fields (initialized (initial_state request))
                (bool_decide (req_user_id request ∈ users (db w)))) as Hfields.
  change (validated _ _) with (resolved_state request w) in Hfields.
  destruct Hfields as (Hus & Hms & Hps & Hcs).
  rewrite Hu1 in Hus. rewrite Hm1 in Hms. rewrite Hp1 in Hps.
  change (user_id (initial_state request)) with u in Hus.
  change (st_message (initial_state request)) with m in Hms.
  change (profession_prompt (initial_state request)) with (@None string) in Hps.
  remember (resolved_state request w) as s2 eqn:Hs2. clear Hs2.
  assert (handle_persona s2 w2 =
            (Ok (routed s2 l (select_thread u l (db w2))),
             after_routing w2 u m cur l)) as Hrouter.
  { rewrite handle_persona_run. cbv zeta.
    rewrite Hus, Hms, Hcs, initialized_current. fold cur.
    by rewrite Hdet, Hup2, Hup. }
  rewrite Hhist in Hrouter.
  assert (∀ e, event_key e = Some (u, l) ∨ event_key e = None → keyed_by u l e)
    as Hkey by (intros e [He|He] k; rewrite He; congruence).
  pose proof (execute_chat_run (routed s2 l (select_thread u l (db w)))
                (after_routing w2 u m cur l)) as Hexec.
  cbv zeta in Hexec. rewrite executor_label_routed in Hexec by done.
  replace (profession_prompt (routed s2 l (select_thread u l (db w))))
    with (@None string) in Hexec by done.
  change (user_id (routed s2 l (select_thread u l (db w)))) with (user_id s2) in Hexec.
  change (st_message (routed s2 l (select_thread u l (db w))))
    with (st_message s2) in Hexec.
  change (conversation_history (routed s2 l (select_thread u l (db w))))
    with (Some (select_thread u l (db w))) in Hexec.
  rewrite Hus, Hms in Hexec. cbn [truthy_str from_option id] in Hexec.
  destruct (get_or_create_profession_prompt u l _) as [[prompt|e] w4]; [|done].
  cbn [snd] in *.
  destruct (next_reply w4) as [answer|reason] eqn:Hreply;
    injection Hchat as <- <-; subst label; cbn [resp_persona_name];
    rewrite Hhist.
  - exists (routed s2 l (select_thread u l (db w))), (after_routing w2 u m cur l),
      (completed (routed s2 l (select_thread u l (db w))) prompt answer),
      (evs3 ++ evs4 ++
         [LLM (Generate (build_messages prompt (select_thread u l (db w)) m))
            (Content answer);
          SaveMessage u l "user" m; SaveMessage u l "assistant" answer]).
    split; [exact Hrouter|]. split; [exact Hexec|].
    split_and!; try done.
    + by apply executor_label_routed.
    + destruct (exchange_saved u l m answer (answered w4
                  (Generate (build_messages prompt (select_thread u l (db w)) m))))
        as (_ & Htrace & _); autorewrite with world; [congruence..|].
      cbv zeta in Htrace. rewrite Htrace. autorewrite with world.
      rewrite Ht4, Ht3, Hreply, <-!app_assoc. done.
    + rewrite !Forall_app. split_and!; try done; repeat constructor; auto.
    + rewrite !elem_of_app. by left.
    + rewrite !elem_of_app. right. by left.
  - exists (routed s2 l (select_thread u l (db w))), (after_routing w2 u m cur l),
      (completed (routed s2 l (select_thread u l (db w))) prompt
         (apology (LLMError reason))),
      (evs3 ++ evs4 ++
         [LLM (Generate (build_messages prompt (select_thread u l (db w)) m))
            (Failure reason)]).
    split; [exact Hrouter|]. split; [exact Hexec|].
    split_and!; try done.
    + by apply executor_label_routed.
    + autorewrite with world. rewrite Ht4, Ht3, Hreply, <-!app_assoc. done.
    + rewrite !Forall_app. split_and!; try done; repeat constructor; auto.
    + rewrite !elem_of_app. by left.
    + rewrite !elem_of_app. right. by left.
Qed.

(** What a request leaves of the table of identities: at most the key
    that [validate_user] creates is added. *)
Lemma chat_users request w :
  let u := req_user_id request in
  let w' := (chat request w).2 in
  up (db w') = up (db w) ∧
  users (db w') =
    if bool_decide (u ∈ users (db w)) then users (db w)
    else match accepted_user u (db w) with
         | Some k => users (db w) ++ [k]
         | None => users (db w)
         end.
Proof.
  intros u. cbv zeta. rewrite chat_run. cbv zeta. fold u.
  destruct (up (db w)) eqn:Hup.
  2:{ cbn [snd]. autorewrite with world. split; [done|].
      unfold accepted_user. rewrite Hup. by case_bool_decide. }
  destruct (after_validate_db w u) as (Hup2 & _ & _ & _ & _ & Hus & _).
  rewrite Hup in Hup2.
  destruct (detect_profession_from_message _ _ _).1 as [det|e];
    [|by autorewrite with world].
  set (l := PyStr.or_else _ _).
  destruct (after_routing_world (after_validate w u) u (req_message request)
              (request_label request) l) as (Hdb3 & _).
  pose proof (get_or_create_profession_prompt_frame u l
                (after_routing (after_validate w u) u (req_message request)
                   (request_label request) l)) as (Hup4 & Hu4 & _).
  destruct (get_or_create_profession_prompt u l _) as [[prompt|e] w4];
    cbn [snd] in *; rewrite Hdb3 in *;
    [|by rewrite Hup4, Hu4, Hup2, Hus].
  destruct (next_reply w4) as [answer|reason]; cbn [snd].
  - destruct (exchange_saved u l (req_message request) answer
                (answered w4 (Generate
                   (build_messages prompt (select_thread u l (db w))
                      (req_message request)))))
      as (_ & _ & Hu5 & _ & Hup5 & _).
    cbv zeta in Hu5, Hup5. rewrite Hup5, Hu5. autorewrite with world.
    by rewrite Hup4, Hu4, Hup2, Hus.
  - autorewrite with world. by rewrite Hup4, Hu4, Hup2, Hus.
Qed.

(** C8, as the code has it: with the database reachable, the first
    request of an identity whose key the identity column can hold (at
    most 255 characters, no NUL character) creates its record when it is
    absent, and a second request under the same key finds it: the
    Identity Resolver does not fail and creates nothing, and the table of
    identities, which holds no key twice, is the same after the second
    request as after the first. *)
Theorem identity_created_once request request' w :
  up (db w) = true →
  NoDup (users (db w)) →
  storable 255 (req_user_id request) →
  req_user_id request' = req_user_id request →
  let u := req_user_id request in
  let w1 := (chat request w).2 in
  let w2 := (chat request' w1).2 in
  u ∈ users (db w1) ∧
  (u ∉ users (db w) → users (db w1) = users (db w) ++ [u]) ∧
  NoDup (users (db w1)) ∧
  (∀ state, user_id state = u →
     validate_user state w1 =
       (Ok (validated state true), log w1 (UserExists u))) ∧
  users (db w2) = users (db w1).
Proof.
  intros Hup Hnd Hsu Hsame u w1 w2.
  destruct (chat_users request w) as (Hup1 & Hus1). fold u w1 in Hup1, Hus1.
  assert (users (db w1) = if bool_decide (u ∈ users (db w)) then users (db w)
                          else users (db w) ++ [u]) as Hus.
  { rewrite Hus1. case_bool_decide as Hu; [done|].
    by rewrite accepted_user_storable. }
  assert (u ∈ users (db w1)) as Hin.
  { rewrite Hus. case_bool_decide; [done|].
    apply elem_of_app. right. by left. }
  split_and!.
  - done.
  - intros Hnew. by rewrite Hus, bool_decide_false.
  - rewrite Hus. case_bool_decide as Hu; [done|].
    apply NoDup_app. split_and!; [done| |apply NoDup_singleton].
    by intros x Hx ->%list_elem_of_singleton.
  - intros state Hstate. rewrite validate_user_run. cbv zeta.
    rewrite Hstate, Hup1, Hup. unfold after_validate.
    by rewrite !bool_decide_true.
  - destruct (chat_users request' w1) as (_ & Hus2). fold w2 in Hus2.
    rewrite Hsame in Hus2. fold u in Hus2.
    by rewrite Hus2, bool_decide_true.
Qed.

(** ** What becomes of a classifier failure *)

(** The fallback of [detect_profession_from_message]: a reply that is not
    JSON gives no switch and the current label. *)
Lemma undecodable_reply_falls_back m cur w raw :
  next_reply w = Content raw → json_loads raw = None →
  detect_profession_from_message m cur w =
    (Ok (Detection false cur), answered w (Classify m cur)).
Proof.
  intros Hreply Hraw. rewrite detect_profession_from_message_run.
  by rewrite Hreply, Hraw.
Qed.

Lemma next_reply_after_validate w u :
  next_reply (after_validate w u) = next_reply w.
Proof.
  destruct (after_validate_db w u) as (_ & _ & _ & _ & _ & _ & Hpending).
  unfold next_reply. by rewrite Hpending.
Qed.

(** A classifier call that raises ends the request in an error 500, the
    database being reachable. *)
Lemma classifier_exception_propagates request w reason :
  up (db w) = true → next_reply w = Failure reason →
  (chat request w).1 = HttpError 500 reason.
Proof.
  intros Hup Hreply. rewrite chat_run. cbv zeta. rewrite Hup.
  rewrite detect_profession_from_message_run, next_reply_after_validate, Hreply.
  done.
Qed.

(** So does a classifier reply that is JSON but not an object. *)
Lemma classifier_non_object_propagates request w raw v :
  up (db w) = true → next_reply w = Content raw →
  json_loads raw = Some v → (∀ items, v ≠ JDict items) →
  (chat request w).1 =
    HttpError 500 (str_exn (AttributeError (Py.type_name v) "get")).
Proof.
  intros Hup Hreply Hraw Hv. rewrite chat_run. cbv zeta. rewrite Hup.
  rewrite detect_profession_from_message_run, next_reply_after_validate,
    Hreply, Hraw.
  destruct v; try done. by destruct (Hv items).
Qed.

(** ** Instruction profiles are written once *)

Lemma synthesized_prompt_nonempty p raw :
  (if PyStr.falsy (PyStr.strip raw) then fallback_prompt p else PyStr.strip raw)
  ≠ "".
Proof.
  destruct (PyStr.falsy (PyStr.strip raw)) eqn:E.
  - unfold fallback_prompt. by rewrite append_cons.
  - intros Hs. by rewrite Hs in E.
Qed.

Lemma upsert_nonempty u p t rows :
  t ≠ "" →
  Forall (λ r, p_prompt r ≠ "") rows →
  Forall (λ r, p_prompt r ≠ "") (upsert u p t rows).
Proof.
  intros Ht. induction 1 as [|r rows Hr Hrows IH]; simpl.
  - by repeat constructor.
  - case_decide; by constructor.
Qed.

Lemma select_prompt_stored u p rows text :
  select_prompt u p rows = Some text → ∃ r, r ∈ rows ∧ p_prompt r = text.
Proof.
  induction rows as [|r rows IH]; simpl; [done|].
  case_decide.
  - intros [= <-]. exists r. split; [by left|done].
  - intros (r' & Hr' & <-)%IH. exists r'. split; [by right|done].
Qed.

Lemma get_or_create_profession_prompt_nonempty u p w :
  prompts_nonempty (db w) →
  prompts_nonempty (db (get_or_create_profession_prompt u p w).2).
Proof.
  unfold prompts_nonempty. intros Hinv.
  rewrite get_or_create_profession_prompt_run. cbv zeta.
  destruct (up (db w)) eqn:Hup; [|done].
  destruct (truthy_str _); [done|].
  destruct (next_reply w) as [raw|reason]; [|done]. cbn [snd].
  rewrite save_profession_prompt_run. autorewrite with world.
  destruct (accepted_profile _ _ _ _) as [row|] eqn:Hrow; cbn [snd];
    autorewrite with world; [|done].
  cbn [professions set_professions].
  apply accepted_profile_row in Hrow
    as (_ & _ & _ & _ & [-> _]%stored_text_value).
  apply upsert_nonempty; [apply synthesized_prompt_nonempty|done].
Qed.

Lemma chat_prompts_nonempty request w :
  prompts_nonempty (db w) → prompts_nonempty (db (chat request w).2).
Proof.
  intros Hinv. rewrite chat_run. cbv zeta.
  set (u := req_user_id request). set (m := req_message request).
  destruct (up (db w)) eqn:Hup; [|done].
  destruct (after_validate_db w u) as (Hup2 & _ & Hprof2 & _).
  assert (prompts_nonempty (db (after_validate w u))) as Hinv2
    by (unfold prompts_nonempty; by rewrite Hprof2).
  destruct (detect_profession_from_message _ _ _).1 as [det|e]; [|done].
  set (l := PyStr.or_else _ _).
  destruct (after_routing_world (after_validate w u) u m
              (request_label request) l) as (Hdb3 & _).
  pose proof (get_or_create_profession_prompt_nonempty u l
                (after_routing (after_validate w u) u m (request_label request) l))
    as Hinv4.
  pose proof (get_or_create_profession_prompt_frame u l
                (after_routing (after_validate w u) u m (request_label request) l))
    as (Hup4 & Hu4 & _).
  rewrite Hdb3 in Hinv4, Hup4, Hu4. specialize (Hinv4 Hinv2).
  destruct (get_or_create_profession_prompt u l _) as [[prompt|e] w4];
    cbn [snd] in *; [|done].
  destruct (next_reply w4) as [answer|reason]; cbn [snd]; [|done].
  edestruct (exchange_saved u l m answer) as (_ & _ & _ & Hprof5 & _).
  unfold prompts_nonempty. rewrite Hprof5. by autorewrite with world.
Qed.

Lemma delete_user_prompts_nonempty u w :
  prompts_nonempty (db w) → prompts_nonempty (db (delete_user u w).2).
Proof.
  unfold prompts_nonempty, delete_user, endpoint, bind. intros Hinv.
  rewrite delete_user_data_run. destruct (up (db w)); [|done].
  cbn. rewrite Forall_forall in Hinv. apply Forall_forall.
  intros r [_ Hr]%list_elem_of_filter. by apply Hinv.
Qed.

(** Every world the service reaches stores non-empty instruction texts
    only. *)
Lemma reachable_prompts_nonempty w : reachable w → prompts_nonempty (db w).
Proof.
  unfold reachable. revert w.
  apply (rtc_ind_r (λ w, prompts_nonempty (db w)) (fresh_world [])).
  - constructor.
  - intros w1 w2 _ Hstep IH.
    destruct Hstep as [request w1|u w1|u w1|u w1|w1 up' script readings].
    + by apply chat_prompts_nonempty.
    + by apply delete_user_prompts_nonempty.
    + by rewrite (proj1 (query_endpoints_db u w1)).
    + by rewrite (proj2 (query_endpoints_db u w1)).
    + done.
Qed.

(** The calls of an instruction resolution; the synthesis oracle is among
    them only when no usable profile is stored. *)
Lemma get_or_create_profession_prompt_events u p w :
  ∃ evs,
    trace (get_or_create_profession_prompt u p w).2 = trace w ++ evs ∧
    Forall (profile_event u p) evs ∧
    ((∃ r, LLM (Synthesize p) r ∈ evs) →
     truthy_str (select_prompt u p (professions (db w))) = None).
Proof.
  rewrite get_or_create_profession_prompt_run. cbv zeta.
  assert (profile_event u p (GetProfessionPrompt u p)) as Hget by (by left).
  assert (∀ r, profile_event u p (LLM (Synthesize p) r)) as Hsyn
    by (intros r; right; left; by exists r).
  assert (∀ t, profile_event u p (SaveProfessionPrompt u p t)) as Hsave
    by (intros t; right; right; by exists t).
  assert (∀ r, LLM (Synthesize p) r ∉ [GetProfessionPrompt u p]) as Hnot
    by (by intros r [=]%list_elem_of_singleton).
  destruct (up (db w)).
  - destruct (truthy_str _) as [existing|].
    + exists [GetProfessionPrompt u p].
      split_and!; [done|repeat (apply Forall_cons_2; [by auto|]); apply Forall_nil_2|].
      intros [r Hr]. by destruct (Hnot r).
    + destruct (next_reply w) as [raw|reason] eqn:Hreply; cbn [snd].
      * set (prompt := if PyStr.falsy _ then _ else _).
        exists [GetProfessionPrompt u p; LLM (Synthesize p) (Content raw);
                SaveProfessionPrompt u p prompt].
        split_and!;
          [|repeat (apply Forall_cons_2; [by auto|]); apply Forall_nil_2|done].
        rewrite save_profession_prompt_trace. autorewrite with world.
        by rewrite Hreply, <-!app_assoc.
      * exists [GetProfessionPrompt u p; LLM (Synthesize p) (Failure reason)].
        split_and!;
          [|repeat (apply Forall_cons_2; [by auto|]); apply Forall_nil_2|done].
        autorewrite with world. by rewrite Hreply, <-!app_assoc.
  - exists [GetProfessionPrompt u p].
    split_and!; [done|repeat (apply Forall_cons_2; [by auto|]); apply Forall_nil_2|].
    intros [r Hr]. by destruct (Hnot r).
Qed.

(** The context that [execute_chat] sends for generation is the one
    [build_messages] assembles from the history of the state and the
    inbound message. *)
Lemma execute_chat_sends_context state w messages r :
  LLM (Generate messages) r ∈ events_since w (execute_chat state w).2 →
  ∃ prompt state',
    (execute_chat state w).1 = Ok state' ∧
    profession_prompt state' = Some prompt ∧
    messages = build_messages prompt (default [] (conversation_history state))
                 (st_message state).
Proof.
  rewrite execute_chat_run. cbv zeta.
  set (u := user_id state). set (label := executor_label state).
  set (m := st_message state).
  assert (∃ evs, trace (match truthy_str (profession_prompt state) with
                        | Some prompt => ret prompt
                        | None => get_or_create_profession_prompt u label
                        end w).2 = trace w ++ evs ∧
                 Forall (profile_event u label) evs) as (evs & Htrace & Hevs).
  { destruct (truthy_str (profession_prompt state)).
    - exists []. by rewrite app_nil_r.
    - destruct (get_or_create_profession_prompt_events u label w)
        as (evs & ? & ? & _). by exists evs. }
  destruct (match truthy_str (profession_prompt state) with
            | Some prompt => ret prompt
            | None => get_or_create_profession_prompt u label
            end w) as [[prompt|e] w1]; cbn [snd] in *.
  - assert (LLM (Generate messages) r ∉ evs) as Hnot.
    { intros Hin. rewrite Forall_forall in Hevs.
      destruct (Hevs _ Hin) as [?|[[? ?]|[? ?]]]; done. }
    set (sent := build_messages prompt _ m).
    destruct (next_reply w1) as [answer|reason] eqn:Hreply; cbn [snd].
    + erewrite events_since_app.
      2:{ rewrite !save_message_trace, trace_answered, Htrace, <-!app_assoc. done. }
      rewrite !elem_of_app, !list_elem_of_singleton.
      intros [?|[?|[?|?]]]; [done|simplify_eq..]. by eexists prompt, _.
    + erewrite events_since_app.
      2:{ rewrite trace_answered, Htrace, <-!app_assoc. done. }
      rewrite !elem_of_app, !list_elem_of_singleton.
      intros [?|?]; [done|simplify_eq]. by eexists prompt, _.
  - erewrite events_since_app by done. intros Hin.
    rewrite Forall_forall in Hevs.
    destruct (Hevs _ Hin) as [?|[[? ?]|[? ?]]]; done.
Qed.

Lemma after_validate_no_synthesis w u :
  ∃ evs, trace (after_validate w u) = trace w ++ evs ∧
         Forall (λ e, ¬ is_synthesis e) evs.
Proof.
  rewrite trace_after_validate. eexists; split; [done|].
  case_bool_decide; repeat constructor; by intros [].
Qed.

Lemma after_routing_no_synthesis w u m cur label :
  ∃ evs, trace (after_routing w u m cur label) = trace w ++ evs ∧
         Forall (λ e, ¬ is_synthesis e) evs.
Proof.
  unfold after_routing. case_bool_decide; autorewrite with world;
    (eexists; split; [by rewrite <-!app_assoc|]);
    repeat constructor; by intros [].
Qed.

Lemma select_prompt_unusable u p rows :
  Forall (λ r, p_prompt r ≠ "") rows →
  truthy_str (select_prompt u p rows) = None → select_prompt u p rows = None.
Proof.
  intros Hrows. destruct (select_prompt u p rows) as [text|] eqn:E; [|done].
  destruct (select_prompt_stored _ _ _ _ E) as (r & Hr & <-).
  rewrite Forall_forall in Hrows. specialize (Hrows r Hr).
  cbn. by destruct (p_prompt r).
Qed.

(** In a world the service reaches, a request calls the synthesis oracle
    for a label only when the identity has no profile stored for it. *)
Lemma chat_synthesizes_only_without_profile request w p r :
  reachable w →
  LLM (Synthesize p) r ∈ events_since w (chat request w).2 →
  select_prompt (req_user_id request) p (professions (db w)) = None.
Proof.
  intros Hw%reachable_prompts_nonempty. rewrite chat_run. cbv zeta.
  set (u := req_user_id request). set (m := req_message request).
  assert (∀ evs, Forall (λ e, ¬ is_synthesis e) evs →
                 LLM (Synthesize p) r ∉ evs) as Hno.
  { intros evs Hevs Hin. rewrite Forall_forall in Hevs. by apply (Hevs _ Hin). }
  destruct (up (db w)) eqn:Hup.
  2:{ cbn [snd]. erewrite events_since_app by done.
      by intros [=]%list_elem_of_singleton. }
  destruct (after_validate_db w u) as (_ & _ & Hprof2 & _).
  destruct (after_validate_no_synthesis w u) as (evs2 & Ht2 & Hevs2).
  destruct (detect_profession_from_message _ _ _).1 as [det|e].
  2:{ cbn [snd]. erewrite events_since_app
        by (by rewrite trace_answered, Ht2, <-!app_assoc).
      rewrite elem_of_app. intros [Hin|[=]%list_elem_of_singleton].
      by destruct (Hno evs2). }
  set (l := PyStr.or_else _ _).
  destruct (after_routing_world (after_validate w u) u m
              (request_label request) l) as (Hdb3 & _).
  destruct (after_routing_no_synthesis (after_validate w u) u m
              (request_label request) l) as (evs3 & Ht3 & Hevs3).
  destruct (get_or_create_profession_prompt_events u l
              (after_routing (after_validate w u) u m (request_label request) l))
    as (evs4 & Ht4 & Hevs4 & Hsyn).
  rewrite Hdb3, Hprof2 in Hsyn.
  assert (LLM (Synthesize p) r ∈ evs4 →
          select_prompt u p (professions (db w)) = None) as Hfound.
  { intros Hin. rewrite Forall_forall in Hevs4.
    destruct (Hevs4 _ Hin) as [?|[[r' ?]|[? ?]]]; simplify_eq.
    apply select_prompt_unusable; [done|]. apply Hsyn. by exists r'. }
  destruct (get_or_create_profession_prompt u l _) as [[prompt|e] w4];
    cbn [snd] in *.
  2:{ erewrite events_since_app by (by rewrite Ht4, Ht3, Ht2, <-!app_assoc).
      rewrite !elem_of_app. intros [Hin|[Hin|Hin]]; [| |by apply Hfound].
      - by destruct (Hno evs2).
      - by destruct (Hno evs3). }
  destruct (next_reply w4) as [answer|reason]; cbn [snd].
  - erewrite events_since_app
      by (by rewrite !save_message_trace, trace_answered, Ht4, Ht3, Ht2, <-!app_assoc).
    rewrite !elem_of_app, !list_elem_of_singleton.
    intros [Hin|[Hin|[Hin|[Hin|[Hin|Hin]]]]]; [| |by apply Hfound|done..].
    + by destruct (Hno evs2).
    + by destruct (Hno evs3).
  - erewrite events_since_app
      by (by rewrite trace_answered, Ht4, Ht3, Ht2, <-!app_assoc).
    rewrite !elem_of_app, !list_elem_of_singleton.
    intros [Hin|[Hin|[Hin|Hin]]]; [| |by apply Hfound|done].
    + by destruct (Hno evs2).
    + by destruct (Hno evs3).
Qed.

(** C6: whatever the history of the thread, the context [execute_chat]
    sends for generation starts with the instruction text, the one the
    node resolved, goes on with the turns of a window that is the last
    [min 10 (length history)] turns of the history, in their order, the
    older ones being dropped, and ends with the inbound message; the
    window never gives more than 10 messages. *)
Theorem generation_context_is_bounded state w messages r :
  LLM (Generate messages) r ∈ events_since w (execute_chat state w).2 →
  let history := default [] (conversation_history state) in
  ∃ prompt state' dropped window,
    (execute_chat state w).1 = Ok state' ∧
    profession_prompt state' = Some prompt ∧
    history = dropped ++ window ∧
    length window = Nat.min (length history) 10 ∧
    messages =
      SystemMessage prompt :: history_messages window
        ++ [HumanMessage (st_message state)] ∧
    length (history_messages window) ≤ 10 ∧
    head messages = Some (SystemMessage prompt) ∧
    last messages = Some (HumanMessage (st_message state)) ∧
    (Forall pipeline_role history →
     history_messages window = message_of_turn <$> window).
Proof.
  intros (prompt & state' & Hrun & Hprompt & ->)%execute_chat_sends_context history.
  destruct (build_messages_window prompt history (st_message state))
    as (dropped & window & Hhist & Hlen & Hmsgs & Hbound & Hhead & Hlast & Hroles).
  exists prompt, state', dropped, window.
  fold history. by rewrite <-Hmsgs.
Qed.


End chat_facts.

(** ** Requests on concrete runs *)

Section chat_examples.

(** C3, as the spec has it, fails: generation fails on the first message
    of [u1], the apology is returned, and the thread holds no turn
    afterwards, the inbound one included. *)
Lemma inbound_turn_not_stored_when_generation_fails :
  let run := @chat sample_decoder first_request
               (fresh_world script_failing_generation) in
  run.1 =
    Http200 (MkResponse
               "I apologize, but I encountered an error: rate limit exceeded"
               "mentor" "u1") ∧
  conversations (db run.2) = [] ∧
  (db_manager.get_persona_history "u1" "mentor" run.2).1 = Ok [].
Proof. by vm_compute. Qed.

(** A first message that is answered. *)
Lemma generation_outcome_witness :
  let w := fresh_world (script_proposing "mentor") in
  let run := @chat sample_decoder first_request w in
  conversations (db run.2) =
    [ConvRow "u1" "mentor" "user" "act like an investor" 0;
     ConvRow "u1" "mentor" "assistant" "Let us look at the numbers." 1].
Proof.
  intros w run.
  destruct (@generation_outcome sample_decoder first_request w
              [SystemMessage "You are a seasoned investor.";
               HumanMessage "act like an investor"]
              (Content "Let us look at the numbers."))
    as (label & _ & Hresponse & _ & Hstored).
  - vm_compute.
    repeat first [apply list_elem_of_here | apply list_elem_of_further].
  - assert (label = "mentor") as -> by (by vm_compute in Hresponse; injection Hresponse).
    destruct Hstored as [Hrows _].
    + split; [reflexivity|vm_compute; lia].
    + split; [reflexivity|vm_compute; lia].
    + reflexivity.
    + reflexivity.
    + exact Hrows.
Defined.

(** C8, as the spec has it, fails: a first message under a key of 256
    characters is answered, and the identity is not created. *)
Lemma long_key_is_answered_but_not_created :
  let request := MkRequest long_key "act like an investor" default_persona_name in
  let run := @chat sample_decoder request
               (fresh_world (script_proposing "mentor")) in
  run.1 = Http200 (MkResponse "Let us look at the numbers." "mentor" long_key) ∧
  users (db run.2) = [] ∧
  (db_manager.user_exists long_key run.2).1 = Ok false.
Proof. by vm_compute. Qed.

(** A thread of two turns and a stored instruction text. *)
Lemma generation_context_is_bounded_witness :
  let history := [Turn "user" "hi" 0; Turn "assistant" "hello" 1] in
  let messages := [SystemMessage "Be a mentor."; HumanMessage "hi";
                   AIMessage "hello"; HumanMessage "act like an investor"] in
  ∃ prompt dropped window,
    history = dropped ++ window ∧
    length window = 2 ∧
    messages =
      SystemMessage prompt :: history_messages window
        ++ [HumanMessage "act like an investor"].
Proof.
  intros history messages.
  destruct (generation_context_is_bounded
              (set_profession_prompt
                 (routed (initial_state first_request) "mentor" history)
                 "Be a mentor.")
              (fresh_world [Content "Hello."]) messages (Content "Hello."))
    as (prompt & _ & dropped & window & _ & _ & Hhistory & Hlength & Hmessages & _).
  - vm_compute. left.
  - by exists prompt, dropped, window.
Defined.

(** A first message that the classifier routes to [investor ]. *)
Lemma one_label_throughout_witness :
  let w := fresh_world (script_proposing "investor ") in
  let w' := (@chat sample_decoder first_request w).2 in
  ∃ s3 w3 s4,
    @handle_persona sample_decoder (resolved_state first_request w)
      (after_validate w "u1") = (Ok s3, w3) ∧
    execute_chat s3 w3 = (Ok s4, w') ∧
    profession_name s3 = Some "investor" ∧
    current_persona s4 = Some "investor".
Proof.
  intros w w'.
  destruct (@one_label_throughout sample_decoder first_request w
              (MkResponse "Let us look at the numbers." "investor" "u1") w')
    as (s3 & w3 & s4 & evs & Hrouter & Hexec & _ & _ & _ & Hname & _ & _ & Hcur & _).
  - by vm_compute.
  - by exists s3, w3, s4.
Defined.

(** Two messages of [u1] to a server just started. *)
Lemma identity_created_once_witness :
  let w := fresh_world (script_proposing "mentor" ++ script_proposing "mentor") in
  let w1 := (@chat sample_decoder first_request w).2 in
  let w2 := (@chat sample_decoder first_request w1).2 in
  "u1" ∈ users (db w1) ∧ users (db w1) = ["u1"] ∧ users (db w2) = users (db w1).
Proof.
  intros w w1 w2.
  destruct (@identity_created_once sample_decoder first_request first_request w)
    as (Hin & Hnew & _ & _ & Hsame).
  - reflexivity.
  - apply NoDup_nil_2.
  - split; [reflexivity|vm_compute; lia].
  - reflexivity.
  - split; [exact Hin|]. split; [|exact Hsame].
    apply Hnew, not_elem_of_nil.
Defined.


End chat_examples.

(** * More of the storage layer *)

Section storage_coverage.
Context `{Collation} `{ISOFormat}.
Import db_manager.

(** X1: [create_user] never raises.  It answers [True] exactly when the
    database is reachable, the key is accepted (no NUL character, and at
    most 255 characters, spaces beyond them being cut off) and the key,
    as the column stores it, is new; the stored key is then added at the
    end of the table.  For a key that fits the column this is the key
    itself; a key with a NUL character, or with something else than
    spaces beyond 255 characters, is never created.  When the answer is
    [False] the database is left as it is.  Either way the other tables
    are untouched and a table without duplicate keys stays so. *)
Theorem create_user_adds_a_new_key_only u w :
  ∃ created w',
    create_user u w = (Ok created, w') ∧
    (created = true ↔
     up (db w) = true ∧ ∃ k, stored_as 255 u = Some k ∧ k ∉ users (db w)) ∧
    (created = true →
     ∃ k, stored_as 255 u = Some k ∧ users (db w') = users (db w) ++ [k]) ∧
    (storable 255 u →
     (created = true ↔ up (db w) = true ∧ u ∉ users (db w)) ∧
     users (db w') = if created then users (db w) ++ [u] else users (db w)) ∧
    (has_nul u = true ∨
     (255 < String.length u ∧ only_spaces (drop_chars 255 u) = false) →
     created = false) ∧
    (created = false → db w' = db w) ∧
    conversations (db w') = conversations (db w) ∧
    professions (db w') = professions (db w) ∧
    (NoDup (users (db w)) → NoDup (users (db w'))).
Proof.
  rewrite create_user_run.
  destruct (accepted_user u (db w)) as [k|] eqn:Hk.
  - pose proof Hk as (Hup & Hnew & Hstored)%accepted_user_key.
    eexists true, _. split; [done|]. autorewrite with world.
    cbn [users conversations professions set_users].
    split_and!; try done.
    + split; [|done]. intros _. split; [done|]. by exists k.
    + intros _. by exists k.
    + intros Hsu. rewrite stored_as_storable in Hstored by done.
      injection Hstored as <-. by split.
    + intros [Hnul|[Hlong Hrest]].
      * by rewrite stored_as_nul in Hstored.
      * unfold stored_as in Hstored. destruct (has_nul u); [done|].
        rewrite (proj2 (Nat.leb_gt _ _)), Hrest in Hstored by lia. done.
    + intros Hnd. apply NoDup_app. split_and!; [done| |apply NoDup_singleton].
      by intros x Hx ->%list_elem_of_singleton.
  - eexists false, _. split; [done|]. autorewrite with world.
    split_and!; try done.
    + split; [done|]. intros [Hup (k & Hstored & Hnew)].
      unfold accepted_user in Hk. rewrite Hup, Hstored in Hk.
      by rewrite decide_False in Hk.
    + intros Hsu. split; [|done]. split; [done|]. intros [Hup Hnew].
      by rewrite accepted_user_storable in Hk.
Qed.

(** X2: a write for an identity that, as the column stores it, is not in
    [users], or with the database unreachable, is refused without an
    exception: [save_message] and [save_profession_prompt] answer
    [False] and store nothing.  (For a key that fits the column, what
    the column stores is the key.) *)
Theorem writes_refused_without_identity u p r m text w :
  up (db w) = false ∨ (∀ k, stored_as 255 u = Some k → k ∉ users (db w)) →
  save_message u p r m w = (Ok false, log w (SaveMessage u p r m)) ∧
  save_profession_prompt u p text w =
    (Ok false, log w (SaveProfessionPrompt u p text)).
Proof.
  intros Hno. rewrite save_message_run, save_profession_prompt_run.
  assert (accepted_turn u p r m (db w) = None) as ->.
  { destruct (accepted_turn u p r m (db w)) as [row|] eqn:Hrow; [|done].
    apply accepted_turn_row in Hrow as (Hup & Hin & _ & Hk & _).
    destruct Hno as [Hdown|Hnew]; [congruence|]. by destruct (Hnew _ Hk). }
  assert (accepted_profile u p text (db w) = None) as ->; [|done].
  destruct (accepted_profile u p text (db w)) as [row|] eqn:Hrow; [|done].
  apply accepted_profile_row in Hrow as (Hup & Hin & Hk & _).
  destruct Hno as [Hdown|Hnew]; [congruence|]. by destruct (Hnew _ Hk).
Qed.

(** A turn for [ghost], whom the server has never seen. *)
Lemma writes_refused_without_identity_witness :
  (save_message "ghost" "mentor" "user" "hello" (fresh_world [])).1 = Ok false ∧
  conversations
    (db (save_message "ghost" "mentor" "user" "hello" (fresh_world [])).2) = [].
Proof.
  destruct (writes_refused_without_identity "ghost" "mentor" "user" "hello" ""
              (fresh_world [])) as [Hsave _].
  - right. intros k _. apply not_elem_of_nil.
  - by rewrite Hsave.
Defined.

(** A key that is not in [users] can still write, into the thread of
    another identity: a key of 255 characters followed by a space is
    stored without the space. *)
Example padded_key_writes_for_the_stored_one :
  let w := MkWorld (MkDB true [full_key] [] [] (ticking 0)) [] [] in
  bool_decide (padded_key ∈ users (db w)) = false ∧
  (save_message padded_key "mentor" "user" "hello" w).1 = Ok true ∧
  conversations (db (save_message padded_key "mentor" "user" "hello" w).2) =
    [ConvRow full_key "mentor" "user" "hello" 0].
Proof. by vm_compute. Qed.

Lemma select_thread_other_row u p d r :
  ¬ of_thread u p r →
  select_thread u p (append_turn d r) = select_thread u p d.
Proof.
  intros Hr. unfold select_thread. cbn [conversations append_turn].
  by rewrite filter_app, filter_cons_False, filter_nil, app_nil_r.
Qed.

(** X3: a turn saved is a turn read back.  With the database reachable,
    the identity known, identity, label and role fitting their columns
    (at most 255, 255 and 50 characters), no NUL character in the four
    parameters, the table in the order of its timestamps and the reading
    of the clock later than the timestamps stored, [save_message]
    answers [True], and [get_persona_history] of the same thread then
    returns the history it had, followed by the new turn with the
    reading of the clock; the history of any other thread is what it
    was, and the table is still in the order of its timestamps. *)
Theorem saved_turn_is_read_back u p r m w :
  up (db w) = true → u ∈ users (db w) →
  storable 255 u → storable 255 p → storable 50 r → has_nul m = false →
  chronological (db w) →
  Forall (λ x, c_timestamp x < clock (db w) 0) (conversations (db w)) →
  ∃ w',
    save_message u p r m w = (Ok true, w') ∧
    (get_persona_history u p w').1 =
      Ok (select_thread u p (db w) ++ [Turn r m (clock (db w) 0)]) ∧
    (∀ u' p', (u', p') ≠ (u, p) →
       select_thread u' p' (db w') = select_thread u' p' (db w)) ∧
    chronological (db w').
Proof.
  intros Hup Hu Hsu Hsp Hsr Hm Hchrono Hpast.
  rewrite save_message_run, accepted_turn_storable by done.
  eexists. split; [done|]. rewrite get_persona_history_run.
  autorewrite with world. cbn [up fst append_turn]. rewrite Hup.
  pose proof (append_chronological (db w) (ConvRow u p r m (clock (db w) 0))
                Hchrono Hpast) as Hchrono'.
  split_and!.
  - f_equal.
    rewrite (select_thread_grown u p (db w) _ [ConvRow u p r m (clock (db w) 0)])
      by done.
    by rewrite filter_cons_True, filter_nil by (by split).
  - intros u' p' Hother.
    apply (select_thread_other_row u' p' (db w)).
    intros [??]; simplify_eq/=.
  - done.
Qed.

(** A first turn of [u1] in the thread [mentor]. *)
Lemma saved_turn_is_read_back_witness :
  let w := MkWorld db_with_profile [] [] in
  ∃ w',
    save_message "u1" "mentor" "user" "hello" w = (Ok true, w') ∧
    (get_persona_history "u1" "mentor" w').1 = Ok [Turn "user" "hello" 0].
Proof.
  intros w.
  destruct (saved_turn_is_read_back "u1" "mentor" "user" "hello" w)
    as (w' & Hsave & Hread & _).
  - reflexivity.
  - by vm_compute; left.
  - split; [reflexivity|vm_compute; lia].
  - split; [reflexivity|vm_compute; lia].
  - split; [reflexivity|vm_compute; lia].
  - reflexivity.
  - constructor.
  - constructor.
  - by exists w'.
Defined.







(** [ON DELETE CASCADE], thread by thread and profile by profile. *)
Lemma filter_thread_deleted u p (rows : list conv_row) :
  filter (of_thread u p) (filter (λ r, c_user r ≠ u) rows) = [].
Proof.
  induction rows as [|r rows IH]; [done|].
  rewrite (filter_cons (λ r, c_user r ≠ u)). case_decide as Hr; [|done].
  rewrite filter_cons_False; [done|]. by intros [? _].
Qed.


Lemma select_prompt_deleted u p (rows : list prof_row) :
  select_prompt u p (filter (λ r, p_user r ≠ u) rows) = None.
Proof.
  induction rows as [|r rows IH]; [done|].
  rewrite filter_cons. case_decide as Hr; [|done]. cbn [select_prompt].
  rewrite decide_False; [done|]. by intros [? _].
Qed.


(** ** The history of all threads at once *)










End storage_coverage.

Section storage_examples.
#[local] Existing Instance codepoint_collation.
#[local] Existing Instance sample_isoformat.
Import db_manager.



End storage_examples.

(** * More of the endpoints *)

Section endpoint_coverage.
Context `{Collation} `{ISOFormat}.



End endpoint_coverage.

Section endpoint_examples.
#[local] Existing Instance codepoint_collation.
#[local] Existing Instance sample_isoformat.


End endpoint_examples.

(** * More of the pipeline *)

Section pipeline_coverage.
Context `{JSONDecoder} `{Collation} `{ISOFormat}.
Import db_manager.

(** X7: [initialize_chat] calls neither the database nor the model.  It
    leaves a persona label that is not empty: the one of the state when
    there is one and it is not empty, [general_expert] otherwise; a
    history that is there is kept, one that is missing becomes the empty
    list; the next action is [validate_user]. *)
Theorem initialize_chat_fills_defaults state w :
  ∃ state',
    initialize_chat state w = (Ok state', w) ∧
    current_persona state' =
      Some (get_or (current_persona state) "general_expert") ∧
    get_or (current_persona state) "general_expert" ≠ "" ∧
    (match current_persona state with
     | Some label => label ≠ "" → current_persona state' = Some label
     | None => True
     end) ∧
    conversation_history state' =
      Some (default [] (conversation_history state)) ∧
    action state' = Some "validate_user" ∧
    user_id state' = user_id state ∧
    st_message state' = st_message state.
Proof.
  rewrite initialize_chat_run. eexists. split; [done|].
  destruct (initialized_fields state) as (Hu & Hm & _).
  split_and!; try done.
  - unfold initialized, truthy_str, get_or, PyStr.or_else.
    destruct (current_persona state) as [[|c s]|] eqn:E; cbn;
      destruct (conversation_history state); cbn; by rewrite ?E.
  - by apply get_or_nonempty.
  - unfold initialized, truthy_str.
    destruct (current_persona state) as [[|c s]|] eqn:E; [done| |done].
    intros _. cbn. destruct (conversation_history state); cbn; by rewrite ?E.
  - unfold initialized.
    destruct (truthy_str (current_persona state)); cbn;
      destruct (conversation_history state) eqn:E; cbn; by rewrite ?E.
Qed.

(** X8: when the database cannot be reached, a request ends in an error
    500 at the identity lookup: no model call is made and no reply is
    consumed, nothing is written, and the lookup is the only call
    recorded. *)
Theorem storage_down_aborts_the_request request w :
  up (db w) = false →
  chat request w =
    (HttpError 500 (str_exn OperationalError),
     log w (UserExists (req_user_id request))).
Proof. intros Hup. by rewrite chat_run, Hup. Qed.








(** A request that fails leaves the turns and the profiles as they
    were. *)
Lemma chat_fails_rows request w status detail w' :
  chat request w = (HttpError status detail, w') →
  conversations (db w') = conversations (db w) ∧
  professions (db w') = professions (db w).
Proof.
  rewrite chat_run. cbv zeta.
  set (u := req_user_id request). set (m := req_message request).
  destruct (up (db w)) eqn:Hup; [|by intros [= _ _ <-]].
  destruct (after_validate_db w u) as (_ & Hconv2 & Hprof2 & _).
  destruct (detect_profession_from_message _ _ _).1 as [det|e] eqn:Hdet;
    [|by intros [= _ _ <-]].
  set (l := PyStr.or_else _ _).
  destruct (after_routing_world (after_validate w u) u m
              (request_label request) l) as (Hdb3 & _).
  pose proof (get_or_create_profession_prompt_frame u l
                (after_routing (after_validate w u) u m (request_label request) l))
    as (_ & _ & Hconv4 & _).
  pose proof (get_or_create_profession_prompt_run u l
                (after_routing (after_validate w u) u m (request_label request) l))
    as Hrun.
  cbv zeta in Hrun.
  destruct (get_or_create_profession_prompt u l _) as [[prompt|e] w4] eqn:Hres.
  - by destruct (next_reply w4).
  - intros [= _ _ <-]. cbn [snd] in Hconv4. rewrite Hconv4, Hdb3.
    split; [done|]. rewrite <-Hprof2, <-Hdb3.
    destruct (up (db (after_routing _ _ _ _ _))).
    + destruct (truthy_str _); [done|].
      destruct (next_reply _); [done|].
      injection Hrun as _ ->. by autorewrite with world.
    + injection Hrun as _ ->. by autorewrite with world.
Qed.


(** X11: [handle_persona] reads and never writes: whatever it returns,
    the database is what it was, a thread that does not exist yet
    included; it consumes one reply of the model, the classifier's, and
    calls the database at most twice after it. *)
Theorem handle_persona_never_writes state w :
  let w' := (handle_persona state w).2 in
  let cur := get_or (current_persona state) "general_expert" in
  db w' = db w ∧
  pending w' = tail (pending w) ∧
  ∃ calls,
    trace w' =
      trace w ++ LLM (Classify (st_message state) cur) (next_reply w) :: calls ∧
    length calls ≤ 2 ∧
    Forall (λ e, ∃ p, e = PersonaExistsForUser (user_id state) p ∨
                      e = GetPersonaHistory (user_id state) p) calls.
Proof.
  cbv zeta. rewrite handle_persona_run. cbv zeta.
  destruct (detect_profession_from_message _ _ _).1 as [det|e].
  - set (l := PyStr.or_else _ _).
    destruct (up (db w)); cbn [snd].
    + unfold after_routing. case_bool_decide; autorewrite with world.
      * split_and!; [done..|]. eexists [_; _].
        split; [by rewrite <-!app_assoc|]. split; [cbn; lia|].
        repeat constructor; exists l; auto.
      * split_and!; [done..|]. eexists [_].
        split; [by rewrite <-!app_assoc|]. split; [cbn; lia|].
        repeat constructor; exists l; auto.
    + autorewrite with world. split_and!; [done..|]. eexists [_].
      split; [by rewrite <-!app_assoc|]. split; [cbn; lia|].
      repeat constructor; exists l; auto.
  - cbn [snd]. autorewrite with world. split_and!; [done..|]. exists [].
    split; [done|]. split; [cbn; lia|constructor].
Qed.


(** ** Texts that the driver accepts *)

Lemma has_nul_append a b : has_nul (a +:+ b) = has_nul a || has_nul b.
Proof.
  induction a as [|c a IH]; [done|].
  rewrite append_cons. cbn [has_nul]. by rewrite IH, orb_assoc.
Qed.

Lemma has_nul_lstrip s : has_nul s = false → has_nul (PyStr.lstrip s) = false.
Proof.
  induction s as [|c s IH]; [done|]. cbn [PyStr.lstrip].
  destruct (PyStr.isspace c); [|done].
  cbn [has_nul]. intros [_ Hs]%orb_false_elim. by apply IH.
Qed.

Lemma has_nul_rstrip s : has_nul s = false → has_nul (PyStr.rstrip s) = false.
Proof.
  induction s as [|c s IH]; [done|]. cbn [has_nul PyStr.rstrip].
  intros [Hc Hs]%orb_false_elim.
  destruct (PyStr.isspace c && PyStr.falsy (PyStr.rstrip s)); [done|].
  cbn [has_nul]. by rewrite Hc, IH.
Qed.

Lemma has_nul_strip s : has_nul s = false → has_nul (PyStr.strip s) = false.
Proof. intros Hs. by apply has_nul_lstrip, has_nul_rstrip. Qed.

(** The instruction text that the synthesis gives holds no NUL
    character when the reply of the model and the label hold none. *)
Lemma synthesized_prompt_clean p raw :
  has_nul p = false → has_nul raw = false →
  has_nul (if PyStr.falsy (PyStr.strip raw) then fallback_prompt p
           else PyStr.strip raw) = false.
Proof.
  intros Hp Hraw. destruct (PyStr.falsy (PyStr.strip raw)).
  - unfold fallback_prompt. by rewrite !has_nul_append, Hp.
  - by apply has_nul_strip.
Qed.

Lemma stored_as_short n s k :
  String.length s ≤ n → stored_as n s = Some k → k = s.
Proof.
  intros Hn. unfold stored_as. destruct (has_nul s); [done|].
  apply Nat.leb_le in Hn as ->. by intros [= <-].
Qed.

(** What the instruction resolution leaves of the table of profiles:
    nothing changes when a usable text is stored; otherwise the text it
    returns is written for the pair, when the database accepts it. *)
Lemma get_or_create_profession_prompt_profiles u p w prompt w1 :
  get_or_create_profession_prompt u p w = (Ok prompt, w1) →
  prompt ≠ "" ∧
  ((professions (db w1) = professions (db w) ∧
    select_prompt u p (professions (db w)) = Some prompt) ∨
   (∃ raw, next_reply w = Content raw ∧
           prompt = (if PyStr.falsy (PyStr.strip raw) then fallback_prompt p
                     else PyStr.strip raw)) ∧
   professions (db w1) =
     match accepted_profile u p prompt (db w) with
     | Some row =>
         upsert (p_user row) (p_profession row) (p_prompt row)
           (professions (db w))
     | None => professions (db w)
     end).
Proof.
  rewrite get_or_create_profession_prompt_run. cbv zeta. intros Hrun.
  destruct (up (db w)) eqn:Hup; [|done].
  assert (∀ raw,
            next_reply w = Content raw →
            (Ok (if PyStr.falsy (PyStr.strip raw) then fallback_prompt p
                 else PyStr.strip raw),
             (save_profession_prompt u p
                (if PyStr.falsy (PyStr.strip raw) then fallback_prompt p
                 else PyStr.strip raw)
                (answered (log w (GetProfessionPrompt u p)) (Synthesize p))).2)
            = (Ok prompt, w1) →
            prompt ≠ "" ∧
            ((professions (db w1) = professions (db w) ∧
              select_prompt u p (professions (db w)) = Some prompt) ∨
             (∃ raw, next_reply w = Content raw ∧
                     prompt = (if PyStr.falsy (PyStr.strip raw)
                               then fallback_prompt p else PyStr.strip raw)) ∧
             professions (db w1) =
               match accepted_profile u p prompt (db w) with
               | Some row =>
                   upsert (p_user row) (p_profession row) (p_prompt row)
                     (professions (db w))
               | None => professions (db w)
               end)) as Hsynthesis.
  { intros raw Hreply [= <- <-]. split; [apply synthesized_prompt_nonempty|].
    right. split; [by exists raw|].
    rewrite save_profession_prompt_run. autorewrite with world.
    by destruct (accepted_profile _ _ _ _). }
  destruct (select_prompt u p (professions (db w))) as [stored|] eqn:Hsel.
  - cbn [truthy_str] in Hrun. destruct (PyStr.falsy stored) eqn:Hfalsy.
    + destruct (next_reply w) as [raw|reason] eqn:Hreply; [|done].
      by apply (Hsynthesis raw).
    + injection Hrun as <- <-. autorewrite with world.
      split; [by destruct stored|]. by left.
  - cbn [truthy_str] in Hrun.
    destruct (next_reply w) as [raw|reason] eqn:Hreply; [|done].
    by apply (Hsynthesis raw).
Qed.

(** The replies left to the model after an instruction resolution are
    replies it had before. *)
Lemma get_or_create_profession_prompt_pending u p w :
  ∃ k, pending (get_or_create_profession_prompt u p w).2 = drop k (pending w).
Proof.
  rewrite get_or_create_profession_prompt_run. cbv zeta.
  destruct (up (db w)); [|by exists 0].
  destruct (truthy_str _); [by exists 0|].
  destruct (next_reply w); cbn [snd].
  - rewrite save_profession_prompt_run.
    destruct (accepted_profile _ _ _ _); cbn [snd]; exists 1;
      autorewrite with world; by destruct (pending w).
  - exists 1. autorewrite with world. by destruct (pending w).
Qed.

Lemma next_reply_pending w text :
  next_reply w = Content text → Content text ∈ pending w.
Proof.
  unfold next_reply. destruct (pending w) as [|r rest]; [done|].
  intros ->. by left.
Qed.

(** X13: an instruction profile is written once and read afterwards.
    With the database reachable, the identity known, identity and label
    fitting their columns (at most 255 characters, no NUL character), no
    profile stored for the pair and a reply of the model without NUL
    character, [get_or_create_profession_prompt] makes three calls: the
    lookup, one synthesis, one store.  The text it returns is the reply
    of the model without the whitespace around it, or the fixed text that
    names the profession when nothing is left of the reply; it is never
    empty.  It is stored for this pair, the profiles of the other pairs
    are untouched, and resolving the pair again returns the same text
    from the lookup alone. *)
Theorem profile_is_written_once u p raw w :
  up (db w) = true →
  u ∈ users (db w) →
  storable 255 u → storable 255 p →
  select_prompt u p (professions (db w)) = None →
  next_reply w = Content raw →
  has_nul raw = false →
  let prompt :=
    if decide (PyStr.strip raw = "") then fallback_prompt p else PyStr.strip raw in
  ∃ w1,
    get_or_create_profession_prompt u p w = (Ok prompt, w1) ∧
    prompt ≠ "" ∧
    events_since w w1 =
      [GetProfessionPrompt u p; LLM (Synthesize p) (Content raw);
       SaveProfessionPrompt u p prompt] ∧
    select_prompt u p (professions (db w1)) = Some prompt ∧
    (∀ u' p', (u', p') ≠ (u, p) →
       select_prompt u' p' (professions (db w1)) =
         select_prompt u' p' (professions (db w))) ∧
    get_or_create_profession_prompt u p w1 =
      (Ok prompt, log w1 (GetProfessionPrompt u p)).
Proof.
  intros Hup Hu Hsu Hsp Hnone Hreply Hraw prompt.
  assert (prompt = if PyStr.falsy (PyStr.strip raw) then fallback_prompt p
                   else PyStr.strip raw) as Hprompt.
  { unfold prompt. case_decide as Hs.
    - by rewrite Hs.
    - destruct (PyStr.falsy (PyStr.strip raw)) eqn:E; [|done].
      by apply falsy_spec in E. }
  assert (prompt ≠ "") as Hne
    by (rewrite Hprompt; apply synthesized_prompt_nonempty).
  assert (has_nul prompt = false) as Hclean
    by (rewrite Hprompt; apply synthesized_prompt_clean; [apply Hsp|done]).
  eexists. rewrite get_or_create_profession_prompt_run. cbv zeta.
  rewrite Hup, Hnone, Hreply. cbn [truthy_str]. rewrite <-Hprompt.
  rewrite save_profession_prompt_run. autorewrite with world.
  rewrite accepted_profile_storable by done. cbn [snd].
  split; [done|]. split; [done|]. autorewrite with world.
  cbn [professions set_professions p_user p_profession p_prompt]. split_and!.
  - apply events_since_app. autorewrite with world.
    by rewrite Hreply, <-!app_assoc.
  - apply select_prompt_upsert.
  - intros u' p' Hother. by apply select_prompt_upsert_other.
  - rewrite get_or_create_profession_prompt_run. cbv zeta.
    autorewrite with world. cbn [up set_professions professions].
    rewrite Hup, select_prompt_upsert. cbn [truthy_str].
    by destruct prompt.
Qed.

(** ** A request that is answered *)

Lemma accepted_turn_ext u p r m d d' :
  up d' = up d → users d' = users d → clock d' 0 = clock d 0 →
  accepted_turn u p r m d' = accepted_turn u p r m d.
Proof. unfold accepted_turn. by intros -> -> ->. Qed.

Lemma exchange_rows_ext d d' u label m answer :
  up d' = up d → users d' = users d → clock d' = clock d →
  exchange_rows d' u label m answer = exchange_rows d u label m answer.
Proof.
  intros Hup Hus Hclock. unfold exchange_rows.
  rewrite (accepted_turn_ext u label "user" m d d') by (by rewrite ?Hclock).
  destruct (accepted_turn u label "user" m d) as [row|].
  - f_equal. f_equal. apply accepted_turn_ext; cbn; by rewrite ?Hclock.
  - f_equal. apply accepted_turn_ext; by rewrite ?Hclock.
Qed.

Lemma pending_after_routing w u m cur label :
  pending (after_routing w u m cur label) = tail (pending w).
Proof. unfold after_routing. by case_bool_decide. Qed.

Lemma elem_of_tail {A} (x : A) l : x ∈ tail l → x ∈ l.
Proof. destruct l; [done|]. by right. Qed.

Lemma elem_of_drop_1 {A} (x : A) k l : x ∈ drop k l → x ∈ l.
Proof.
  revert l. induction k as [|k IH]; intros [|y l]; cbn; try done.
  intros Hx. right. by apply IH.
Qed.

(** The world a request that is answered leaves. *)
Lemma chat_answered_world request w resp w' :
  chat request w = (Http200 resp, w') →
  let u := req_user_id request in
  let m := req_message request in
  let label := resp_persona_name resp in
  let d2 := db (after_validate w u) in
  resp_user_id resp = u ∧ label ≠ "" ∧ up (db w) = true ∧ up (db w') = true ∧
  users (db w') = users d2 ∧
  ∃ prompt r,
    LLM (Generate (build_messages prompt (select_thread u label (db w)) m)) r
      ∈ events_since w w' ∧
    prompt ≠ "" ∧
    ((professions (db w') = professions (db w) ∧
      select_prompt u label (professions (db w)) = Some prompt) ∨
     ((∃ raw, Content raw ∈ pending w ∧
              prompt = (if PyStr.falsy (PyStr.strip raw)
                        then fallback_prompt label else PyStr.strip raw)) ∧
      professions (db w') =
        match accepted_profile u label prompt d2 with
        | Some row =>
            upsert (p_user row) (p_profession row) (p_prompt row)
              (professions (db w))
        | None => professions (db w)
        end)) ∧
    match r with
    | Content answer =>
        Content answer ∈ pending w ∧
        resp_response resp = answer ∧
        conversations (db w') =
          conversations (db w) ++ exchange_rows d2 u label m answer
    | Failure reason =>
        resp_response resp = apology (LLMError reason) ∧
        conversations (db w') = conversations (db w)
    end.
Proof.
  intros Hchat u m label d2. rewrite chat_run in Hchat. cbv zeta in Hchat.
  fold u m in Hchat.
  destruct (up (db w)) eqn:Hup; [|done].
  destruct (detect_profession_from_message _ _ _).1 as [det|e]; [|done].
  set (l := PyStr.or_else (det_profession_name det) (request_label request)) in *.
  assert (l ≠ "") as Hl by apply or_else_nonempty, request_label_nonempty.
  destruct (after_validate_db w u)
    as (Hup2 & Hconv2 & Hprof2 & Hclock2 & _ & _ & Hpending2).
  fold d2 in Hup2, Hconv2, Hprof2, Hclock2.
  destruct (after_validate_trace w u) as (evs2 & Ht2 & _).
  destruct (after_routing_world (after_validate w u) u m
              (request_label request) l) as (Hdb3 & evs3 & Ht3 & _).
  pose proof (pending_after_routing (after_validate w u) u m
                (request_label request) l) as Hpending3.
  rewrite Hpending2 in Hpending3.
  pose proof (get_or_create_profession_prompt_frame u l
                (after_routing (after_validate w u) u m (request_label request) l))
    as (Hup4 & Hu4 & Hconv4 & Hclock4 & evs4 & Ht4 & _).
  destruct (get_or_create_profession_prompt_pending u l
              (after_routing (after_validate w u) u m (request_label request) l))
    as (k & Hpending4).
  pose proof (get_or_create_profession_prompt_profiles u l
                (after_routing (after_validate w u) u m (request_label request) l))
    as Hprofiles.
  destruct (get_or_create_profession_prompt u l _) as [[prompt|e] w4]; [|done].
  specialize (Hprofiles prompt w4 eq_refl).
  cbn [snd] in *. rewrite Hdb3 in *. fold d2 in Hup4, Hu4, Hconv4, Hclock4.
  destruct Hprofiles as (Hne & Hprofs).
  assert ((professions (db w4) = professions (db w) ∧
           select_prompt u l (professions (db w)) = Some prompt) ∨
          ((∃ raw, Content raw ∈ pending w ∧
                   prompt = (if PyStr.falsy (PyStr.strip raw)
                             then fallback_prompt l else PyStr.strip raw)) ∧
           professions (db w4) =
             match accepted_profile u l prompt d2 with
             | Some row =>
                 upsert (p_user row) (p_profession row) (p_prompt row)
                   (professions (db w))
             | None => professions (db w)
             end)) as Hprofs'.
  { fold d2 in Hprofs. rewrite Hprof2 in Hprofs.
    destruct Hprofs as [?|[(raw & Hraw & Hprompt) ?]]; [by left|right].
    split; [|done]. exists raw. split; [|done].
    apply next_reply_pending in Hraw. rewrite Hpending3 in Hraw.
    by apply elem_of_tail. }
  clear Hprofs.
  assert (∀ answer, next_reply w4 = Content answer → Content answer ∈ pending w)
    as Hanswer.
  { intros answer Hreply%next_reply_pending.
    rewrite Hpending4, Hpending3 in Hreply.
    by apply elem_of_drop_1, elem_of_tail in Hreply. }
  destruct (next_reply w4) as [answer|reason] eqn:Hreply;
    injection Hchat as <- <-; subst label;
    cbn [resp_response resp_persona_name resp_user_id].
  - destruct (exchange_saved u l m answer (answered w4
                (Generate (build_messages prompt (select_thread u l (db w)) m))))
      as (Hconv & Htrace & Hus5 & Hprof5 & Hup5 & _).
    cbv zeta in Hconv, Htrace, Hus5, Hprof5, Hup5.
    autorewrite with world in Hconv, Htrace, Hus5, Hprof5, Hup5.
    split_and!; [done|done|done|congruence|congruence|].
    exists prompt, (Content answer). split_and!.
    + erewrite events_since_app.
      2:{ rewrite Htrace, Ht4, Ht3, Ht2. rewrite <-!app_assoc. done. }
      rewrite !elem_of_app. right. right. right. left. rewrite Hreply. by left.
    + done.
    + by rewrite Hprof5.
    + by apply Hanswer.
    + done.
    + rewrite Hconv, Hconv4, Hconv2. f_equal. by apply exchange_rows_ext.
  - autorewrite with world.
    split_and!; [done|done|done|congruence|congruence|].
    exists prompt, (Failure reason). split_and!.
    + erewrite events_since_app.
      2:{ autorewrite with world. rewrite Ht4, Ht3, Ht2. rewrite <-!app_assoc. done. }
      rewrite !elem_of_app. right. right. right. rewrite Hreply. by left.
    + done.
    + done.
    + done.
    + congruence.
Qed.

(** The calls of a request that is answered, for an identity that is new
    and for a pair that has no profile. *)
Lemma chat_answered_events request w resp w' :
  chat request w = (Http200 resp, w') →
  let u := req_user_id request in
  let label := resp_persona_name resp in
  (u ∉ users (db w) → CreateUser u ∈ events_since w w') ∧
  (select_prompt u label (professions (db w)) = None →
   ∃ raw, LLM (Synthesize label) (Content raw) ∈ events_since w w').
Proof.
  intros Hchat u label. rewrite chat_run in Hchat. cbv zeta in Hchat.
  fold u in Hchat. set (m := req_message request) in *.
  set (cur := request_label request) in *.
  destruct (up (db w)) eqn:Hup; [|done].
  destruct (detect_profession_from_message _ _ _).1 as [det|e]; [|done].
  set (l := PyStr.or_else (det_profession_name det) cur) in *.
  destruct (after_validate_db w u) as (Hup2 & _ & Hprof2 & _).
  pose proof (trace_after_validate w u) as Ht2.
  destruct (after_routing_world (after_validate w u) u m cur l)
    as (Hdb3 & evs3 & Ht3 & _).
  pose proof (get_or_create_profession_prompt_frame u l
                (after_routing (after_validate w u) u m cur l))
    as (_ & _ & _ & _ & evs4 & Ht4 & _).
  pose proof (get_or_create_profession_prompt_run u l
                (after_routing (after_validate w u) u m cur l)) as Hrun.
  cbv zeta in Hrun. rewrite Hdb3, Hup2, Hup, Hprof2 in Hrun.
  destruct (get_or_create_profession_prompt u l _) as [[prompt|e] w4]; [|done].
  cbn [snd] in Ht4.
  assert (∃ evs5, resp_persona_name resp = l ∧ trace w' = trace w4 ++ evs5)
    as (evs5 & Hl & Ht5).
  { destruct (next_reply w4) as [answer|reason]; injection Hchat as <- <-.
    - eexists. split; [done|].
      by rewrite !save_message_trace, trace_answered, <-!app_assoc.
    - eexists. split; [done|]. by rewrite trace_answered. }
  subst label. rewrite Hl. split.
  - intros Hnew. rewrite bool_decide_false in Ht2 by done.
    erewrite events_since_app
      by (by rewrite Ht5, Ht4, Ht3, Ht2, <-!app_assoc).
    cbn. right. by left.
  - intros Hnone. rewrite Hnone in Hrun. cbn [truthy_str] in Hrun.
    destruct (next_reply (after_routing _ _ _ _ _)) as [raw|reason] eqn:Hreply;
      [|done].
    injection Hrun as _ ->. exists raw.
    erewrite events_since_app.
    2:{ rewrite Ht5, save_profession_prompt_trace. autorewrite with world.
        rewrite Hreply, Ht3, Ht2, <-!app_assoc. done. }
    rewrite !elem_of_app. right. right. right. left. by left.
Qed.

(** X14: for an identity and a label that fit their columns (at most
    255 characters, no NUL character) and a model whose replies hold no
    NUL character, a request that is answered has sent for generation a
    context built from two things that are in the database: the history
    of the thread of the identity and the label of the response, as it
    was stored before the request, and an instruction text that is not
    empty and is the one stored for this identity and this label once
    the request is over.  The response carries the identity of the
    request, which is a stored identity afterwards, and a label that is
    not empty. *)
Theorem answered_request_uses_stored_state request w resp w' :
  chat request w = (Http200 resp, w') →
  storable 255 (req_user_id request) →
  storable 255 (resp_persona_name resp) →
  Forall clean_reply (pending w) →
  let u := req_user_id request in
  let label := resp_persona_name resp in
  resp_user_id resp = u ∧
  label ≠ "" ∧
  u ∈ users (db w') ∧
  ∃ prompt r,
    LLM (Generate (build_messages prompt (select_thread u label (db w))
                     (req_message request))) r ∈ events_since w w' ∧
    prompt ≠ "" ∧
    (get_profession_prompt u label w').1 = Ok (Some prompt).
Proof.
  intros (Hid & Hl & Hup & Hup' & Hus & prompt & r & Hin & Hne & Hprofs & _)
    %chat_answered_world Hsu Hsl Hclean u label.
  cbv zeta in Hus, Hin, Hprofs. fold u label in Hus, Hin, Hprofs.
  destruct (after_validate_db w u) as (Hup2 & _ & _ & _ & Hu2 & _).
  assert (u ∈ users (db (after_validate w u))) as Hknown by (by apply Hu2).
  split_and!; [done|done|by rewrite Hus|].
  exists prompt, r. split_and!; [done..|].
  rewrite get_profession_prompt_run, Hup'. cbn [fst]. f_equal.
  destruct Hprofs as [[-> ?]|[(raw & Hraw & Hprompt) ->]]; [done|].
  rewrite Forall_forall in Hclean. specialize (Hclean _ Hraw). cbn in Hclean.
  rewrite accepted_profile_storable; try done.
  - apply select_prompt_upsert.
  - congruence.
  - rewrite Hprompt. apply synthesized_prompt_clean; [apply Hsl|done].
Qed.

Lemma filter_none {A} (P : A → Prop) `{∀ x, Decision (P x)} (l : list A) :
  Forall (λ x, ¬ P x) l → filter P l = [].
Proof.
  induction 1 as [|x l Hx _ IH]; [done|].
  by rewrite filter_cons_False.
Qed.

(** X15: a request that is answered, for an identity and under a label
    of at most 255 characters, touches one thread and one profile: for
    every other pair of an identity and a label, the stored history and
    the stored instruction text are what they were before. *)
Theorem request_touches_one_thread request w resp w' u' p' :
  chat request w = (Http200 resp, w') →
  String.length (req_user_id request) ≤ 255 →
  String.length (resp_persona_name resp) ≤ 255 →
  (u', p') ≠ (req_user_id request, resp_persona_name resp) →
  select_thread u' p' (db w') = select_thread u' p' (db w) ∧
  select_prompt u' p' (professions (db w')) =
    select_prompt u' p' (professions (db w)).
Proof.
  intros (_ & _ & _ & _ & _ & prompt & r & _ & _ & Hprofs & Hr)
    %chat_answered_world Hu Hl Hother.
  cbv zeta in Hprofs, Hr. split.
  - destruct r as [answer|reason].
    + destruct Hr as (_ & _ & Hrows). unfold select_thread.
      rewrite Hrows, filter_app.
      rewrite (filter_none (of_thread u' p') (exchange_rows _ _ _ _ _));
        [by rewrite app_nil_r|].
      apply Forall_forall. intros row (_ & _ & Hku & Hkl & _)%exchange_rows_keys.
      apply stored_as_short in Hku; [|done].
      apply stored_as_short in Hkl; [|done].
      intros [Hu' Hp']. apply Hother. congruence.
    + destruct Hr as (_ & Hrows). by apply select_thread_ext.
  - destruct Hprofs as [[-> _]|[_ ->]]; [done|].
    destruct (accepted_profile _ _ _ _) as [row|] eqn:Hrow; [|done].
    apply accepted_profile_row in Hrow as (_ & _ & Hku & Hkl & _).
    apply stored_as_short in Hku as ->; [|done].
    apply stored_as_short in Hkl as ->; [|done].
    by apply select_prompt_upsert_other.
Qed.

(** X16: the next message of a persona thread sees the exchange before
    it.  Take two requests of one identity answered under one label, the
    identity and the label fitting their columns (at most 255
    characters, no NUL character), the first message and the replies of
    the model without NUL character, in a database whose turns are in
    the order of their timestamps and whose clock runs forward.  The
    context sent for the second is built on the history of the thread
    before the first, followed by the inbound turn of the first and the
    answer it was given, with the two readings of the clock; when the
    generation of the first failed, it is built on the history before
    the first alone, the first message being lost. *)
Theorem next_message_sees_the_exchange request request' w resp w1 resp' w2 :
  chronological (db w) →
  clock_runs_forward (db w) →
  Forall clean_reply (pending w) →
  chat request w = (Http200 resp, w1) →
  chat request' w1 = (Http200 resp', w2) →
  req_user_id request' = req_user_id request →
  resp_persona_name resp' = resp_persona_name resp →
  storable 255 (req_user_id request) →
  storable 255 (resp_persona_name resp) →
  has_nul (req_message request) = false →
  let u := req_user_id request in
  let label := resp_persona_name resp in
  let before := select_thread u label (db w) in
  ∃ prompt r prompt' r',
    LLM (Generate (build_messages prompt before (req_message request))) r
      ∈ events_since w w1 ∧
    LLM (Generate
           (build_messages prompt'
              match r with
              | Content answer =>
                  before ++ [Turn "user" (req_message request) (clock (db w) 0);
                             Turn "assistant" answer (clock (db w) 1)]
              | Failure _ => before
              end
              (req_message request'))) r'
      ∈ events_since w1 w2.
Proof.
  intros Hchrono Hclock Hclean
    (_ & _ & Hup & _ & _ & prompt & r & Hin & _ & _ & Hr)%chat_answered_world
    (_ & _ & _ & _ & _ & prompt' & r' & Hin' & _)%chat_answered_world
    Hu Hl Hsu Hsl Hm u label before.
  cbv zeta in Hin, Hr, Hin'. rewrite Hu, Hl in Hin'.
  fold u label in Hin, Hr, Hin'.
  exists prompt, r, prompt', r'. split; [exact Hin|].
  replace (match r with
           | Content answer => _
           | Failure _ => before
           end) with (select_thread u label (db w1)); [exact Hin'|].
  unfold before. destruct r as [answer|reason].
  - destruct Hr as (Hanswer & _ & Hrows).
    rewrite Forall_forall in Hclean. specialize (Hclean _ Hanswer).
    cbn in Hclean.
    destruct (after_validate_db w u) as (Hup2 & Hconv2 & _ & Hclock2 & Hu2 & _).
    apply (select_thread_exchange (db w) (db w1)); [done..|].
    rewrite Hrows, <-Hconv2, exchange_rows_storable; try done.
    + unfold with_exchange. by rewrite Hconv2, Hclock2.
    + congruence.
    + by apply Hu2.
  - destruct Hr as (_ & Hrows). by apply select_thread_ext.
Qed.

(** ** What every reachable database satisfies *)

Lemma upsert_Forall (P : prof_row → Prop) u p t rows :
  P (ProfRow u p t) → Forall P rows → Forall P (upsert u p t rows).
Proof.
  intros Hnew. induction 1 as [|r rows Hr Hrows IH]; simpl.
  - by repeat constructor.
  - case_decide; by constructor.
Qed.

Lemma NoDup_fmap_filter {A B} (f : A → B) (P : A → Prop)
    `{!∀ x, Decision (P x)} (l : list A) :
  NoDup (f <$> l) → NoDup (f <$> filter P l).
Proof.
  induction l as [|x l IH]; csimpl; [done|].
  intros [Hx Hl]%NoDup_cons. rewrite filter_cons.
  case_decide; csimpl; [|by apply IH].
  apply NoDup_cons. split; [|by apply IH].
  intros (y & Hy & [_ Hin]%list_elem_of_filter)%list_elem_of_fmap.
  apply Hx, list_elem_of_fmap. by exists y.
Qed.

(** The tables a request leaves: profiles change by one upsert at most,
    of a row the database accepted; turns by the rows of one exchange at
    most, stored under a label that is not empty. *)
Lemma chat_tables request w :
  let w' := (chat request w).2 in
  (professions (db w') = professions (db w) ∨
   ∃ row,
     p_user row ∈ users (db w') ∧ storable 255 (p_profession row) ∧
     has_nul (p_prompt row) = false ∧
     professions (db w') =
       upsert (p_user row) (p_profession row) (p_prompt row)
         (professions (db w))) ∧
  ∃ rows,
    conversations (db w') = conversations (db w) ++ rows ∧
    Forall (λ r, c_user r ∈ users (db w') ∧
                 storable 255 (c_persona r) ∧
                 has_nul (c_message r) = false ∧
                 c_persona r ≠ "" ∧
                 (c_role r = "user" ∨ c_role r = "assistant")) rows.
Proof.
  cbv zeta.
  destruct (chat request w) as [[resp|status detail] w'] eqn:Hchat; cbn [snd].
  - apply chat_answered_world in Hchat
      as (_ & Hl & _ & _ & Hus & prompt & r & _ & _ & Hprofs & Hr).
    cbv zeta in Hus, Hprofs, Hr. split.
    + destruct Hprofs as [[? _]|[_ Hprofs]]; [by left|].
      destruct (accepted_profile _ _ _ _) as [row|] eqn:Hrow; [|by left].
      apply accepted_profile_row in Hrow as (_ & Hin & _ & Hkl & Hkt).
      right. exists row. split_and!; [by rewrite Hus| | |done].
      * by apply stored_as_fits in Hkl.
      * apply stored_text_value in Hkt as [-> ?]. done.
    + destruct r as [answer|reason].
      * destruct Hr as (_ & _ & Hrows). eexists. split; [exact Hrows|].
        apply Forall_forall.
        intros row (_ & Hin & _ & Hkl & Hrole & Hm)%exchange_rows_keys.
        split_and!; [by rewrite Hus| |done| |done].
        -- by apply stored_as_fits in Hkl.
        -- apply (stored_as_nonempty 255 _ _ ltac:(lia) Hkl Hl).
      * destruct Hr as (_ & Hrows). exists []. by rewrite app_nil_r.
  - apply chat_fails_rows in Hchat as [Hconv Hprofs].
    split; [by left|]. exists []. by rewrite app_nil_r.
Qed.

Lemma chat_consistent request w :
  consistent (db w) → consistent (db (chat request w).2).
Proof.
  intros [Hus Hkeys Hturns Hprofs Hufit Htfit Hpfit Hlabels].
  destruct (chat_users request w) as (_ & Husers).
  destruct (chat_tables request w) as (Hp & rows & Hc & Hrows).
  cbv zeta in Husers, Hp, Hc, Hrows.
  set (u := req_user_id request) in *. set (w' := (chat request w).2) in *.
  assert (∀ x, x ∈ users (db w) → x ∈ users (db w')) as Hgrow.
  { intros x Hx. rewrite Husers. case_bool_decide; [done|].
    destruct (accepted_user u (db w)); [|done]. apply elem_of_app. by left. }
  split.
  - rewrite Husers. case_bool_decide as Hu; [done|].
    destruct (accepted_user u (db w)) as [k|] eqn:Hk; [|done].
    apply accepted_user_key in Hk as (_ & Hnew & _).
    apply NoDup_app. split_and!; [done| |apply NoDup_singleton].
    by intros x Hx ->%list_elem_of_singleton.
  - destruct Hp as [->|(row & _ & _ & _ & ->)]; [done|].
    by apply unique_profiles_upsert.
  - rewrite Hc. apply Forall_app. split.
    + eapply Forall_impl; [exact Hturns|]. intros r. apply Hgrow.
    + eapply Forall_impl; [exact Hrows|]. by intros r (? & _).
  - destruct Hp as [->|(row & Hu & _ & _ & ->)].
    + eapply Forall_impl; [exact Hprofs|]. intros r. apply Hgrow.
    + apply upsert_Forall; [done|].
      eapply Forall_impl; [exact Hprofs|]. intros r. apply Hgrow.
  - rewrite Husers. case_bool_decide as Hu; [done|].
    destruct (accepted_user u (db w)) as [k|] eqn:Hk; [|done].
    apply accepted_user_key in Hk as (_ & _ & Hk%stored_as_fits).
    apply Forall_app. split; [done|]. by apply Forall_singleton.
  - rewrite Hc. apply Forall_app. split; [done|].
    eapply Forall_impl; [exact Hrows|]. by intros r (_ & ? & ? & _).
  - destruct Hp as [->|(row & _ & Hl & Ht & ->)]; [done|].
    by apply upsert_Forall.
  - rewrite Hc. apply Forall_app. split; [done|].
    eapply Forall_impl; [exact Hrows|]. by intros r (_ & _ & _ & ? & ?).
Qed.

Lemma delete_user_consistent u w :
  consistent (db w) → consistent (db (delete_user u w).2).
Proof.
  intros [Hus Hkeys Hturns Hprofs Hufit Htfit Hpfit Hlabels].
  unfold delete_user, endpoint, bind. rewrite delete_user_data_run.
  destruct (up (db w)); [|done]. cbn [snd]. autorewrite with world.
  rewrite Forall_forall in Hturns. rewrite Forall_forall in Hprofs.
  rewrite Forall_forall in Hlabels. rewrite Forall_forall in Hufit.
  rewrite Forall_forall in Htfit. rewrite Forall_forall in Hpfit.
  split; cbn [users conversations professions].
  - by apply NoDup_filter.
  - by apply NoDup_fmap_filter.
  - apply Forall_forall. intros r [Hr Hin]%list_elem_of_filter.
    apply list_elem_of_filter. split; [done|by apply Hturns].
  - apply Forall_forall. intros r [Hr Hin]%list_elem_of_filter.
    apply list_elem_of_filter. split; [done|by apply Hprofs].
  - apply Forall_forall. intros r [_ Hin]%list_elem_of_filter.
    by apply Hufit.
  - apply Forall_forall. intros r [_ Hin]%list_elem_of_filter.
    by apply Htfit.
  - apply Forall_forall. intros r [_ Hin]%list_elem_of_filter.
    by apply Hpfit.
  - apply Forall_forall. intros r [_ Hin]%list_elem_of_filter.
    by apply Hlabels.
Qed.

(** X17: whatever calls the service has answered since it started,
    whatever the model replied and whatever the clock read, the database
    keeps the constraints of its schema and what the pipeline adds to
    them: no identity and no pair of identity and profession is stored
    twice; every turn and every profile belongs to a stored identity;
    every stored identity and every stored label has at most 255
    characters, and no stored key, message or instruction text holds a
    NUL character; every turn has a label that is not empty and the role
    [user] or [assistant]; no stored instruction text is empty. *)
Theorem reachable_database_is_consistent w :
  reachable w → consistent (db w) ∧ prompts_nonempty (db w).
Proof.
  intros Hw. split.
  - revert w Hw. unfold reachable.
    apply (rtc_ind_r (λ w, consistent (db w)) (fresh_world [])).
    + split; cbn; constructor.
    + intros w1 w2 _ Hstep IH.
      destruct Hstep as [request w1|u w1|u w1|u w1|w1 up' script readings].
      * by apply chat_consistent.
      * by apply delete_user_consistent.
      * by rewrite (proj1 (query_endpoints_db u w1)).
      * by rewrite (proj2 (query_endpoints_db u w1)).
      * by destruct IH.
  - by apply reachable_prompts_nonempty.
Qed.

(** The database [DELETE /user] leaves when it is reachable. *)
Lemma delete_user_db u w :
  up (db w) = true →
  db (delete_user u w).2 =
    MkDB true (filter (λ x, x ≠ u) (users (db w)))
      (filter (λ r, c_user r ≠ u) (conversations (db w)))
      (filter (λ r, p_user r ≠ u) (professions (db w))) (clock (db w)).
Proof.
  intros Hup. unfold delete_user, endpoint, bind.
  rewrite delete_user_data_run, Hup. cbn [snd]. autorewrite with world.
  done.
Qed.

(** X19: deleting an identity forgets it.  After [DELETE /user] the
    identity is not stored.  When its next message is answered, and the
    identity fits its column (at most 255 characters, no NUL character),
    [create_user] is called and the identity is stored again; the model
    is asked to synthesize an instruction text for the label of the
    response, whatever was stored for it before the deletion; and the
    context sent for generation holds the instruction text and the
    inbound message only, no earlier turn. *)
Theorem deleted_identity_starts_afresh request w resp w' :
  up (db w) = true →
  storable 255 (req_user_id request) →
  let u := req_user_id request in
  let w0 := (delete_user u w).2 in
  chat request w0 = (Http200 resp, w') →
  (u ∉ users (db w0)) ∧
  CreateUser u ∈ events_since w0 w' ∧
  u ∈ users (db w') ∧
  (∃ raw,
     LLM (Synthesize (resp_persona_name resp)) (Content raw)
       ∈ events_since w0 w') ∧
  ∃ prompt r,
    LLM (Generate [SystemMessage prompt; HumanMessage (req_message request)]) r
      ∈ events_since w0 w'.
Proof.
  intros Hup Hsu u w0 Hchat.
  pose proof (delete_user_db u w Hup) as Hdb. fold w0 in Hdb.
  destruct (chat_answered_events _ _ _ _ Hchat) as [Hcreate Hsynthesis].
  destruct (chat_answered_world _ _ _ _ Hchat)
    as (_ & _ & Hup0 & _ & Hus & prompt & r & Hsent & _).
  cbv zeta in Hcreate, Hsynthesis, Hsent, Hus.
  fold u in Hcreate, Hsynthesis, Hsent, Hus.
  destruct (after_validate_db w0 u) as (_ & _ & _ & _ & Hu2 & _).
  assert (u ∉ users (db w0)) as Hgone.
  { rewrite Hdb. cbn [users]. by intros [? _]%list_elem_of_filter. }
  split_and!.
  - done.
  - by apply Hcreate.
  - rewrite Hus. by apply Hu2.
  - apply Hsynthesis. rewrite Hdb. cbn [professions].
    apply select_prompt_deleted.
  - exists prompt, r.
    replace (select_thread u (resp_persona_name resp) (db w0))
      with (@nil turn) in Hsent; [exact Hsent|].
    unfold select_thread. rewrite Hdb. cbn [conversations].
    by rewrite filter_thread_deleted.
Qed.

Lemma accepted_turn_refused u p r m d :
  up d = false ∨ (∀ k, stored_as 255 u = Some k → k ∉ users d) →
  accepted_turn u p r m d = None.
Proof.
  intros Hno. destruct (accepted_turn u p r m d) as [row|] eqn:Hrow; [|done].
  apply accepted_turn_row in Hrow as (Hup & Hin & _ & Hk & _).
  destruct Hno as [Hdown|Hnew]; [congruence|]. by destruct (Hnew _ Hk).
Qed.

(** X20: [execute_chat] does not look at what [save_message] returns.
    With an instruction text in the state and an answer of the model,
    when the database cannot be reached or the identity, as its column
    stores it, is not a stored one, the node makes no profile lookup,
    answers with the text of the model and completes, while neither turn
    is stored: the database is what it was. *)
Theorem unsaved_exchange_is_still_answered state prompt answer w :
  truthy_str (profession_prompt state) = Some prompt →
  next_reply w = Content answer →
  (up (db w) = false ∨
   ∀ k, stored_as 255 (user_id state) = Some k → k ∉ users (db w)) →
  ∃ w',
    execute_chat state w = (Ok (completed state prompt answer), w') ∧
    response (completed state prompt answer) = Some answer ∧
    db w' = db w ∧
    events_since w w' =
      [LLM (Generate (build_messages prompt
                        (default [] (conversation_history state))
                        (st_message state))) (Content answer);
       SaveMessage (user_id state) (executor_label state) "user"
         (st_message state);
       SaveMessage (user_id state) (executor_label state) "assistant" answer].
Proof.
  intros Hprompt Hreply Hstore. eexists.
  rewrite execute_chat_run. cbv zeta. rewrite Hprompt. unfold ret.
  rewrite Hreply.
  split; [done|]. split; [done|].
  rewrite (save_message_run _ _ "user"). autorewrite with world.
  rewrite accepted_turn_refused by done. cbn [snd].
  rewrite save_message_run. autorewrite with world.
  rewrite accepted_turn_refused by done.
  cbn [snd]. autorewrite with world. split; [done|].
  apply events_since_app. autorewrite with world.
  by rewrite Hreply, <-!app_assoc.
Qed.

End pipeline_coverage.

(** ** The pipeline on further concrete runs *)

Section pipeline_examples.
#[local] Existing Instance codepoint_collation.
#[local] Existing Instance sample_isoformat.

(** A first message while the database is down. *)
Lemma storage_down_aborts_the_request_witness :
  let w := world_down (script_proposing "mentor") in
  (@chat sample_decoder first_request w).1 =
    HttpError 500 "could not connect to server" ∧
  pending (@chat sample_decoder first_request w).2 = pending w ∧
  db (@chat sample_decoder first_request w).2 = db w.
Proof.
  intros w.
  by rewrite (@storage_down_aborts_the_request sample_decoder first_request w
                eq_refl).
Defined.



(** A reply of the synthesis that is only whitespace, for a pair that has
    no profile next to one that has. *)
Lemma profile_is_written_once_witness :
  let w := MkWorld db_with_profile [Content "   "] [] in
  ∃ w1,
    get_or_create_profession_prompt "u1" "chef" w =
      (Ok (fallback_prompt "chef"), w1) ∧
    db_manager.select_prompt "u1" "chef" (professions (db w1)) = Some (fallback_prompt "chef") ∧
    db_manager.select_prompt "u1" "mentor" (professions (db w1)) = Some "Be a patient mentor.".
Proof.
  intros w.
  destruct (profile_is_written_once "u1" "chef" "   " w)
    as (w1 & Hrun & _ & _ & Hstored & Hothers & _).
  - reflexivity.
  - by left.
  - split; [reflexivity|cbn; lia].
  - split; [reflexivity|cbn; lia].
  - reflexivity.
  - reflexivity.
  - reflexivity.
  - exists w1. split; [exact Hrun|]. split; [exact Hstored|].
    by rewrite Hothers.
Defined.

(** A first message, answered under [mentor]. *)
Lemma answered_request_uses_stored_state_witness :
  let w := fresh_world (script_proposing "mentor") in
  let w' := (@chat sample_decoder first_request w).2 in
  "u1" ∈ users (db w') ∧
  ∃ prompt r,
    LLM (Generate (build_messages prompt [] "act like an investor")) r
      ∈ events_since w w' ∧
    (db_manager.get_profession_prompt "u1" "mentor" w').1 = Ok (Some prompt).
Proof.
  intros w w'.
  destruct (@answered_request_uses_stored_state sample_decoder first_request w
              (MkResponse "Let us look at the numbers." "mentor" "u1") w')
    as (_ & _ & Hknown & prompt & r & Hsent & _ & Hstored).
  - by vm_compute.
  - split; [reflexivity|cbn; lia].
  - split; [reflexivity|cbn; lia].
  - vm_compute. repeat constructor.
  - split; [exact Hknown|]. exists prompt, r.
    vm_compute in Hsent, Hstored. vm_compute. by split.
Defined.

(** A message answered under [mentor], for an identity that has a thread
    and a profile under [chef]. *)
Lemma request_touches_one_thread_witness :
  let w := MkWorld db_with_thread (script_proposing "mentor") [] in
  let w' := (@chat sample_decoder first_request w).2 in
  db_manager.select_thread "u1" "chef" (db w') = [Turn "user" "hi" 0] ∧
  db_manager.select_prompt "u1" "chef" (professions (db w')) = Some "Be a chef.".
Proof.
  intros w w'.
  destruct (@request_touches_one_thread sample_decoder first_request w
              (MkResponse "Let us look at the numbers." "mentor" "u1") w'
              "u1" "chef") as [Hthread Hprofile].
  - by vm_compute.
  - cbn. lia.
  - cbn. lia.
  - by intros [=].
  - vm_compute in Hthread, Hprofile. vm_compute. by split.
Defined.

(** A key of more than 255 characters can write into the thread of
    another identity: the message of a key of 255 characters followed by
    a space is stored in the thread of the key without the space. *)
Example padded_key_writes_into_another_thread :
  let w := MkWorld (MkDB true [full_key] [] [] (ticking 0))
             (script_proposing "mentor") [] in
  let request := MkRequest padded_key "act like an investor" default_persona_name in
  let run := @chat sample_decoder request w in
  run.1 = Http200 (MkResponse "Let us look at the numbers." "mentor" padded_key) ∧
  db_manager.select_thread full_key "mentor" (db w) = [] ∧
  db_manager.select_thread full_key "mentor" (db run.2) =
    [Turn "user" "act like an investor" 0;
     Turn "assistant" "Let us look at the numbers." 1].
Proof. by vm_compute. Qed.

(** Two messages of [u1] in a row, both answered under [mentor]. *)
Lemma next_message_sees_the_exchange_witness :
  let w := fresh_world script_of_two_messages in
  let w1 := (@chat sample_decoder first_request w).2 in
  let w2 := (@chat sample_decoder first_request w1).2 in
  ∃ r prompt' r',
    (∃ prompt,
       LLM (Generate (build_messages prompt [] "act like an investor")) r
         ∈ events_since w w1) ∧
    LLM (Generate
           (build_messages prompt'
              match r with
              | Content answer =>
                  [Turn "user" "act like an investor" 0;
                   Turn "assistant" answer 1]
              | Failure _ => []
              end
              "act like an investor")) r'
      ∈ events_since w1 w2.
Proof.
  intros w w1 w2.
  destruct (@next_message_sees_the_exchange sample_decoder
              first_request first_request w
              (MkResponse "Let us look at the numbers." "mentor" "u1") w1
              (MkResponse "Mind the cash flow." "mentor" "u1") w2)
    as (prompt & r & prompt' & r' & Hfirst & Hsecond).
  - constructor.
  - split; [constructor|]. intros i. cbn. lia.
  - vm_compute. repeat constructor.
  - by vm_compute.
  - by vm_compute.
  - reflexivity.
  - reflexivity.
  - split; [reflexivity|cbn; lia].
  - split; [reflexivity|cbn; lia].
  - reflexivity.
  - exists r, prompt', r'. split; [by exists prompt|exact Hsecond].
Defined.

(** The database a first message leaves. *)
Lemma reachable_database_is_consistent_witness :
  let w := (@chat sample_decoder first_request
              (fresh_world (script_proposing "mentor"))).2 in
  consistent (db w) ∧ prompts_nonempty (db w).
Proof.
  intros w.
  apply (@reachable_database_is_consistent sample_decoder codepoint_collation
           sample_isoformat).
  eapply rtc_l;
    [apply (step_environment _ true (script_proposing "mentor") (ticking 0))|].
  eapply rtc_l; [apply (step_chat first_request)|]. apply rtc_refl.
Defined.

(** Identity [u1], who has a profile for [mentor], is deleted and writes
    again. *)
Lemma deleted_identity_starts_afresh_witness :
  let w := MkWorld db_with_profile (script_proposing "mentor") [] in
  let w0 := (delete_user "u1" w).2 in
  let w' := (@chat sample_decoder first_request w0).2 in
  ("u1" ∉ users (db w0)) ∧ "u1" ∈ users (db w') ∧
  ∃ raw, LLM (Synthesize "mentor") (Content raw) ∈ events_since w0 w'.
Proof.
  intros w w0 w'.
  destruct (@deleted_identity_starts_afresh sample_decoder first_request w
              (MkResponse "Let us look at the numbers." "mentor" "u1") w')
    as (Hgone & _ & Hstored & Hsynthesized & _).
  - reflexivity.
  - split; [reflexivity|cbn; lia].
  - by vm_compute.
  - vm_compute in Hgone, Hstored, Hsynthesized. vm_compute. by split_and!.
Defined.

(** A state that carries its instruction text, the database out of
    reach. *)
Lemma unsaved_exchange_is_still_answered_witness :
  let state :=
    set_profession_prompt (routed (initial_state first_request) "mentor" [])
      "Be a mentor." in
  let w := world_down [Content "Hello."] in
  ∃ w',
    @execute_chat state w = (Ok (completed state "Be a mentor." "Hello."), w') ∧
    db w' = db w.
Proof.
  intros state w.
  destruct (unsaved_exchange_is_still_answered state "Be a mentor." "Hello." w)
    as (w' & Hrun & _ & Hdb & _).
  - reflexivity.
  - reflexivity.
  - by left.
  - by exists w'.
Defined.

End pipeline_examples.
